(** * User management client: API layer and form controller

    A shallow embedding of [lib/api.js] (response unwrapping, query
    strings, the five request wrappers, date formatting and the record
    validator) and of the validation and submission logic of
    [components/UserForm.js].

    Conventions of the embedding.
    - A JavaScript string is a [string]: one [ascii] per code unit, so the
      strings covered are those whose code units lie below 256.
    - A JavaScript number is an integer [VNum n] (printed in plain decimal
      digits, as [Number::toString] does below 10^21) or [VNaN].
    - A thrown exception is the [Throw] branch of [outcome]; what is
      thrown is an [Error] object, given by its name and its message (a
      string). Code from outside (the [onSuccess] callback) is taken to
      throw nothing else.
    - Everything the code does to the outside world (requests, console
      output, callbacks, timers) is appended to a chronological trace. *)

From Stdlib Require Import ZArith Ascii String List Bool Lia Sorted Permutation.
From stdpp Require Import gmap strings pretty.

Local Open Scope string_scope.
Local Open Scope Z_scope.
Local Open Scope list_scope.
Local Set Warnings "-register-all".
#[local] Arguments String.append : simpl nomatch.

(* ================================================================= *)
(** ** Strings *)

Definition code (c : ascii) : N := N_of_ascii c.

Definition in_range (lo hi : string) (c : ascii) : bool :=
  match lo, hi with
  | String l _, String h _ => ((code l <=? code c) && (code c <=? code h))%N
  | _, _ => false
  end.

Definition is_char (x : string) (c : ascii) : bool :=
  match x with
  | String a _ => Ascii.eqb a c
  | EmptyString => false
  end.

(** [\d] *)
Definition is_digit (c : ascii) : bool := in_range "0" "9" c.

(** [[a-zA-Z]] *)
Definition is_letter (c : ascii) : bool :=
  in_range "a" "z" c || in_range "A" "Z" c.

(** [\s], and the characters [String.prototype.trim] strips: TAB, LF,
    VT, FF, CR, SPACE and NO-BREAK SPACE are the ones below 256. *)
Definition is_space (c : ascii) : bool :=
  ((9 <=? code c) && (code c <=? 13) || (code c =? 32) || (code c =? 160))%N.

Fixpoint trimStart (s : string) : string :=
  match s with
  | String c s' => if is_space c then trimStart s' else s
  | EmptyString => EmptyString
  end.

Fixpoint trimEnd (s : string) : string :=
  match s with
  | String c s' =>
      match trimEnd s' with
      | EmptyString => if is_space c then EmptyString else String c EmptyString
      | t => String c t
      end
  | EmptyString => EmptyString
  end.

(** [s.trim()] *)
Definition trim (s : string) : string := trimEnd (trimStart s).

(** [s.includes(t)] *)
Fixpoint includes (s t : string) : bool :=
  String.prefix t s ||
  match s with
  | String _ s' => includes s' t
  | EmptyString => false
  end.

(** [s.split(sep)[0]] for a one-character separator: the text before its
    first occurrence, or all of [s]. *)
Fixpoint split_first (sep : ascii) (s : string) : string :=
  match s with
  | String c s' =>
      if Ascii.eqb c sep then EmptyString else String c (split_first sep s')
  | EmptyString => EmptyString
  end.

(** [parts.join(sep)] *)
Fixpoint join (sep : string) (parts : list string) : string :=
  match parts with
  | [] => ""
  | [p] => p
  | p :: rest => p +:+ sep +:+ join sep rest
  end.

(* ================================================================= *)
(** ** Regular expressions

    The patterns of the source are all anchored at both ends, so
    [re.test(s)] is a whole-string match; it is decided by derivatives. *)

Inductive regex : Type :=
| Void
| Eps
| Class (p : ascii -> bool)
| Cat (r1 r2 : regex)
| Alt (r1 r2 : regex)
| Star (r : regex).

(** [r+] *)
Definition Plus (r : regex) : regex := Cat r (Star r).

(** [r?] *)
Definition Opt (r : regex) : regex := Alt Eps r.

(** [r{n}] *)
Fixpoint Times (n : nat) (r : regex) : regex :=
  match n with
  | O => Eps
  | S n' => Cat r (Times n' r)
  end.

(** At most [n] copies of [r]. *)
Fixpoint UpTo (n : nat) (r : regex) : regex :=
  match n with
  | O => Eps
  | S n' => Opt (Cat r (UpTo n' r))
  end.

(** [r{lo,hi}] *)
Definition Between (lo hi : nat) (r : regex) : regex :=
  Cat (Times lo r) (UpTo (hi - lo) r).

Definition Lit (x : string) : regex := Class (is_char x).

Fixpoint nullable (r : regex) : bool :=
  match r with
  | Void => false
  | Eps => true
  | Class _ => false
  | Cat r1 r2 => nullable r1 && nullable r2
  | Alt r1 r2 => nullable r1 || nullable r2
  | Star _ => true
  end.

Fixpoint derive (c : ascii) (r : regex) : regex :=
  match r with
  | Void => Void
  | Eps => Void
  | Class p => if p c then Eps else Void
  | Cat r1 r2 =>
      if nullable r1
      then Alt (Cat (derive c r1) r2) (derive c r2)
      else Cat (derive c r1) r2
  | Alt r1 r2 => Alt (derive c r1) (derive c r2)
  | Star r' => Cat (derive c r') (Star r')
  end.

(** [/^r$/.test(s)] *)
Fixpoint test (r : regex) (s : string) : bool :=
  match s with
  | EmptyString => nullable r
  | String c s' => test (derive c r) s'
  end.

(** The language of a pattern, for reasoning about [test]. *)
Inductive Matches : regex -> string -> Prop :=
| MEps : Matches Eps ""
| MClass p c : p c = true -> Matches (Class p) (String c "")
| MCat r1 r2 s1 s2 :
    Matches r1 s1 -> Matches r2 s2 -> Matches (Cat r1 r2) (s1 +:+ s2)
| MAltL r1 r2 s : Matches r1 s -> Matches (Alt r1 r2) s
| MAltR r1 r2 s : Matches r2 s -> Matches (Alt r1 r2) s
| MStarNil r : Matches (Star r) ""
| MStarCons r s1 s2 :
    Matches r s1 -> Matches (Star r) s2 -> Matches (Star r) (s1 +:+ s2).

(** [/^[a-zA-Z\s]+$/] *)
Definition lettersSpacesRegex : regex :=
  Plus (Class (fun c => is_letter c || is_space c)).

(** [/^[+]?[\d\s\-\(\)]{10,15}$/] *)
Definition phoneRegex : regex :=
  Cat (Opt (Lit "+"))
      (Between 10 15
         (Class (fun c => is_digit c || is_space c || is_char "-" c
                          || is_char "(" c || is_char ")" c))).

(** [/^[^\s@]+@[^\s@]+\.[^\s@]+$/] *)
Definition emailRegex : regex :=
  let word := Plus (Class (fun c => negb (is_space c || is_char "@" c))) in
  Cat word (Cat (Lit "@") (Cat word (Cat (Lit ".") word))).

(** [/^\d{4}-\d{2}-\d{2}$/] *)
Definition isoDateRegex : regex :=
  Cat (Times 4 (Class is_digit))
      (Cat (Lit "-")
           (Cat (Times 2 (Class is_digit))
                (Cat (Lit "-") (Times 2 (Class is_digit))))).

(* ================================================================= *)
(** ** Values, errors and outcomes *)

(** A [Date] object: its time value is a number of milliseconds since the
    epoch, or NaN (an "Invalid Date"). *)
Inductive date : Type :=
| InvalidDate
| DateAt (t : Z).

(** The data values the code handles: primitives, [Date] objects, arrays
    and plain objects (their own properties, in property order). *)
Inductive value : Type :=
| VUndefined
| VNull
| VBool (b : bool)
| VNum (n : Z)
| VNaN
| VStr (s : string)
| VDate (d : date)
| VArr (items : list value)
| VObj (fields : list (string * value)).

Record JsError : Type := mkError { error_name : string; message : string }.

Inductive outcome (A : Type) : Type :=
| Return (a : A)
| Throw (e : JsError).
Arguments Return {A} a.
Arguments Throw {A} e.

Definition obind {A B} (x : outcome A) (f : A -> outcome B) : outcome B :=
  match x with
  | Return a => f a
  | Throw e => Throw e
  end.

Notation "'let?' x := c1 'in' c2" := (obind c1 (fun x => c2))
  (at level 10, x name, c1 at level 100, c2 at level 200).

(** [!!v] *)
Definition ToBoolean (v : value) : bool :=
  match v with
  | VUndefined | VNull | VNaN => false
  | VBool b => b
  | VNum n => negb (n =? 0)
  | VStr s => negb (String.eqb s "")
  | VDate _ | VArr _ | VObj _ => true
  end.

(** [a || b] *)
Definition or_else (a b : value) : value := if ToBoolean a then a else b.

(** [typeof v === "string"] *)
Definition is_string (v : value) : bool :=
  match v with VStr _ => true | _ => false end.

(** [v !== undefined] *)
Definition is_defined (v : value) : bool :=
  match v with VUndefined => false | _ => true end.

Fixpoint lookup_field (k : string) (fields : list (string * value)) : value :=
  match fields with
  | (k', v) :: rest => if String.eqb k' k then v else lookup_field k rest
  | [] => VUndefined
  end.

(** [v.k] for a property name [k] that no prototype defines: a
    [TypeError] on [undefined] and [null], the own property of a plain
    object, [undefined] elsewhere. *)
Definition get (v : value) (k : string) : outcome value :=
  match v with
  | VUndefined =>
      Throw (mkError "TypeError"
               ("Cannot read properties of undefined (reading '" +:+ k +:+ "')"))
  | VNull =>
      Throw (mkError "TypeError"
               ("Cannot read properties of null (reading '" +:+ k +:+ "')"))
  | VObj fields => Return (lookup_field k fields)
  | _ => Return VUndefined
  end.

(** The values [String(v)] prints without reading a property of the
    value's own: all but an object with an own property named
    [toString] (a parsed JSON body can hold one; it is no function, so
    the conversion throws a [TypeError]) and an array with such an
    object among its elements. *)
Fixpoint printable (v : value) : bool :=
  match v with
  | VArr items => forallb printable items
  | VObj fields =>
      negb (existsb (fun kv => String.eqb (fst kv) "toString") fields)
  | _ => true
  end.

(* ================================================================= *)
(** ** Property order *)

(** The number a string of decimal digits writes, read after [acc]. *)
Fixpoint decimal (acc : N) (s : string) : option N :=
  match s with
  | String c s' =>
      if is_digit c then decimal (10 * acc + (code c - 48)) s' else None
  | EmptyString => Some acc
  end.

(** A key that is an array index: the decimal form, without leading
    zeros, of an integer from 0 to 2^32 - 2. *)
Definition arrayIndex (key : string) : option N :=
  match key with
  | EmptyString => None
  | String c rest =>
      if Ascii.eqb c "0" && negb (String.eqb rest "") then None
      else
        match decimal 0 key with
        | Some n => if (n <=? 4294967294)%N then Some n else None
        | None => None
        end
  end.

Definition isIndex (kv : string * value) : bool :=
  match arrayIndex (fst kv) with
  | Some _ => true
  | None => false
  end.

Definition indexOf (kv : string * value) : N :=
  match arrayIndex (fst kv) with
  | Some n => n
  | None => 0
  end.

Fixpoint insertByIndex (kv : string * value) (sorted : list (string * value))
  : list (string * value) :=
  match sorted with
  | [] => [kv]
  | kv' :: rest =>
      if (indexOf kv <=? indexOf kv')%N then kv :: sorted
      else kv' :: insertByIndex kv rest
  end.

(** [Object.entries(o)], for an object [o] given by its own properties
    in the order they were created (each key once): the properties
    whose key is an array index come first, in ascending numeric order,
    and the others follow in the order of their creation. *)
Definition entries (created : list (string * value)) : list (string * value) :=
  fold_right insertByIndex [] (List.filter isIndex created)
  ++ List.filter (fun kv => negb (isIndex kv)) created.

(* ================================================================= *)
(** ** Dates *)

Definition msPerDay : Z := 86400000.

(** Year, month (1..12) and day of the month of the day numbered [z]
    from 1970-01-01, in the proleptic Gregorian calendar. *)
Definition civil_from_days (z : Z) : Z * Z * Z :=
  let z := z + 719468 in
  let era := z / 146097 in
  let doe := z - era * 146097 in
  let yoe := (doe - doe / 1460 + doe / 36524 - doe / 146096) / 365 in
  let y := yoe + era * 400 in
  let doy := doe - (365 * yoe + yoe / 4 - yoe / 100) in
  let mp := (5 * doy + 2) / 153 in
  let d := doy - (153 * mp + 2) / 5 + 1 in
  let m := if mp <? 10 then mp + 3 else mp - 9 in
  (if m <=? 2 then y + 1 else y, m, d).

Definition YearFromTime (t : Z) : Z := fst (fst (civil_from_days (t / msPerDay))).
Definition MonthFromTime (t : Z) : Z := snd (fst (civil_from_days (t / msPerDay))).
Definition DateFromTime (t : Z) : Z := snd (civil_from_days (t / msPerDay)).

Definition digit (d : Z) : ascii := ascii_of_N (48 + Z.to_N d).

(** The [k] low decimal digits of [n], most significant first. *)
Fixpoint digits (k : nat) (n : Z) : string :=
  match k with
  | O => ""
  | S k' => digits k' (n / 10) +:+ String (digit (n mod 10)) ""
  end.

(** The year of the ISO format: four digits from 0 to 9999, a sign and
    six digits beyond. *)
Definition isoYear (y : Z) : string :=
  if (0 <=? y) && (y <=? 9999) then digits 4 y
  else (if y <? 0 then "-" else "+") +:+ digits 6 (Z.abs y).

(** [d.toISOString()] *)
Definition toISOString (d : date) : outcome string :=
  match d with
  | InvalidDate => Throw (mkError "RangeError" "Invalid time value")
  | DateAt t =>
      let ms := t mod msPerDay in
      Return (isoYear (YearFromTime t) +:+ "-" +:+ digits 2 (MonthFromTime t)
              +:+ "-" +:+ digits 2 (DateFromTime t)
              +:+ "T" +:+ digits 2 (ms / 3600000)
              +:+ ":" +:+ digits 2 (ms / 60000 mod 60)
              +:+ ":" +:+ digits 2 (ms / 1000 mod 60)
              +:+ "." +:+ digits 3 (ms mod 1000) +:+ "Z")
  end.

(* ================================================================= *)
(** ** The host: what the engine and its surroundings decide *)

Record Host : Type := mkHost {
  (** [String(d)] of a valid [Date], which prints local time *)
  dateToString : Z -> string;
  (** offset of local time from UTC at an instant, in milliseconds *)
  localTZA : Z -> Z;
  (** [process.env.NEXT_PUBLIC_API_URL] *)
  NEXT_PUBLIC_API_URL : option string
}.

Section WithHost.
Variable host : Host.

(** [String(v)], for a value that is [printable] *)
Fixpoint ToString (v : value) : string :=
  match v with
  | VUndefined => "undefined"
  | VNull => "null"
  | VBool true => "true"
  | VBool false => "false"
  | VNum n => pretty n
  | VNaN => "NaN"
  | VStr s => s
  | VDate InvalidDate => "Invalid Date"
  | VDate (DateAt t) => dateToString host t
  | VArr items =>
      join "," (map (fun x => match x with
                              | VUndefined | VNull => ""
                              | _ => ToString x
                              end) items)
  | VObj _ => "[object Object]"
  end.

(** [new Error(v)] *)
Definition Error (v : value) : JsError :=
  mkError "Error" (match v with VUndefined => "" | _ => ToString v end).

(** [d.getFullYear()], [None] standing for NaN *)
Definition getFullYear (d : date) : option Z :=
  match d with
  | InvalidDate => None
  | DateAt t => Some (YearFromTime (t + localTZA host t))
  end.

Definition hexDigit (n : N) : ascii :=
  if (n <? 10)%N then ascii_of_N (48 + n) else ascii_of_N (55 + n).

Definition percent (b : N) : string :=
  String "%" (String (hexDigit (b / 16)) (String (hexDigit (b mod 16)) "")).

(** The characters [encodeURIComponent] leaves alone. *)
Definition is_unreserved (c : ascii) : bool :=
  is_letter c || is_digit c || is_char "-" c || is_char "_" c
  || is_char "." c || is_char "!" c || is_char "~" c || is_char "*" c
  || is_char "'" c || is_char "(" c || is_char ")" c.

(** One code unit, through its UTF-8 bytes. *)
Definition encodeChar (c : ascii) : string :=
  if is_unreserved c then String c ""
  else if (code c <? 128)%N then percent (code c)
  else percent (192 + code c / 64) +:+ percent (128 + code c mod 64).

Fixpoint encodeString (s : string) : string :=
  match s with
  | String c s' => encodeChar c +:+ encodeString s'
  | EmptyString => ""
  end.

(** [encodeURIComponent(v)] *)
Definition encodeURIComponent (v : value) : string := encodeString (ToString v).

(* ================================================================= *)
(** ** The outside world *)

Record Request : Type := mkRequest {
  method : string;
  url : string;
  headers : list (string * string);
  (** the value handed to [JSON.stringify], when the request has a body *)
  body : option value
}.

(** A response: its status line and what [response.json()] resolves to
    (or rejects with). *)
Record Response : Type := mkResponse {
  status : Z;
  json : outcome value
}.

(** [response.ok]: the status is in the range 200..299. *)
Definition ok (r : Response) : bool := (200 <=? status r) && (status r <=? 299).

Inductive event : Type :=
| Fetch (req : Request)
| ConsoleError (label : string) (e : JsError)
| ConsoleLog (label : string) (v : value)
| OnSuccess (result : value)
| SetTimeout (delay : Z) (route : string)
| PreventDefault.

(** What [fetch] settles to, given everything that happened before. *)
Variable network : list event -> Request -> outcome Response.

(** A computation over a state that returns or throws. *)
Definition ST (S A : Type) : Type := S -> outcome A * S.

Definition ret {S A} (a : A) : ST S A := fun w => (Return a, w).

Definition throw {S A} (e : JsError) : ST S A := fun w => (Throw e, w).

Definition bind {S A B} (m : ST S A) (f : A -> ST S B) : ST S B :=
  fun w => match m w with
           | (Return a, w') => f a w'
           | (Throw e, w') => (Throw e, w')
           end.

Definition lift {S A} (x : outcome A) : ST S A := fun w => (x, w).

(** [try { m } catch (error) { handler error }] *)
Definition try_catch {S A} (m : ST S A) (handler : JsError -> ST S A) : ST S A :=
  fun w => match m w with
           | (Return a, w') => (Return a, w')
           | (Throw e, w') => handler e w'
           end.

(** [try { m } finally { cleanup }], for a [cleanup] that cannot throw *)
Definition finally {S A} (m : ST S A) (cleanup : S -> S) : ST S A :=
  fun w => let (r, w') := m w in (r, cleanup w').

(** The code of the API layer runs over the trace alone. *)
Definition M (A : Type) : Type := ST (list event) A.

Definition emit (ev : event) : M unit := fun w => (Return tt, w ++ [ev]).

Definition fetch (req : Request) : M Response :=
  fun w => (network w req, w ++ [Fetch req]).

(** [try { m } catch (error) { console.error(label, error); throw error; }] *)
Definition logging {A} (label : string) (m : M A) : M A :=
  try_catch m (fun error => bind (emit (ConsoleError label error))
                                 (fun _ => throw error)).

Notation "'let*' x := c1 'in' c2" := (bind c1 (fun x => c2))
  (at level 10, x name, c1 at level 100, c2 at level 200).

(* ================================================================= *)
(** ** lib/api.js *)

Definition API_BASE_URL : string :=
  match NEXT_PUBLIC_API_URL host with
  | Some s => if String.eqb s "" then "http://localhost:3000" else s
  | None => "http://localhost:3000"
  end.

Definition jsonHeaders : list (string * string) :=
  [("Content-Type", "application/json")].

Definition handleResponse (response : Response) : outcome value :=
  let? data := json response in
  if negb (ok response) then
    let? payload := get data "payload" in
    Throw (Error (or_else payload
                    (VStr ("HTTP error! status: " +:+ pretty (status response)))))
  else
    let? error := get data "error" in
    if ToBoolean error then
      let? payload := get data "payload" in
      Throw (Error (or_else payload (VStr "An error occurred")))
    else get data "payload".

(** The filter of the query builder: the value is not [undefined], not
    [null] and not the empty string. *)
Definition kept (v : value) : bool :=
  match v with
  | VUndefined | VNull | VStr "" => false
  | _ => true
  end.

(** [params] stands for the object through [Object.entries(params)]: its
    own properties in property order ([entries] gives it from the order
    of creation), which is insertion order for keys that are not integer
    indices. *)
Definition buildQueryString (params : list (string * value)) : string :=
  let filteredParams :=
    join "&"
      (map (fun '(key, value) =>
              encodeURIComponent (VStr key) +:+ "=" +:+ encodeURIComponent value)
         (List.filter (fun '(_, value) => kept value) params)) in
  if String.eqb filteredParams "" then "" else "?" +:+ filteredParams.

(** [filters] and [pagination] are plain objects, given by their
    properties; [getUsers()] is [getUsers [] []]. *)
Definition getUsers (filters pagination : list (string * value)) : M value :=
  logging "Error fetching users:"
    (let params :=
       [ ("name", lookup_field "name" filters);
         ("email", lookup_field "email" filters);
         ("country", lookup_field "country" filters);
         ("fromDate", lookup_field "fromDate" filters);
         ("toDate", lookup_field "toDate" filters);
         ("search", lookup_field "search" filters);
         ("page", or_else (lookup_field "page" pagination) (VNum 1));
         ("limit", or_else (lookup_field "limit" pagination) (VNum 10));
         ("sortBy", or_else (lookup_field "sortBy" pagination) (VStr "createdAt"));
         ("sortOrder", or_else (lookup_field "sortOrder" pagination) (VStr "DESC")) ] in
     let queryString := buildQueryString params in
     let* response := fetch (mkRequest "GET"
                          (API_BASE_URL +:+ "/api/users" +:+ queryString)
                          jsonHeaders None) in
     lift (handleResponse response)).

Definition getUserById (id : value) : M value :=
  logging ("Error fetching user " +:+ ToString id +:+ ":")
    (if negb (ToBoolean id) then throw (Error (VStr "User ID is required"))
     else
       let* response := fetch (mkRequest "GET"
                            (API_BASE_URL +:+ "/api/users/" +:+ ToString id)
                            jsonHeaders None) in
       lift (handleResponse response)).

Definition createUser (userData : value) : M value :=
  logging "Error creating user:"
    (if negb (ToBoolean userData) then throw (Error (VStr "User data is required"))
     else
       let* response := fetch (mkRequest "POST" (API_BASE_URL +:+ "/api/users")
                            jsonHeaders (Some userData)) in
       lift (handleResponse response)).

Definition updateUser (id userData : value) : M value :=
  logging ("Error updating user " +:+ ToString id +:+ ":")
    (if negb (ToBoolean id) then throw (Error (VStr "User ID is required"))
     else if negb (ToBoolean userData)
     then throw (Error (VStr "User data is required"))
     else
       let* response := fetch (mkRequest "PUT"
                            (API_BASE_URL +:+ "/api/users/" +:+ ToString id)
                            jsonHeaders (Some userData)) in
       lift (handleResponse response)).

Definition deleteUser (id : value) : M value :=
  logging ("Error deleting user " +:+ ToString id +:+ ":")
    (if negb (ToBoolean id) then throw (Error (VStr "User ID is required"))
     else
       let* response := fetch (mkRequest "DELETE"
                            (API_BASE_URL +:+ "/api/users/" +:+ ToString id)
                            jsonHeaders None) in
       lift (handleResponse response)).

Definition formatDateForAPI (date : value) : outcome value :=
  if negb (ToBoolean date) then Return VNull
  else
    match date with
    | VStr s =>
        if test isoDateRegex s then Return date else Return VNull
    | VDate d =>
        let? iso := toISOString d in
        Return (VStr (split_first "T" iso))
    | _ => Return VNull
    end.

(** [v.trim()]: only a string has the method. *)
Definition call_trim (what : string) (v : value) : outcome string :=
  match v with
  | VStr s => Return (trim s)
  | _ => Throw (mkError "TypeError" (what +:+ ".trim is not a function"))
  end.

(** [!v || v.trim().length < n] *)
Definition missing_or_short (what : string) (v : value) (n : nat) : outcome bool :=
  if negb (ToBoolean v) then Return true
  else let? t := call_trim what v in Return (String.length t <? n)%nat.

(** [!isUpdate || v !== undefined]: the field is looked at in create
    mode, and in update mode when it is not [undefined]. *)
Definition checked (isUpdate : bool) (v : value) : bool :=
  negb isUpdate || is_defined v.

Definition validateUserData (userData : list (string * value)) (isUpdate : bool)
  : outcome (list string) :=
  let errors : list string := [] in
  let name_ := lookup_field "name" userData in
  let? errors :=
    if checked isUpdate name_ then
      let? bad := missing_or_short "userData.name" name_ 2 in
      Return (if bad
              then errors ++ ["Name is required and must be at least 2 characters"]
              else errors)
    else Return errors in
  let email := lookup_field "email" userData in
  let errors :=
    if checked isUpdate email then
      if negb (ToBoolean email) || negb (test emailRegex (ToString email))
      then errors ++ ["Valid email is required"]
      else errors
    else errors in
  let aboutYou := lookup_field "aboutYou" userData in
  let? errors :=
    if checked isUpdate aboutYou then
      let? bad := missing_or_short "userData.aboutYou" aboutYou 10 in
      Return (if bad
              then errors ++ ["About You is required and must be at least 10 characters"]
              else errors)
    else Return errors in
  let birthday := lookup_field "birthday" userData in
  let errors :=
    if checked isUpdate birthday then
      if negb (ToBoolean birthday) then errors ++ ["Birthday is required"]
      else errors
    else errors in
  let mobileNumber := lookup_field "mobileNumber" userData in
  let? errors :=
    if checked isUpdate mobileNumber then
      let? bad := missing_or_short "userData.mobileNumber" mobileNumber 10 in
      Return (if bad then errors ++ ["Mobile number is required"] else errors)
    else Return errors in
  let country := lookup_field "country" userData in
  let? errors :=
    if checked isUpdate country then
      let? bad := missing_or_short "userData.country" country 2 in
      Return (if bad then errors ++ ["Country is required"] else errors)
    else Return errors in
  Return errors.

(* ================================================================= *)
(** ** components/UserForm.js *)

(** The six fields of the form. Text inputs hold strings; the birthday
    holds the [Date] picked in the calendar, or [null]. *)
Inductive field : Type :=
| Name | AboutYou | Birthday | MobileNumber | Email | Country.

Definition fieldType (f : field) : Type :=
  match f with
  | Birthday => option date
  | _ => string
  end.

(** The key of a field in [formData], [errors] and [touched]. *)
Definition fieldKey (f : field) : string :=
  match f with
  | Name => "name"
  | AboutYou => "aboutYou"
  | Birthday => "birthday"
  | MobileNumber => "mobileNumber"
  | Email => "email"
  | Country => "country"
  end.

Record FormData : Type := mkFormData {
  name : string;
  aboutYou : string;
  birthday : option date;
  mobileNumber : string;
  email : string;
  country : string
}.

(** [formData[key]] *)
Definition getField (formData : FormData) (f : field) : fieldType f :=
  match f with
  | Name => name formData
  | AboutYou => aboutYou formData
  | Birthday => birthday formData
  | MobileNumber => mobileNumber formData
  | Email => email formData
  | Country => country formData
  end.

(** [Object.keys(formData)] *)
Definition formKeys : list field :=
  [Name; AboutYou; Birthday; MobileNumber; Email; Country].

(** [!value || value.trim().length < n] on a string *)
Definition blank_or_short (value : string) (n : nat) : bool :=
  String.eqb value "" || (String.length (trim value) <? n)%nat.

(** [validateField(name, value)]; [now] is the time value of [new Date()]. *)
Definition validateField (now : Z) (f : field) : fieldType f -> string :=
  match f with
  | Name => fun value =>
      if blank_or_short value 2
      then "Name is required and must be at least 2 characters"
      else if (50 <? String.length value)%nat
      then "Name must be 50 characters or less"
      else if negb (test lettersSpacesRegex value)
      then "Name should only contain letters and spaces"
      else ""
  | AboutYou => fun value =>
      if blank_or_short value 10
      then "About You is required and must be at least 10 characters"
      else if (250 <? String.length value)%nat
      then "About You must be 250 characters or less"
      else ""
  | Birthday => fun value =>
      match value with
      | None => "Birthday is required"
      | Some d =>
          if match d with DateAt t => now <? t | InvalidDate => false end
          then "Birthday cannot be in the future"
          else
            if match getFullYear (DateAt now), getFullYear d with
               | Some y1, Some y2 => 120 <? y1 - y2
               | _, _ => false
               end
            then "Invalid age"
            else ""
      end
  | MobileNumber => fun value =>
      if blank_or_short value 10
      then "Mobile number is required and must be at least 10 characters"
      else if negb (test phoneRegex value)
      then "Invalid mobile number format"
      else ""
  | Email => fun value =>
      if String.eqb value "" || String.eqb (trim value) ""
      then "Email is required"
      else if negb (test emailRegex value)
      then "Invalid email format"
      else ""
  | Country => fun value =>
      if blank_or_short value 2
      then "Country is required and must be at least 2 characters"
      else if (20 <? String.length value)%nat
      then "Country must be 20 characters or less"
      else if negb (test lettersSpacesRegex value)
      then "Country should only contain letters and spaces"
      else ""
  end.

Definition validateForm (now : Z) (formData : FormData) : gmap string string :=
  fold_left
    (fun newErrors key =>
       let error := validateField now key (getField formData key) in
       if String.eqb error "" then newErrors
       else <[fieldKey key := error]> newErrors)
    formKeys ∅.

Record FormState : Type := mkFormState {
  formData : FormData;
  loading : bool;
  errors : gmap string string;
  success : bool;
  touched : gmap string bool
}.

Record Props : Type := mkProps {
  user : value;
  mode : string;
  (** the callback, when the caller passes one: a call of it returns
      or throws an [Error] object *)
  onSuccess : option (value -> outcome unit)
}.

(** [mode === "edit" && user] *)
Definition isEditMode (props : Props) : value :=
  if String.eqb (mode props) "edit" then user props else VBool false.

Definition setLoading (b : bool) (st : FormState) : FormState :=
  mkFormState (formData st) b (errors st) (success st) (touched st).

Definition setErrors (f : gmap string string -> gmap string string)
    (st : FormState) : FormState :=
  mkFormState (formData st) (loading st) (f (errors st)) (success st) (touched st).

Definition setSuccess (b : bool) (st : FormState) : FormState :=
  mkFormState (formData st) (loading st) (errors st) b (touched st).

Definition setTouched (f : gmap string bool -> gmap string bool)
    (st : FormState) : FormState :=
  mkFormState (formData st) (loading st) (errors st) (success st) (f (touched st)).

Definition setFormData (f : FormData -> FormData) (st : FormState) : FormState :=
  mkFormState (f (formData st)) (loading st) (errors st) (success st) (touched st).

(** A handler of the form runs over the component state and the trace. *)
Definition Handler (A : Type) : Type := ST (FormState * list event) A.

Definition update (f : FormState -> FormState) : Handler unit :=
  fun '(st, w) => (Return tt, (f st, w)).

Definition read : Handler FormState := fun '(st, w) => (Return st, (st, w)).

Definition run {A} (m : M A) : Handler A :=
  fun '(st, w) => let (r, w') := m w in (r, (st, w')).

Definition allTouched : gmap string bool :=
  <["country" := true]> (<["email" := true]> (<["mobileNumber" := true]>
    (<["birthday" := true]> (<["aboutYou" := true]> (<["name" := true]> ∅))))).

(** [{ ...formData, birthday: b }] *)
Definition apiDataOf (formData : FormData) (b : value) : value :=
  VObj [ ("name", VStr (name formData));
         ("aboutYou", VStr (aboutYou formData));
         ("birthday", b);
         ("mobileNumber", VStr (mobileNumber formData));
         ("email", VStr (email formData));
         ("country", VStr (country formData)) ].

Definition dateValue (d : option date) : value :=
  match d with
  | Some d => VDate d
  | None => VNull
  end.

(** [isEditMode ? updateUser(user.id, apiData) : createUser(apiData)] *)
Definition apiCall (props : Props) (apiData : value) : M value :=
  if ToBoolean (isEditMode props)
  then let* id := lift (get (user props) "id") in updateUser id apiData
  else createUser apiData.

Definition handleSubmit (props : Props) (now : Z) : Handler unit :=
  let* _ := run (emit PreventDefault) in
  let* st := read in
  let formErrors := validateForm now (formData st) in
  let* _ := update (setErrors (fun _ => formErrors)) in
  let* _ := update (setTouched (fun _ => allTouched)) in
  if negb (bool_decide (formErrors = ∅)) then ret tt
  else
    let* _ := update (setLoading true) in
    finally
      (try_catch
         (let* b := lift (formatDateForAPI (dateValue (birthday (formData st)))) in
          let apiData := apiDataOf (formData st) b in
          let* result := run (apiCall props apiData) in
          let* _ := run (emit (ConsoleLog
                      ("User " +:+ (if ToBoolean (isEditMode props)
                                    then "updated" else "created")
                       +:+ " successfully:") result)) in
          let* _ := update (setSuccess true) in
          match onSuccess props with
          | Some callback =>
              let* _ := run (emit (OnSuccess result)) in
              lift (callback result)
          | None => run (emit (SetTimeout 1500 "/users"))
          end)
         (fun error =>
            let* _ := run (emit (ConsoleError
                        ("Error " +:+ (if ToBoolean (isEditMode props)
                                       then "updating" else "creating")
                         +:+ " user:") error)) in
            if includes (message error) "email already exists" then
              update (setErrors
                        <["email" := "A user with this email already exists"]>)
            else if includes (message error) "mobile number" then
              update (setErrors
                        <["mobileNumber" :=
                            "A user with this mobile number already exists"]>)
            else
              update (setErrors
                        <["general" :=
                            if String.eqb (message error) ""
                            then "Failed to "
                                 +:+ (if ToBoolean (isEditMode props)
                                      then "update" else "create")
                                 +:+ " user"
                            else message error]>)))
      (fun '(st', w) => (setLoading false st', w)).

(** [handleInputChange(name, value)] *)
Definition setField (f : field) : fieldType f -> FormData -> FormData :=
  match f with
  | Name => fun v d =>
      mkFormData v (aboutYou d) (birthday d) (mobileNumber d) (email d) (country d)
  | AboutYou => fun v d =>
      mkFormData (name d) v (birthday d) (mobileNumber d) (email d) (country d)
  | Birthday => fun v d =>
      mkFormData (name d) (aboutYou d) v (mobileNumber d) (email d) (country d)
  | MobileNumber => fun v d =>
      mkFormData (name d) (aboutYou d) (birthday d) v (email d) (country d)
  | Email => fun v d =>
      mkFormData (name d) (aboutYou d) (birthday d) (mobileNumber d) v (country d)
  | Country => fun v d =>
      mkFormData (name d) (aboutYou d) (birthday d) (mobileNumber d) (email d) v
  end.

Definition handleInputChange (now : Z) (f : field) (value : fieldType f) : Handler unit :=
  let* st := read in
  let* _ := update (setFormData (setField f value)) in
  let* _ := if success st then update (setSuccess false) else ret tt in
  match touched st !! fieldKey f with
  | Some true =>
      update (setErrors <[fieldKey f := validateField now f value]>)
  | _ => ret tt
  end.

(** [handleBlur(name)] *)
Definition handleBlur (now : Z) (f : field) : Handler unit :=
  let* st := read in
  let* _ := update (setTouched <[fieldKey f := true]>) in
  update (setErrors
            <[fieldKey f := validateField now f (getField (formData st) f)]>).

(** The state a form is mounted with. *)
Definition initialState : FormState :=
  mkFormState (mkFormData "" "" None "" "" "") false ∅ false ∅.

End WithHost.

(* ================================================================= *)
(** ** The record validator as a table

    What [validateUserData] checks, written as one rule per field: the
    key, the test that makes the value a violation, and the message.
    [validateRecord] reads the table top to bottom. It is compared with
    the code below. *)

(** [v.trim().length < n], on a string *)
Definition shorter_than (n : nat) (v : value) : bool :=
  match v with
  | VStr s => (String.length (trim s) <? n)%nat
  | _ => false
  end.

Definition recordRules (host : Host) : list (string * (value -> bool) * string) :=
  [ ("name", fun v => negb (ToBoolean v) || shorter_than 2 v,
     "Name is required and must be at least 2 characters");
    ("email", fun v => negb (ToBoolean v)
                       || negb (test emailRegex (ToString host v)),
     "Valid email is required");
    ("aboutYou", fun v => negb (ToBoolean v) || shorter_than 10 v,
     "About You is required and must be at least 10 characters");
    ("birthday", fun v => negb (ToBoolean v),
     "Birthday is required");
    ("mobileNumber", fun v => negb (ToBoolean v) || shorter_than 10 v,
     "Mobile number is required");
    ("country", fun v => negb (ToBoolean v) || shorter_than 2 v,
     "Country is required") ].

Definition validateRecord (host : Host) (userData : list (string * value))
    (isUpdate : bool) : list string :=
  flat_map (fun '(key, violates, msg) =>
              let v := lookup_field key userData in
              if checked isUpdate v && violates v then [msg] else [])
           (recordRules host).

(** A value on which [.trim()] is never called, or can be: a falsy value
    or a string. *)
Definition trimmable (v : value) : bool :=
  is_string v || negb (ToBoolean v).

(* ================================================================= *)
(** ** Reading a query string back

    What the receiving end does with a query string: split it at [&],
    split each pair at its first [=], and undo the percent-encoding
    (bytes first, then UTF-8). Used to state what a built query string
    carries. *)

Definition hexValue (c : ascii) : option N :=
  if is_digit c then Some (code c - 48)%N
  else if in_range "A" "F" c then Some (code c - 55)%N
  else if in_range "a" "f" c then Some (code c - 87)%N
  else None.

Fixpoint unescape (s : string) : string :=
  match s with
  | EmptyString => EmptyString
  | String c tail =>
      if Ascii.eqb c "%" then
        match tail with
        | String a (String b rest) =>
            match hexValue a, hexValue b with
            | Some x, Some y => String (ascii_of_N (16 * x + y)) (unescape rest)
            | _, _ => String c (unescape tail)
            end
        | _ => String c (unescape tail)
        end
      else String c (unescape tail)
  end.

(** The UTF-8 bytes of a code unit below 256. *)
Definition utf8_bytes (c : ascii) : string :=
  if (code c <? 128)%N then String c ""
  else String (ascii_of_N (192 + code c / 64))
         (String (ascii_of_N (128 + code c mod 64)) "").

Fixpoint utf8_decode (s : string) : string :=
  match s with
  | EmptyString => EmptyString
  | String a tail =>
      if (code a <? 192)%N then String a (utf8_decode tail)
      else
        match tail with
        | String b rest =>
            String (ascii_of_N ((code a - 192) * 64 + (code b - 128)))
              (utf8_decode rest)
        | EmptyString => String a EmptyString
        end
  end.

Definition decodeURIComponent (s : string) : string := utf8_decode (unescape s).

(** [s.split(sep)] for a one-character separator *)
Fixpoint split (sep : ascii) (s : string) : list string :=
  match s with
  | EmptyString => [""]
  | String c s' =>
      if Ascii.eqb c sep then "" :: split sep s'
      else match split sep s' with
           | p :: ps => String c p :: ps
           | [] => [String c ""]
           end
  end.

(** The text after the first [sep], or nothing. *)
Fixpoint after_first (sep : ascii) (s : string) : string :=
  match s with
  | EmptyString => EmptyString
  | String c s' => if Ascii.eqb c sep then s' else after_first sep s'
  end.

Definition decodeQuery (q : string) : list (string * string) :=
  match q with
  | String "?" rest =>
      map (fun pair => (decodeURIComponent (split_first "=" pair),
                        decodeURIComponent (after_first "=" pair)))
        (split "&" rest)
  | _ => []
  end.

(** [s] has the character [c]. *)
Fixpoint has (c : ascii) (s : string) : bool :=
  match s with
  | EmptyString => false
  | String a s' => Ascii.eqb a c || has c s'
  end.

Fixpoint all_chars (p : ascii -> bool) (s : string) : bool :=
  match s with
  | EmptyString => true
  | String a s' => p a && all_chars p s'
  end.

(** The characters of a built query string. *)
Definition url_safe (c : ascii) : bool :=
  is_unreserved c || is_char "%" c || is_char "&" c || is_char "=" c
  || is_char "?" c.

(* ================================================================= *)
(** ** Reading a trace *)

(** The requests of a trace, in the order they were issued. *)
Definition requests (w : list event) : list Request :=
  flat_map (fun ev => match ev with Fetch req => [req] | _ => [] end) w.

(** The [console.error] lines of a trace. *)
Definition console_errors (w : list event) : list (string * JsError) :=
  flat_map (fun ev => match ev with
                      | ConsoleError label e => [(label, e)]
                      | _ => []
                      end) w.

(** What one call of the API layer may add to the trace, given how it
    settled: at most one request, and one console line exactly when it
    threw, carrying the error thrown. *)
Definition single_attempt {A} (label : string) (r : outcome A)
    (added : list event) : Prop :=
  (length (requests added) <= 1)%nat
  /\ console_errors added =
     match r with
     | Throw e => [(label, e)]
     | Return _ => []
     end.

(* ================================================================= *)
(** ** Dates as the formatter prints them *)

(** The calendar date of the day numbered [day] from 1970-01-01, in the
    ISO format. *)
Definition isoDate (day : Z) : string :=
  let '(y, m, d) := civil_from_days day in
  isoYear y +:+ "-" +:+ digits 2 m +:+ "-" +:+ digits 2 d.

(** How two query strings combine into the query string of both. *)
Definition joinQueries (q1 q2 : string) : string :=
  match q1, q2 with
  | EmptyString, _ => q2
  | _, EmptyString => q1
  | _, String _ rest2 => q1 +:+ "&" +:+ rest2
  end.


(* ================================================================= *)
(** ** One block of the record validator

    The four blocks of [validateUserData] that trim their field are the
    same but for the key, the minimum length and the message. *)

Definition trimBlock (what : string) (v : value) (n : nat) (msg : string)
    (isUpdate : bool) (errors : list string) : outcome (list string) :=
  if checked isUpdate v then
    let? bad := missing_or_short what v n in
    Return (if bad then errors ++ [msg] else errors)
  else Return errors.

(** The properties [{ ...formData, birthday: b }] has, as a record. *)
Definition apiRecord (formData : FormData) (b : value)
  : list (string * value) :=
  [ ("name", VStr (name formData));
    ("aboutYou", VStr (aboutYou formData));
    ("birthday", b);
    ("mobileNumber", VStr (mobileNumber formData));
    ("email", VStr (email formData));
    ("country", VStr (country formData)) ].

(** The first text field, in the order the validator visits them, whose
    value is truthy and not a string. *)
Definition firstUntrimmable (userData : list (string * value)) : option string :=
  List.find (fun key => negb (trimmable (lookup_field key userData)))
    ["name"; "aboutYou"; "mobileNumber"; "country"].


(* ================================================================= *)
(** ** More of components/UserForm.js *)

Notation "'let*' x := c1 'in' c2" := (bind c1 (fun x => c2))
  (at level 10, x name, c1 at level 100, c2 at level 200).

(** The state variables of a render are constants: a handler reads
    [formData], [touched] and [success] as they were when the render
    that created it ran (its [snapshot]), while its updater functions
    ([prev => ...]) apply to the state as it is when they run. *)
Definition handleInputChangeIn (host : Host) (snapshot : FormState) (now : Z)
    (f : field) (value : fieldType f) : Handler unit :=
  let* _ := update (setFormData (setField f value)) in
  let* _ := if success snapshot then update (setSuccess false) else ret tt in
  match touched snapshot !! fieldKey f with
  | Some true =>
      update (setErrors <[fieldKey f := validateField host now f value]>)
  | _ => ret tt
  end.

Definition handleBlurIn (host : Host) (snapshot : FormState) (now : Z)
    (f : field) : Handler unit :=
  let* _ := update (setTouched <[fieldKey f := true]>) in
  update (setErrors
            <[fieldKey f :=
                validateField host now f (getField (formData snapshot) f)]>).

(** The [onSelect] of the calendar: both handlers are called from one
    event, so both belong to the same render. ([setCalendarOpen(false)]
    only closes the popover.) *)
Definition onSelectBirthday (host : Host) (now : Z) (date : option date)
  : Handler unit :=
  let* snapshot := read in
  let* _ := handleInputChangeIn host snapshot now Birthday date in
  handleBlurIn host snapshot now Birthday.

(** What the user does to the form between two submissions. *)
Inductive formEvent : Type :=
| Change (f : field) (value : fieldType f)
| Blur (f : field)
| SelectBirthday (date : option date).

Definition handleEvent (host : Host) (now : Z) (ev : formEvent) : Handler unit :=
  match ev with
  | Change f value => handleInputChange host now f value
  | Blur f => handleBlur host now f
  | SelectBirthday date => onSelectBirthday host now date
  end.

(** Events one after the other, each in the render the one before left. *)
Fixpoint handleEvents (host : Host) (now : Z) (evs : list formEvent)
  : Handler unit :=
  match evs with
  | [] => ret tt
  | ev :: rest =>
      let* _ := handleEvent host now ev in handleEvents host now rest
  end.

(** The [disabled] of the submit button:
    [loading || Object.keys(errors).some(key => key !== "general" && errors[key])] *)
Definition submitDisabled (st : FormState) : bool :=
  loading st
  || existsb (fun '(key, msg) =>
                negb (String.eqb key "general") && negb (String.eqb msg ""))
       (map_to_list (errors st)).

(** The entry the [catch] block of [handleSubmit] adds to the error map. *)
Definition serverError (props : Props) (e : JsError) : string * string :=
  if includes (message e) "email already exists"
  then ("email", "A user with this email already exists")
  else if includes (message e) "mobile number"
  then ("mobileNumber", "A user with this mobile number already exists")
  else ("general",
        if String.eqb (message e) ""
        then "Failed to " +:+ (if ToBoolean (isEditMode props)
                               then "update" else "create") +:+ " user"
        else message e).

(** The label of the console line of that [catch] block. *)
Definition submitLabel (props : Props) : string :=
  "Error " +:+ (if ToBoolean (isEditMode props) then "updating" else "creating")
  +:+ " user:".

#[global] Instance field_eq_dec : EqDecision field.
Proof. solve_decision. Defined.

(** The live-validation state of a form: a touched field carries the
    error of its current value, an untouched field carries none, and
    [touched] only ever holds [true]. *)
Definition liveValidated (host : Host) (now : Z) (st : FormState) : Prop :=
  forall f,
    match touched st !! fieldKey f with
    | Some true =>
        errors st !! fieldKey f
        = Some (validateField host now f (getField (formData st) f))
    | Some false => False
    | None => errors st !! fieldKey f = None
    end.

(** An event other than a pick in the calendar. *)
Definition isInputEvent (ev : formEvent) : bool :=
  match ev with
  | SelectBirthday _ => false
  | _ => true
  end.

(** [user.id] of a truthy [user]: the own property of a plain object,
    [undefined] on anything else. *)
Definition userId (user : value) : value :=
  match user with
  | VObj fields => lookup_field "id" fields
  | _ => VUndefined
  end.


(** *** Unsaved changes *)

(** [a === b] on primitives. (Two objects are equal when they are the
    same object, which this model of values cannot tell: the function
    is used where one side is a string or [null].) *)
Definition strict_eq (a b : value) : bool :=
  match a, b with
  | VUndefined, VUndefined | VNull, VNull => true
  | VBool x, VBool y => Bool.eqb x y
  | VNum x, VNum y => x =? y
  | VStr x, VStr y => String.eqb x y
  | _, _ => false
  end.

(** [v?.k] for a property name [k] that no prototype defines *)
Definition get_opt (v : value) (k : string) : value :=
  match v with
  | VObj fields => lookup_field k fields
  | _ => VUndefined
  end.

(** [user?.k || ""] *)
Definition original (user : value) (k : string) : value :=
  or_else (get_opt user k) (VStr "").

(** [value && (typeof value === "string" ? value.trim() : true)], as
    [some] reads it: a string that is not blank, or a [Date]. *)
Definition filled (f : field) : fieldType f -> bool :=
  let text := fun value : string =>
    negb (String.eqb value "") && negb (String.eqb (trim value) "") in
  match f with
  | Name => text
  | AboutYou => text
  | Birthday => fun value =>
      match value with
      | Some _ => true
      | None => false
      end
  | MobileNumber => text
  | Email => text
  | Country => text
  end.

Section WithDateParser.
(** [new Date(v)]: how a string is parsed is up to the engine. *)
Variable newDate : value -> date.

(** [user?.birthday ? new Date(user.birthday) : null] *)
Definition originalBirthday (user : value) : value :=
  if ToBoolean (get_opt user "birthday")
  then VDate (newDate (get_opt user "birthday"))
  else VNull.

Definition hasChanges (props : Props) (formData : FormData) : outcome bool :=
  if negb (ToBoolean (isEditMode props)) then
    Return (existsb (fun f => filled f (getField formData f)) formKeys)
  else
    let user := user props in
    if negb (strict_eq (VStr (name formData)) (original user "name"))
    then Return true
    else if negb (strict_eq (VStr (aboutYou formData)) (original user "aboutYou"))
    then Return true
    else if negb (strict_eq (VStr (email formData)) (original user "email"))
    then Return true
    else if negb (strict_eq (VStr (mobileNumber formData))
                    (original user "mobileNumber"))
    then Return true
    else if negb (strict_eq (VStr (country formData)) (original user "country"))
    then Return true
    else
      let? shown := formatDateForAPI (dateValue (birthday formData)) in
      let? stored := formatDateForAPI (originalBirthday user) in
      Return (negb (strict_eq shown stored)).

(** The five text fields of the form hold what [user] holds:
    [formData.k === (user?.k || "")] for each of them. *)
Definition sameText (user : value) (formData : FormData) : Prop :=
  VStr (name formData) = original user "name"
  /\ VStr (aboutYou formData) = original user "aboutYou"
  /\ VStr (email formData) = original user "email"
  /\ VStr (mobileNumber formData) = original user "mobileNumber"
  /\ VStr (country formData) = original user "country".

(** The form data the effect that runs on mount in edit mode sets from
    [user]: each text field is [user.k || ""] and the birthday is
    [user.birthday ? new Date(user.birthday) : null]. (The relation
    holds of no form when a text field of [user] is truthy and not a
    string: the form would then hold that value itself.) *)
Definition seeded (user : value) (formData : FormData) : Prop :=
  sameText user formData
  /\ dateValue (birthday formData) = originalBirthday user.

End WithDateParser.


(** The six required fields of a record, each with the message the
    validator has for it, in the order it visits them. *)
Definition requiredFields : list (string * string) :=
  [ ("name", "Name is required and must be at least 2 characters");
    ("email", "Valid email is required");
    ("aboutYou", "About You is required and must be at least 10 characters");
    ("birthday", "Birthday is required");
    ("mobileNumber", "Mobile number is required");
    ("country", "Country is required") ].


(** The payload of a response, when its body has one, is [printable]. *)
Definition printablePayload (r : Response) : bool :=
  match json r with
  | Return data =>
      match get data "payload" with
      | Return payload => printable payload
      | Throw _ => true
      end
  | Throw _ => true
  end.


(* ================================================================= *)
(** ** Sample inputs *)

Definition utcHost : Host := mkHost (fun _ => "a date") (fun _ => 0) None.

(** A server that is down, and one that always sends the same response. *)
Definition net_fail (msg : string) : list event -> Request -> outcome Response :=
  fun _ _ => Throw (mkError "TypeError" msg).

Definition net_reply (r : Response) : list event -> Request -> outcome Response :=
  fun _ _ => Return r.

(** The body [{ error, payload }] *)
Definition envelope (error : bool) (payload : value) : value :=
  VObj [("error", VBool error); ("payload", payload)].

Definition sampleForm : FormData :=
  mkFormData "Test User" "A sample description" (Some (DateAt 631152000000))
    "1234567890" "test@example.com" "USA".

Definition createProps : Props := mkProps VNull "create" None.

(** 2024-03-05T00:00:00.000Z *)
Definition sampleNow : Z := 1709596800000.

Definition stateOf (fd : FormData) : FormState := mkFormState fd false ∅ false ∅.

(** A record that passes every rule, with one field replaced. *)
Definition sampleRecord (key : string) (v : value) : list (string * value) :=
  (key, v) ::
  [ ("name", VStr "Test User");
    ("email", VStr "test@example.com");
    ("aboutYou", VStr "A sample description");
    ("birthday", VStr "1990-01-01");
    ("mobileNumber", VStr "1234567890");
    ("country", VStr "USA") ].

(** The record of the validation test of [app/test-api/page.js]. *)
Definition invalidData : list (string * value) :=
  [ ("name", VStr "T");
    ("email", VStr "invalid-email");
    ("aboutYou", VStr "Short");
    ("birthday", VStr "");
    ("mobileNumber", VStr "");
    ("country", VStr "") ].

(** A host whose local time is five and a half hours ahead of UTC. *)
Definition eastHost : Host := mkHost (fun _ => "a date") (fun _ => 19800000) None.


(** An engine's date parser, as far as the samples need it: a time
    value, a [Date], and one date string. *)
Definition sampleNewDate (v : value) : date :=
  match v with
  | VNum t => DateAt t
  | VDate d => d
  | VStr s => if String.eqb s "1990-01-01" then DateAt 631152000000 else InvalidDate
  | _ => InvalidDate
  end.

(** A stored user, with one property replaced. *)
Definition sampleUser (key : string) (v : value) : value :=
  VObj ((key, v) :: ("id", VNum 7) :: sampleRecord "country" (VStr "USA")).

Definition editProps (user : value) : Props := mkProps user "edit" None.


(** The console line of a [catch] block that logs and rethrows. *)
Definition logged {A} (label : string) (r : outcome A) : list event :=
  match r with
  | Throw e => [ConsoleError label e]
  | Return _ => []
  end.

(** Case analysis on the 256 code units. *)
Ltac each_ascii c :=
  destruct c as [[] [] [] [] [] [] [] []].

(* ================================================================= *)
(** * Properties *)

(** ** The worked examples of the specification *)

Example validateField_name_too_short :
  validateField utcHost sampleNow Name "A"
  = "Name is required and must be at least 2 characters".
Proof. reflexivity. Qed.

Example validateField_name_accepted :
  validateField utcHost sampleNow Name "Alice" = "".
Proof. reflexivity. Qed.

Example validateField_email_rejected :
  validateField utcHost sampleNow Email "bad" = "Invalid email format".
Proof. reflexivity. Qed.

Example validateField_email_accepted :
  validateField utcHost sampleNow Email "a@b.com" = "".
Proof. reflexivity. Qed.

Example validateField_phone :
  validateField utcHost sampleNow MobileNumber "+1 (555) 123-456" = ""
  /\ validateField utcHost sampleNow MobileNumber "+1 (555) 123-4567 ext"
     = "Invalid mobile number format".
Proof. split; reflexivity. Qed.

Example validateField_birthday :
  validateField utcHost sampleNow Birthday None = "Birthday is required"
  /\ validateField utcHost sampleNow Birthday (Some (DateAt 631152000000)) = ""
  /\ validateField utcHost sampleNow Birthday (Some (DateAt (-2208988800000)))
     = "Invalid age"
  /\ validateField utcHost sampleNow Birthday (Some InvalidDate) = "".
Proof. repeat split. Qed.

Example formatDateForAPI_examples :
  formatDateForAPI (VStr "2024-03-05") = Return (VStr "2024-03-05")
  /\ formatDateForAPI (VDate (DateAt sampleNow)) = Return (VStr "2024-03-05")
  /\ formatDateForAPI VUndefined = Return VNull
  /\ formatDateForAPI (VStr "05/03/2024") = Return VNull.
Proof. repeat split. Qed.

Example toISOString_examples :
  toISOString (DateAt sampleNow) = Return "2024-03-05T00:00:00.000Z"
  /\ toISOString (DateAt 951868799999) = Return "2000-02-29T23:59:59.999Z"
  /\ toISOString (DateAt (-1)) = Return "1969-12-31T23:59:59.999Z"
  /\ toISOString (DateAt (-62198755200000)) = Return "-000001-01-01T00:00:00.000Z".
Proof. repeat split. Qed.

Example buildQueryString_examples :
  buildQueryString utcHost
    [("name", VStr "Ann Lee"); ("email", VUndefined); ("country", VStr "");
     ("search", VNull); ("page", VNum 0); ("q", VStr "a&b=c")]
  = "?name=Ann%20Lee&page=0&q=a%26b%3Dc"
  /\ buildQueryString utcHost [("name", VUndefined); ("email", VStr "")] = ""
  /\ buildQueryString utcHost [] = "".
Proof. repeat split. Qed.

(** A record whose name is a number: [.trim()] is not a function. *)
Example validateUserData_throws_on_number :
  validateUserData utcHost [("name", VNum 12)] true
  = Throw (mkError "TypeError" "userData.name.trim is not a function").
Proof. reflexivity. Qed.

(** Submitting the valid sample form in create mode: one POST carrying
    the fields, with the birthday formatted, then success. *)
Example handleSubmit_valid_form :
  handleSubmit utcHost
    (net_reply (mkResponse 201 (Return (envelope false (VStr "User created")))))
    createProps sampleNow (stateOf sampleForm, [])
  = (Return tt,
     (mkFormState sampleForm false ∅ true allTouched,
      [ PreventDefault;
        Fetch (mkRequest "POST" "http://localhost:3000/api/users" jsonHeaders
                 (Some (VObj [ ("name", VStr "Test User");
                               ("aboutYou", VStr "A sample description");
                               ("birthday", VStr "1990-01-01");
                               ("mobileNumber", VStr "1234567890");
                               ("email", VStr "test@example.com");
                               ("country", VStr "USA") ])));
        ConsoleLog "User created successfully:" (VStr "User created");
        SetTimeout 1500 "/users" ])).
Proof. reflexivity. Qed.

(** An invalid birthday passes validation and then fails formatting:
    no request is sent and the error lands under [general]. *)
Example handleSubmit_invalid_birthday :
  handleSubmit utcHost (net_fail "unreachable") createProps sampleNow
    (stateOf (mkFormData "Test User" "A sample description" (Some InvalidDate)
                "1234567890" "test@example.com" "USA"), [])
  = (Return tt,
     (mkFormState
        (mkFormData "Test User" "A sample description" (Some InvalidDate)
           "1234567890" "test@example.com" "USA")
        false {[ "general" := "Invalid time value" ]} false allTouched,
      [ PreventDefault;
        ConsoleError "Error creating user:"
          (mkError "RangeError" "Invalid time value") ])).
Proof. reflexivity. Qed.

(** ** Response unwrapper *)

Lemma Error_truthy host (v d : value) :
  ToBoolean d = true ->
  Error host (or_else v d) =
  mkError "Error" (if ToBoolean v then ToString host v else ToString host d).
Proof.
  intros Hd. unfold or_else, Error.
  destruct (ToBoolean v) eqn:Hv.
  - destruct v; try discriminate; reflexivity.
  - destruct d; try discriminate; reflexivity.
Qed.

(** C1, as amended: on a body whose [error] is a boolean, the unwrapper
    returns [payload] on a success status with [error] false; otherwise
    it throws an [Error] whose message is the payload converted to a
    string when the payload is truthy, and the default text when it is
    falsy (absent, [null], empty, [0], [false]): "An error occurred" on a
    success status, "HTTP error! status: " followed by the status code
    on any other. *)
Theorem handleResponse_unwraps host (st : Z) (fields : list (string * value))
    (e : bool) (payload : value) :
  lookup_field "error" fields = VBool e ->
  lookup_field "payload" fields = payload ->
  handleResponse host (mkResponse st (Return (VObj fields))) =
  if (200 <=? st) && (st <=? 299) then
    if e
    then Throw (mkError "Error" (if ToBoolean payload
                                 then ToString host payload
                                 else "An error occurred"))
    else Return payload
  else Throw (mkError "Error" (if ToBoolean payload
                               then ToString host payload
                               else "HTTP error! status: " +:+ pretty st)).
Proof.
  intros He Hp. unfold handleResponse, ok, get. cbn [json status obind].
  rewrite He, Hp.
  destruct ((200 <=? st) && (st <=? 299)); cbn [negb ToBoolean].
  - destruct e; [| reflexivity]. now rewrite Error_truthy.
  - now rewrite Error_truthy.
Qed.

Lemma handleResponse_unwraps_witness :
  handleResponse utcHost (mkResponse 404 (Return (envelope true VUndefined))) =
  Throw (mkError "Error" "HTTP error! status: 404").
Proof.
  exact (handleResponse_unwraps utcHost 404
           [("error", VBool true); ("payload", VUndefined)] true VUndefined
           eq_refl eq_refl).
Defined.

(** C1, as stated, fails: on a success status with [error] true and a
    payload that is present but empty, the message is the default text
    and not the payload. *)
Lemma handleResponse_empty_payload_cex :
  ok (mkResponse 200 (Return (envelope true (VStr "")))) = true
  /\ lookup_field "payload" [("error", VBool true); ("payload", VStr "")] = VStr ""
  /\ handleResponse utcHost (mkResponse 200 (Return (envelope true (VStr "")))) =
     Throw (mkError "Error" "An error occurred")
  /\ "An error occurred" <> ToString utcHost (VStr "").
Proof. repeat split; discriminate. Qed.

(** ** Identifier guard of [getUserById] *)

Lemma append_assoc (s t u : string) : (s +:+ t) +:+ u = s +:+ (t +:+ u).
Proof. induction s as [| a s IH]; cbn; [reflexivity | now rewrite IH]. Qed.

(** C7: a falsy [id] (0, the empty string, [null] and [undefined] are
    falsy) makes [getUserById] throw "User ID is required" with nothing
    added to the trace but the console line; any other [id] makes it
    issue exactly one request, a GET to [/api/users/{id}] under the base
    URL (a URL that ends in [/users/{id}]), and settle as the unwrapper
    does on the response, so that a success envelope yields its
    payload. *)
Theorem getUserById_guards_then_gets host network (id : value) (w : list event) :
  Forall (fun v => ToBoolean v = false) [VNum 0; VStr ""; VNull; VUndefined]
  /\ getUserById host network id w =
     (let label := "Error fetching user " +:+ ToString host id +:+ ":" in
      if ToBoolean id then
        let req := mkRequest "GET"
                     (API_BASE_URL host +:+ "/api/users/" +:+ ToString host id)
                     jsonHeaders None in
        let r := obind (network w req) (handleResponse host) in
        (r, w ++ Fetch req :: logged label r)
      else
        let r := Throw (mkError "Error" "User ID is required") in
        (r, w ++ logged label r))
  /\ (exists root,
        API_BASE_URL host +:+ "/api/users/" +:+ ToString host id
        = root +:+ "/users/" +:+ ToString host id)
  /\ (forall st payload,
        ToBoolean id = true -> 200 <= st <= 299 ->
        network w (mkRequest "GET"
                     (API_BASE_URL host +:+ "/api/users/" +:+ ToString host id)
                     jsonHeaders None)
        = Return (mkResponse st (Return (envelope false payload))) ->
        fst (getUserById host network id w) = Return payload).
Proof.
  assert (Hrun : getUserById host network id w =
     (let label := "Error fetching user " +:+ ToString host id +:+ ":" in
      if ToBoolean id then
        let req := mkRequest "GET"
                     (API_BASE_URL host +:+ "/api/users/" +:+ ToString host id)
                     jsonHeaders None in
        let r := obind (network w req) (handleResponse host) in
        (r, w ++ Fetch req :: logged label r)
      else
        let r := Throw (mkError "Error" "User ID is required") in
        (r, w ++ logged label r))).
  { unfold getUserById, logging, try_catch, bind, fetch, lift, throw, emit.
    destruct (ToBoolean id); cbn.
    - destruct (network w _) as [resp | e]; cbn.
      + destruct (handleResponse host resp); cbn; [| rewrite <- app_assoc];
          reflexivity.
      + rewrite <- app_assoc. reflexivity.
    - reflexivity. }
  split; [| split; [| split]].
  - repeat constructor.
  - exact Hrun.
  - exists (API_BASE_URL host +:+ "/api").
    now rewrite append_assoc.
  - intros st payload Hid Hst Hnet. rewrite Hrun. cbn zeta. rewrite Hid, Hnet.
    cbn [fst obind].
    unfold envelope.
    rewrite (handleResponse_unwraps host st
               [("error", VBool false); ("payload", payload)] false payload
               eq_refl eq_refl).
    replace ((200 <=? st) && (st <=? 299)) with true; [reflexivity |].
    symmetry. apply andb_true_iff. split; apply Z.leb_le; lia.
Qed.

Lemma getUserById_guards_then_gets_witness :
  fst (getUserById utcHost
         (net_reply (mkResponse 200 (Return (envelope false (VStr "Ann")))))
         (VNum 7) []) = Return (VStr "Ann").
Proof.
  refine (proj2 (proj2 (proj2 (getUserById_guards_then_gets utcHost
            (net_reply (mkResponse 200 (Return (envelope false (VStr "Ann")))))
            (VNum 7) []))) 200 (VStr "Ann") eq_refl _ eq_refl).
  lia.
Defined.

(** ** Date formatter *)

(** C9, at an input where the code departs from it: an invalid [Date]
    makes [formatDateForAPI] throw a [RangeError], and a [Date] in the
    year 10000 yields a string that is not of the form YYYY-MM-DD. *)
Theorem formatDateForAPI_invalid_date_throws :
  formatDateForAPI (VDate InvalidDate) =
    Throw (mkError "RangeError" "Invalid time value")
  /\ formatDateForAPI (VDate (DateAt 253402300800000)) =
       Return (VStr "+010000-01-01")
  /\ test isoDateRegex "+010000-01-01" = false.
Proof. repeat split. Qed.

(** C10, at an input where the code departs from it: the date
    2024-03-05 is a fixed point, but formatting twice a [Date] in the
    year 10000 gives [null] where formatting once gives a string, and an
    invalid [Date] cannot be formatted even once. *)
Theorem formatDateForAPI_not_idempotent :
  obind (formatDateForAPI (VDate (DateAt sampleNow))) formatDateForAPI =
    formatDateForAPI (VDate (DateAt sampleNow))
  /\ formatDateForAPI (VDate (DateAt 253402300800000)) =
       Return (VStr "+010000-01-01")
  /\ obind (formatDateForAPI (VDate (DateAt 253402300800000))) formatDateForAPI =
       Return VNull
  /\ obind (formatDateForAPI (VDate InvalidDate)) formatDateForAPI =
       Throw (mkError "RangeError" "Invalid time value").
Proof. repeat split. Qed.

(** ** Form controller *)

Lemma validateForm_lookup host now (fd : FormData) (g : field) :
  validateForm host now fd !! fieldKey g =
  (let e := validateField host now g (getField fd g) in
   if String.eqb e "" then None else Some e).
Proof.
  unfold validateForm, formKeys. cbn [fold_left]. cbv zeta.
  destruct g; cbn [fieldKey];
  generalize (validateField host now Name (getField fd Name));
  generalize (validateField host now AboutYou (getField fd AboutYou));
  generalize (validateField host now Birthday (getField fd Birthday));
  generalize (validateField host now MobileNumber (getField fd MobileNumber));
  generalize (validateField host now Email (getField fd Email));
  generalize (validateField host now Country (getField fd Country));
  intros e6 e5 e4 e3 e2 e1;
    destruct (String.eqb e1 ""), (String.eqb e2 ""), (String.eqb e3 ""),
      (String.eqb e4 ""), (String.eqb e5 ""), (String.eqb e6 "").
  all: by simplify_map_eq.
Qed.

Lemma validateForm_empty host now (fd : FormData) :
  validateForm host now fd = ∅ <->
  forall g, validateField host now g (getField fd g) = "".
Proof.
  split.
  - intros Hempty g. pose proof (validateForm_lookup host now fd g) as Hg.
    rewrite Hempty, lookup_empty in Hg. cbv zeta in Hg.
    destruct (String.eqb_spec (validateField host now g (getField fd g)) "");
      [assumption | discriminate].
  - intros Hall. unfold validateForm, formKeys. cbn [fold_left].
    now rewrite !Hall.
Qed.

Lemma allTouched_lookup (g : field) : allTouched !! fieldKey g = Some true.
Proof. by destruct g. Qed.





(** Submitting the form as mounted: six errors, nothing sent. *)
Example handleSubmit_empty_form :
  snd (snd (handleSubmit utcHost (net_fail "unreachable") createProps sampleNow
              (initialState, []))) = [PreventDefault]
  /\ size (errors (fst (snd (handleSubmit utcHost (net_fail "unreachable")
                               createProps sampleNow (initialState, [])))))
     = 6%nat
  /\ errors (fst (snd (handleSubmit utcHost (net_fail "unreachable")
                         createProps sampleNow (initialState, []))))
     !! "email" = Some "Email is required".
Proof. repeat split. Qed.

Lemma getField_setField (f : field) (v : fieldType f) (d : FormData) :
  getField (setField f v d) f = v.
Proof. now destruct f. Qed.

(** On blur the field becomes touched and its error is recomputed. *)
Lemma handleBlur_touches host now (f : field) (st : FormState)
    (w : list event) :
  exists st',
    handleBlur host now f (st, w) = (Return tt, (st', w))
    /\ touched st' !! fieldKey f = Some true
    /\ errors st' !! fieldKey f
       = Some (validateField host now f (getField (formData st) f))
    /\ formData st' = formData st.
Proof.
  eexists. split; [reflexivity |].
  cbn [touched errors formData setErrors setTouched].
  now rewrite !lookup_insert_eq.
Qed.

(** On change the value is stored, and the error of a touched field is
    recomputed from the new value. *)
Lemma handleInputChange_revalidates host now (f : field) (v : fieldType f)
    (st : FormState) (w : list event) :
  exists st',
    handleInputChange host now f v (st, w) = (Return tt, (st', w))
    /\ getField (formData st') f = v
    /\ (touched st !! fieldKey f = Some true ->
        errors st' !! fieldKey f = Some (validateField host now f v))
    /\ (touched st !! fieldKey f <> Some true -> errors st' = errors st).
Proof.
  unfold handleInputChange, bind, read, update, ret.
  destruct (touched st !! fieldKey f) as [[|] |] eqn:Htouched;
    destruct (success st); eexists; (split; [reflexivity |]);
    cbn [touched errors formData setErrors setSuccess setFormData];
    rewrite getField_setField; repeat split;
    try congruence; intros _; now rewrite lookup_insert_eq.
Qed.

(** C6, as amended: when the form is valid and the API call fails with
    error [e], [handleSubmit] logs the error, clears [loading] and leaves
    exactly one entry in the error map, chosen by the first test that
    applies: the message contains "email already exists" (entry [email]);
    else it contains "mobile number" (entry [mobileNumber]); else entry
    [general], holding the message, or "Failed to create user" /
    "Failed to update user" when the message is empty. *)
Theorem handleSubmit_classifies_failure host network props now
    (st : FormState) (w w2 : list event) (b : value) (e : JsError) :
  validateForm host now (formData st) = ∅ ->
  formatDateForAPI (dateValue (birthday (formData st))) = Return b ->
  apiCall host network props (apiDataOf (formData st) b) (w ++ [PreventDefault])
  = (Throw e, w2) ->
  exists st',
    handleSubmit host network props now (st, w)
    = (Return tt,
       (st', w2 ++ [ConsoleError
                      ("Error " +:+ (if ToBoolean (isEditMode props)
                                     then "updating" else "creating")
                       +:+ " user:") e]))
    /\ loading st' = false
    /\ errors st' =
       (if includes (message e) "email already exists"
        then {[ "email" := "A user with this email already exists" ]}
        else if includes (message e) "mobile number"
        then {[ "mobileNumber" := "A user with this mobile number already exists" ]}
        else {[ "general" :=
                  if String.eqb (message e) ""
                  then "Failed to " +:+ (if ToBoolean (isEditMode props)
                                         then "update" else "create") +:+ " user"
                  else message e ]})
    /\ size (errors st') = 1%nat
    /\ success st' = success st
    /\ formData st' = formData st.
Proof.
  intros Hvalid Hdate Hcall.
  exists (mkFormState (formData st) false
            (if includes (message e) "email already exists"
             then {[ "email" := "A user with this email already exists" ]}
             else if includes (message e) "mobile number"
             then {[ "mobileNumber" :=
                       "A user with this mobile number already exists" ]}
             else {[ "general" :=
                       if String.eqb (message e) ""
                       then "Failed to " +:+ (if ToBoolean (isEditMode props)
                                              then "update" else "create")
                            +:+ " user"
                       else message e ]})
            (success st) allTouched).
  split.
  - unfold handleSubmit, finally, try_catch, bind, run, emit, read, update, ret,
      lift.
    cbn [fst snd formData]. unfold setTouched, setErrors, setLoading.
    cbn [errors touched formData loading success].
    rewrite Hvalid, bool_decide_eq_true_2 by reflexivity.
    cbn [negb]. rewrite Hdate, Hcall.
    destruct (includes (message e) "email already exists");
      [| destruct (includes (message e) "mobile number")];
      cbn [errors touched formData loading success];
      rewrite insert_empty; reflexivity.
  - cbn [errors touched formData loading success].
    repeat split.
    destruct (includes (message e) "email already exists");
      [| destruct (includes (message e) "mobile number")];
      apply map_size_singleton.
Qed.

Lemma handleSubmit_classifies_failure_witness :
  exists st',
    handleSubmit utcHost (net_fail "Failed to fetch") createProps sampleNow
      (stateOf sampleForm, [])
    = (Return tt,
       (st', snd (createUser utcHost (net_fail "Failed to fetch")
                    (apiDataOf sampleForm (VStr "1990-01-01")) [PreventDefault])
             ++ [ConsoleError "Error creating user:"
                   (mkError "TypeError" "Failed to fetch")]))
    /\ loading st' = false
    /\ errors st' = {[ "general" := "Failed to fetch" ]}.
Proof.
  destruct (handleSubmit_classifies_failure utcHost (net_fail "Failed to fetch")
              createProps sampleNow (stateOf sampleForm) []
              (snd (createUser utcHost (net_fail "Failed to fetch")
                      (apiDataOf sampleForm (VStr "1990-01-01")) [PreventDefault]))
              (VStr "1990-01-01") (mkError "TypeError" "Failed to fetch"))
    as (st' & Hrun & Hloading & Herrors & _).
  - reflexivity.
  - reflexivity.
  - reflexivity.
  - exists st'. split; [exact Hrun | split; [exact Hloading | exact Herrors]].
Defined.

(** C6, as stated, fails: a message that contains both "email already
    exists" and "mobile number" sets the [email] entry only; the
    [mobileNumber] entry stays unset. *)
Lemma handleSubmit_both_substrings_cex :
  includes "email already exists for this mobile number" "mobile number" = true
  /\ fst (handleSubmit utcHost
            (net_fail "email already exists for this mobile number")
            createProps sampleNow (stateOf sampleForm, [])) = Return tt
  /\ errors (fst (snd (handleSubmit utcHost
                         (net_fail "email already exists for this mobile number")
                         createProps sampleNow (stateOf sampleForm, []))))
     !! "mobileNumber" = None
  /\ errors (fst (snd (handleSubmit utcHost
                         (net_fail "email already exists for this mobile number")
                         createProps sampleNow (stateOf sampleForm, []))))
     !! "email" = Some "A user with this email already exists".
Proof. repeat split. Qed.

(** ** Record validator against the per-field rules *)

Lemma missing_or_short_trimmable (what : string) (v : value) (len : nat) :
  trimmable v = true ->
  missing_or_short what v len = Return (negb (ToBoolean v) || shorter_than len v).
Proof.
  unfold missing_or_short, trimmable, call_trim.
  destruct v as [| | b | n | | s | d | items | fields];
    cbn; try discriminate; try reflexivity.
  - destruct b; [discriminate | reflexivity].
  - destruct (n =? 0); [reflexivity | discriminate].
  - destruct (String.eqb s ""); reflexivity.
Qed.

(** The tests of the record validator are the opening tests of
    [validateField]: what the former rejects, the latter rejects. *)
Lemma record_rule_implies_field_rule host now (s : string) :
  (negb (ToBoolean (VStr s)) || shorter_than 2 (VStr s) = true ->
   validateField host now Name s <> "")
  /\ (negb (ToBoolean (VStr s)) || negb (test emailRegex s) = true ->
      validateField host now Email s <> "")
  /\ (negb (ToBoolean (VStr s)) || shorter_than 10 (VStr s) = true ->
      validateField host now AboutYou s <> "")
  /\ (negb (ToBoolean (VStr s)) || shorter_than 10 (VStr s) = true ->
      validateField host now MobileNumber s <> "")
  /\ (negb (ToBoolean (VStr s)) || shorter_than 2 (VStr s) = true ->
      validateField host now Country s <> "").
Proof.
  cbn [ToBoolean shorter_than validateField]. unfold blank_or_short.
  rewrite negb_involutive.
  repeat split; intros Hbad; try (rewrite Hbad; discriminate).
  destruct (String.eqb s ""); cbn [orb] in *; [discriminate |].
  rewrite Hbad. destruct (String.eqb (trim s) ""); discriminate.
Qed.

(** C3, as amended: on a record whose text fields are strings (or
    absent or otherwise falsy), [validateUserData] returns, in the order
    name, email, aboutYou, birthday, mobileNumber, country, the message
    of every field that is checked (create mode, or not [undefined] in
    update mode) and violates its rule, where the rules are: name
    present with trimmed length at least 2; email present and matching
    the e-mail pattern; aboutYou present with trimmed length at least
    10; birthday present; mobileNumber present with trimmed length at
    least 10; country present with trimmed length at least 2. Each of
    these is the opening test of the per-field rule, so that a value the
    record validator rejects is rejected by [validateField] as well. *)
Theorem validateUserData_applies_reduced_rules host now
    (userData : list (string * value)) (isUpdate : bool) :
  Forall (fun key => trimmable (lookup_field key userData) = true)
    ["name"; "aboutYou"; "mobileNumber"; "country"] ->
  validateUserData host userData isUpdate
  = Return (validateRecord host userData isUpdate)
  /\ (forall s,
        (negb (ToBoolean (VStr s)) || shorter_than 2 (VStr s) = true ->
         validateField host now Name s <> "")
        /\ (negb (ToBoolean (VStr s)) || negb (test emailRegex s) = true ->
            validateField host now Email s <> "")
        /\ (negb (ToBoolean (VStr s)) || shorter_than 10 (VStr s) = true ->
            validateField host now AboutYou s <> "")
        /\ (negb (ToBoolean (VStr s)) || shorter_than 10 (VStr s) = true ->
            validateField host now MobileNumber s <> "")
        /\ (negb (ToBoolean (VStr s)) || shorter_than 2 (VStr s) = true ->
            validateField host now Country s <> "")).
Proof.
  intros Htyped. split; [| intros s; apply record_rule_implies_field_rule].
  inversion_clear Htyped as [| ? ? Hname Htyped1].
  inversion_clear Htyped1 as [| ? ? Habout Htyped2].
  inversion_clear Htyped2 as [| ? ? Hmobile Htyped3].
  inversion_clear Htyped3 as [| ? ? Hcountry _].
  unfold validateUserData, validateRecord, recordRules.
  cbn [flat_map app].
  rewrite (missing_or_short_trimmable _ _ _ Hname),
    (missing_or_short_trimmable _ _ _ Habout),
    (missing_or_short_trimmable _ _ _ Hmobile),
    (missing_or_short_trimmable _ _ _ Hcountry).
  destruct (checked isUpdate (lookup_field "name" userData)),
    (checked isUpdate (lookup_field "email" userData)),
    (checked isUpdate (lookup_field "aboutYou" userData)),
    (checked isUpdate (lookup_field "birthday" userData)),
    (checked isUpdate (lookup_field "mobileNumber" userData)),
    (checked isUpdate (lookup_field "country" userData));
    cbn [obind andb];
    repeat match goal with
           | |- context [if ?b then _ else _] => destruct b; cbn [obind app]
           end; reflexivity.
Qed.

Lemma validateUserData_applies_reduced_rules_witness :
  validateUserData utcHost invalidData false =
  Return [ "Name is required and must be at least 2 characters";
           "Valid email is required";
           "About You is required and must be at least 10 characters";
           "Birthday is required";
           "Mobile number is required";
           "Country is required" ].
Proof.
  refine (proj1 (validateUserData_applies_reduced_rules utcHost sampleNow
                   invalidData false _)).
  repeat constructor.
Defined.

(** C3, as stated, fails: a name with a digit, a name of 52 letters, a
    mobile number of ten letters, a country of 31 letters and a birthday
    one day ahead each violate the per-field rule, and the record
    validator reports nothing for them. *)
Lemma validateUserData_misses_field_rules_cex :
  (validateField utcHost sampleNow Name "Bob1"
   = "Name should only contain letters and spaces"
   /\ validateUserData utcHost (sampleRecord "name" (VStr "Bob1")) false
      = Return [])
  /\ (validateField utcHost sampleNow Name
        "abcdefghijklmnopqrstuvwxyzabcdefghijklmnopqrstuvwxyz"
      = "Name must be 50 characters or less"
      /\ validateUserData utcHost
           (sampleRecord "name"
              (VStr "abcdefghijklmnopqrstuvwxyzabcdefghijklmnopqrstuvwxyz"))
           false
         = Return [])
  /\ (validateField utcHost sampleNow MobileNumber "abcdefghij"
      = "Invalid mobile number format"
      /\ validateUserData utcHost
           (sampleRecord "mobileNumber" (VStr "abcdefghij")) false
         = Return [])
  /\ (validateField utcHost sampleNow Country "United Kingdom of Great Britain"
      = "Country must be 20 characters or less"
      /\ validateUserData utcHost
           (sampleRecord "country" (VStr "United Kingdom of Great Britain"))
           false
         = Return [])
  /\ (validateField utcHost sampleNow Birthday
        (Some (DateAt (sampleNow + msPerDay)))
      = "Birthday cannot be in the future"
      /\ validateUserData utcHost
           (sampleRecord "birthday" (VDate (DateAt (sampleNow + msPerDay))))
           false
         = Return []).
Proof. repeat split. Qed.

(** ** Query builder *)

Lemma unescape_encodeChar (c : ascii) (t : string) :
  unescape (encodeChar c +:+ t) = utf8_bytes c +:+ unescape t.
Proof. each_ascii c; reflexivity. Qed.

Lemma utf8_decode_bytes (c : ascii) (t : string) :
  utf8_decode (utf8_bytes c +:+ t) = String c (utf8_decode t).
Proof. each_ascii c; reflexivity. Qed.

Lemma encodeChar_has_no_separator (c : ascii) :
  has "&" (encodeChar c) = false /\ has "=" (encodeChar c) = false
  /\ all_chars url_safe (encodeChar c) = true.
Proof. each_ascii c; repeat split. Qed.

Lemma has_app (c : ascii) (s t : string) :
  has c (s +:+ t) = has c s || has c t.
Proof.
  induction s as [| a s IH]; cbn; [reflexivity |].
  now rewrite IH, orb_assoc.
Qed.

Lemma all_chars_app (p : ascii -> bool) (s t : string) :
  all_chars p (s +:+ t) = all_chars p s && all_chars p t.
Proof.
  induction s as [| a s IH]; cbn; [reflexivity |].
  now rewrite IH, andb_assoc.
Qed.

Lemma encodeString_has_no_separator (s : string) :
  has "&" (encodeString s) = false /\ has "=" (encodeString s) = false
  /\ all_chars url_safe (encodeString s) = true.
Proof.
  induction s as [| c s (IH1 & IH2 & IH3)]; cbn [encodeString].
  - repeat split.
  - destruct (encodeChar_has_no_separator c) as (H1 & H2 & H3).
    rewrite !has_app, all_chars_app, H1, H2, H3, IH1, IH2, IH3. repeat split.
Qed.

(** Decoding undoes encoding. *)
Lemma decodeURIComponent_encodeString (s : string) :
  decodeURIComponent (encodeString s) = s.
Proof.
  unfold decodeURIComponent.
  induction s as [| c s IH]; cbn [encodeString]; [reflexivity |].
  now rewrite unescape_encodeChar, utf8_decode_bytes, IH.
Qed.

Lemma split_first_app (sep : ascii) (a b : string) :
  has sep a = false -> split_first sep (a +:+ String sep b) = a.
Proof.
  induction a as [| c a IH]; cbn.
  - now rewrite Ascii.eqb_refl.
  - intros Hno. apply orb_false_iff in Hno as [Hc Ha].
    now rewrite Hc, IH.
Qed.

Lemma after_first_app (sep : ascii) (a b : string) :
  has sep a = false -> after_first sep (a +:+ String sep b) = b.
Proof.
  induction a as [| c a IH]; cbn.
  - now rewrite Ascii.eqb_refl.
  - intros Hno. apply orb_false_iff in Hno as [Hc Ha].
    now rewrite Hc, IH.
Qed.

Lemma split_without (sep : ascii) (p : string) :
  has sep p = false -> split sep p = [p].
Proof.
  induction p as [| c p IH]; cbn; [reflexivity |].
  intros Hno. apply orb_false_iff in Hno as [Hc Hp].
  now rewrite Hc, IH.
Qed.

Lemma split_app (sep : ascii) (p rest : string) :
  has sep p = false ->
  split sep (p +:+ String sep rest) = p :: split sep rest.
Proof.
  induction p as [| c p IH]; cbn.
  - now rewrite Ascii.eqb_refl.
  - intros Hno. apply orb_false_iff in Hno as [Hc Hp].
    now rewrite Hc, IH.
Qed.

Lemma split_join (sep : ascii) (parts : list string) :
  parts <> [] ->
  Forall (fun p => has sep p = false) parts ->
  split sep (join (String sep "") parts) = parts.
Proof.
  intros Hne Hall. induction Hall as [| p ps Hp Hps IH]; [contradiction |].
  destruct ps as [| q qs].
  - cbn. now apply split_without.
  - change (join (String sep "") (p :: q :: qs))
      with (p +:+ String sep "" +:+ join (String sep "") (q :: qs)).
    cbn [String.append]. rewrite split_app by assumption.
    f_equal. apply IH. discriminate.
Qed.

(** The text of one pair. *)
Lemma pair_reads_back host (key : string) (v : value) :
  let pair := encodeURIComponent host (VStr key) +:+ "="
              +:+ encodeURIComponent host v in
  decodeURIComponent (split_first "=" pair) = key
  /\ decodeURIComponent (after_first "=" pair) = ToString host v
  /\ has "&" pair = false
  /\ all_chars url_safe pair = true
  /\ pair <> "".
Proof.
  unfold encodeURIComponent. cbn [ToString String.append].
  destruct (encodeString_has_no_separator key) as (Hk1 & Hk2 & Hk3).
  destruct (encodeString_has_no_separator (ToString host v))
    as (Hv1 & Hv2 & Hv3).
  rewrite split_first_app, after_first_app by assumption.
  rewrite !decodeURIComponent_encodeString.
  rewrite has_app, all_chars_app, Hk1, Hk3. cbn. rewrite Hv1, Hv3.
  repeat split. destruct (encodeString key); discriminate.
Qed.

Lemma join_nonempty (sep p : string) (ps : list string) :
  p <> "" -> String.eqb (join sep (p :: ps)) "" = false.
Proof.
  intros Hp. destruct p as [| c p]; [contradiction |].
  destruct ps; reflexivity.
Qed.

Lemma all_chars_join (p : ascii -> bool) (sep : string) (parts : list string) :
  all_chars p sep = true ->
  Forall (fun s => all_chars p s = true) parts ->
  all_chars p (join sep parts) = true.
Proof.
  intros Hsep Hall. induction Hall as [| s ss Hs Hss IH]; [reflexivity |].
  destruct ss as [| s' ss']; [exact Hs |].
  change (join sep (s :: s' :: ss')) with (s +:+ sep +:+ join sep (s' :: ss')).
  now rewrite !all_chars_app, Hs, Hsep, IH.
Qed.

(** The pairs a built query string carries: the kept entries, in order,
    each key and value read back unchanged. *)
Lemma decodeQuery_buildQueryString host (params : list (string * value)) :
  decodeQuery (buildQueryString host params)
  = map (fun kv => (fst kv, ToString host (snd kv)))
      (List.filter (fun kv => kept (snd kv)) params).
Proof.
  unfold buildQueryString.
  replace (List.filter (fun '(_, value) => kept value) params)
    with (List.filter (fun kv => kept (snd kv)) params)
    by (apply filter_ext; now intros [k v]).
  destruct (List.filter (fun kv => kept (snd kv)) params) as [| [k v] rest];
    [reflexivity |].
  cbn [map].
  destruct (pair_reads_back host k v) as (Hk & Hv & Hamp & _ & Hne).
  cbv zeta in Hk, Hv, Hamp, Hne.
  rewrite join_nonempty by assumption.
  cbn [String.append] in Hk, Hv, Hamp.
  cbn [decodeQuery String.append].
  match goal with
  | |- context [split "&" (join "&" ?parts)] =>
      rewrite (split_join "&" parts)
  end.
  - cbn [map fst snd]. rewrite Hk, Hv. f_equal.
    rewrite map_map. apply map_ext. intros [k' v'].
    destruct (pair_reads_back host k' v') as (Hk' & Hv' & _).
    cbv zeta in Hk', Hv'. cbn [String.append] in Hk', Hv'.
    cbn [fst snd]. now rewrite Hk', Hv'.
  - discriminate.
  - constructor; [assumption |].
    apply Forall_map, Forall_forall. intros [k' v'] _.
    destruct (pair_reads_back host k' v') as (_ & _ & Hamp' & _).
    exact Hamp'.
Qed.

Lemma kept_spec (v : value) :
  kept v = true <-> v <> VUndefined /\ v <> VNull /\ v <> VStr "".
Proof.
  destruct v as [| | b | n | | s | d | items | fields]; cbn;
    try (split; [intros _; repeat split; discriminate | reflexivity]);
    try (split; [discriminate | intros (H1 & H2 & H3); congruence]).
  destruct s; cbn.
  - split; [discriminate | intros (H1 & H2 & H3); congruence].
  - split; [intros _; repeat split; discriminate | reflexivity].
Qed.

Lemma buildQueryString_unfold host (params : list (string * value)) :
  buildQueryString host params =
  match List.filter (fun kv => kept (snd kv)) params with
  | [] => ""
  | survivors =>
      "?" +:+ join "&"
                (map (fun kv => encodeURIComponent host (VStr (fst kv)) +:+ "="
                                +:+ encodeURIComponent host (snd kv))
                   survivors)
  end.
Proof.
  unfold buildQueryString.
  replace (List.filter (fun '(_, value) => kept value) params)
    with (List.filter (fun kv => kept (snd kv)) params)
    by (apply filter_ext; now intros [k v]).
  rewrite (map_ext (fun '(key, value) =>
                      encodeURIComponent host (VStr key) +:+ "="
                      +:+ encodeURIComponent host value)
             (fun kv => encodeURIComponent host (VStr (fst kv)) +:+ "="
                        +:+ encodeURIComponent host (snd kv)))
    by now intros [k v].
  destruct (List.filter (fun kv => kept (snd kv)) params) as [| [k v] rest];
    [reflexivity |].
  cbn [map fst snd].
  destruct (pair_reads_back host k v) as (_ & _ & _ & _ & Hne).
  now rewrite join_nonempty.
Qed.

Lemma insertByIndex_perm (kv : string * value) (l : list (string * value)) :
  Permutation (insertByIndex kv l) (kv :: l).
Proof.
  induction l as [| kv' l IH]; cbn; [reflexivity |].
  destruct (indexOf kv <=? indexOf kv')%N; [reflexivity |].
  rewrite IH. apply perm_swap.
Qed.

Lemma sortByIndex_perm (l : list (string * value)) :
  Permutation (fold_right insertByIndex [] l) l.
Proof.
  induction l as [| kv l IH]; cbn; [reflexivity |].
  now rewrite insertByIndex_perm, IH.
Qed.

Lemma insertByIndex_sorted (kv : string * value) (l : list (string * value)) :
  StronglySorted (fun a b => (indexOf a <= indexOf b)%N) l ->
  StronglySorted (fun a b => (indexOf a <= indexOf b)%N) (insertByIndex kv l).
Proof.
  induction 1 as [| kv' l Hsorted IH Hall]; cbn.
  - repeat constructor.
  - destruct (N.leb_spec (indexOf kv) (indexOf kv')) as [Hle | Hgt].
    + constructor; [now constructor |].
      constructor; [assumption |].
      eapply Forall_impl; [exact Hall |]. cbn. intros a Ha. lia.
    + constructor; [assumption |].
      apply List.Forall_forall. intros a Ha.
      apply (Permutation_in _ (insertByIndex_perm kv l)) in Ha.
      destruct Ha as [<- | Ha]; [lia |].
      rewrite List.Forall_forall in Hall. now apply Hall.
Qed.

Lemma sortByIndex_sorted (l : list (string * value)) :
  StronglySorted (fun a b => (indexOf a <= indexOf b)%N)
    (fold_right insertByIndex [] l).
Proof.
  induction l as [| kv l IH]; cbn; [constructor |].
  now apply insertByIndex_sorted.
Qed.

Lemma filter_none {A} (f : A -> bool) (l : list A) :
  (forall x, In x l -> f x = false) -> List.filter f l = [].
Proof.
  induction l as [| x l IH]; cbn; [reflexivity |]. intros Hall.
  rewrite (Hall x) by now left. apply IH. intros y Hy. apply Hall. now right.
Qed.

Lemma filter_all {A} (f : A -> bool) (l : list A) :
  (forall x, In x l -> f x = true) -> List.filter f l = l.
Proof.
  induction l as [| x l IH]; cbn; [reflexivity |]. intros Hall.
  rewrite (Hall x) by now left. f_equal. apply IH. intros y Hy. apply Hall.
  now right.
Qed.

Lemma In_entries (created : list (string * value)) (kv : string * value) :
  In kv (entries created) <-> In kv created.
Proof.
  unfold entries. rewrite in_app_iff.
  rewrite (Permutation_in' (eq_refl kv) (sortByIndex_perm _)).
  rewrite !filter_In. destruct (isIndex kv); cbn; intuition congruence.
Qed.

(** C2, amended: the entries whose value is [undefined], [null] or the
    empty string are dropped and all others kept; the result is the
    empty string when nothing is kept, and otherwise [?] followed by the
    kept pairs, each [key=value] with both sides percent-encoded, joined
    by [&] in the order [Object.entries] lists the mapping. That order
    is insertion order only for the keys that are not array indices: the
    keys that are come first, in ascending numeric order. Read back, the
    result gives exactly the kept keys with their values, in that order;
    it is made of unreserved characters and of [%], [&], [=] and [?]
    only. On a mapping without array-index keys the order is insertion
    order. *)
Theorem buildQueryString_keeps_encodes_joins host
    (created : list (string * value)) :
  (forall k v,
     In (k, v) (List.filter (fun kv => kept (snd kv)) (entries created)) <->
     In (k, v) created /\ v <> VUndefined /\ v <> VNull /\ v <> VStr "")
  /\ buildQueryString host (entries created) =
     match List.filter (fun kv => kept (snd kv)) (entries created) with
     | [] => ""
     | survivors =>
         "?" +:+ join "&"
                   (map (fun kv => encodeURIComponent host (VStr (fst kv))
                                   +:+ "=" +:+ encodeURIComponent host (snd kv))
                      survivors)
     end
  /\ decodeQuery (buildQueryString host (entries created))
     = map (fun kv => (fst kv, ToString host (snd kv)))
         (List.filter (fun kv => kept (snd kv)) (entries created))
  /\ all_chars url_safe (buildQueryString host (entries created)) = true
  /\ (buildQueryString host (entries created) = "" <->
      List.filter (fun kv => kept (snd kv)) (entries created) = [])
  /\ (exists indices,
        entries created
        = indices ++ List.filter (fun kv => negb (isIndex kv)) created
        /\ Permutation indices (List.filter isIndex created)
        /\ StronglySorted (fun a b => (indexOf a <= indexOf b)%N) indices)
  /\ ((forall k v, In (k, v) created -> arrayIndex k = None) ->
      entries created = created).
Proof.
  split; [| split; [| split; [| split; [| split; [| split]]]]].
  - intros k v. rewrite filter_In, In_entries. cbn [snd]. now rewrite kept_spec.
  - apply buildQueryString_unfold.
  - apply decodeQuery_buildQueryString.
  - rewrite buildQueryString_unfold.
    destruct (List.filter (fun kv => kept (snd kv)) (entries created))
      as [| kv rest]; [reflexivity |].
    cbn [String.append all_chars]. apply all_chars_join; [reflexivity |].
    apply Forall_map, Forall_forall. intros [k v] _.
    now destruct (pair_reads_back host k v) as (_ & _ & _ & Hsafe & _).
  - rewrite buildQueryString_unfold.
    destruct (List.filter (fun kv => kept (snd kv)) (entries created))
      as [| kv rest].
    + split; reflexivity.
    + split; discriminate.
  - eexists. split; [reflexivity |]. split.
    + apply sortByIndex_perm.
    + apply sortByIndex_sorted.
  - intros Hnone. unfold entries.
    rewrite filter_none, filter_all; [reflexivity | |].
    + intros [k v] Hin. unfold isIndex. cbn [fst]. now rewrite (Hnone k v Hin).
    + intros [k v] Hin. unfold isIndex. cbn [fst]. now rewrite (Hnone k v Hin).
Qed.

(** C2, as stated, fails: the mapping [{b: 1, 2: "x", 1: "y"}], written
    in that order, gives [?1=y&2=x&b=1]; insertion order would give
    [?b=1&2=x&1=y]. *)
Lemma buildQueryString_integer_keys_first_cex :
  entries [("b", VNum 1); ("2", VStr "x"); ("1", VStr "y")]
  = [("1", VStr "y"); ("2", VStr "x"); ("b", VNum 1)]
  /\ buildQueryString utcHost
       (entries [("b", VNum 1); ("2", VStr "x"); ("1", VStr "y")])
     = "?1=y&2=x&b=1"
  /\ buildQueryString utcHost
       (entries [("b", VNum 1); ("2", VStr "x"); ("1", VStr "y")])
     <> "?b=1&2=x&1=y".
Proof. repeat split. discriminate. Qed.

(** ** List operation *)

Lemma truthy_kept (v : value) : ToBoolean v = true -> kept v = true.
Proof.
  destruct v as [| | b | n | | s | d | items | fields]; cbn;
    try discriminate; try reflexivity.
  destruct s; [discriminate | reflexivity].
Qed.

Lemma or_else_truthy (v d : value) :
  ToBoolean d = true -> ToBoolean (or_else v d) = true.
Proof. intros Hd. unfold or_else. now destruct (ToBoolean v) eqn:Hv. Qed.

(** C8: [getUsers] issues exactly one request, a GET to [/api/users]
    under the base URL followed by the query string built from the six
    filter keys and the four pagination keys, in that order, where a
    pagination value that is absent or falsy is replaced by its default
    (1, 10, "createdAt", "DESC"). Read back, the query holds the filters
    that are neither absent nor empty, followed by all four pagination
    pairs. The call settles as the unwrapper does on the response, so
    that a success envelope yields its payload unchanged. *)
Theorem getUsers_builds_query host network
    (filters pagination : list (string * value)) (w : list event) :
  exists (query : string) (page limit sortBy sortOrder : value),
    page = (if ToBoolean (lookup_field "page" pagination)
            then lookup_field "page" pagination else VNum 1)
    /\ limit = (if ToBoolean (lookup_field "limit" pagination)
                then lookup_field "limit" pagination else VNum 10)
    /\ sortBy = (if ToBoolean (lookup_field "sortBy" pagination)
                 then lookup_field "sortBy" pagination else VStr "createdAt")
    /\ sortOrder = (if ToBoolean (lookup_field "sortOrder" pagination)
                    then lookup_field "sortOrder" pagination else VStr "DESC")
    /\ query = buildQueryString host
                 [ ("name", lookup_field "name" filters);
                   ("email", lookup_field "email" filters);
                   ("country", lookup_field "country" filters);
                   ("fromDate", lookup_field "fromDate" filters);
                   ("toDate", lookup_field "toDate" filters);
                   ("search", lookup_field "search" filters);
                   ("page", page); ("limit", limit);
                   ("sortBy", sortBy); ("sortOrder", sortOrder) ]
    /\ decodeQuery query =
       map (fun kv => (fst kv, ToString host (snd kv)))
         (List.filter (fun kv => kept (snd kv))
            [ ("name", lookup_field "name" filters);
              ("email", lookup_field "email" filters);
              ("country", lookup_field "country" filters);
              ("fromDate", lookup_field "fromDate" filters);
              ("toDate", lookup_field "toDate" filters);
              ("search", lookup_field "search" filters) ])
       ++ [ ("page", ToString host page); ("limit", ToString host limit);
            ("sortBy", ToString host sortBy);
            ("sortOrder", ToString host sortOrder) ]
    /\ getUsers host network filters pagination w =
       (let req := mkRequest "GET" (API_BASE_URL host +:+ "/api/users" +:+ query)
                     jsonHeaders None in
        let r := obind (network w req) (handleResponse host) in
        (r, w ++ Fetch req :: logged "Error fetching users:" r))
    /\ (forall st payload,
          200 <= st <= 299 ->
          network w (mkRequest "GET"
                       (API_BASE_URL host +:+ "/api/users" +:+ query)
                       jsonHeaders None)
          = Return (mkResponse st (Return (envelope false payload))) ->
          fst (getUsers host network filters pagination w) = Return payload).
Proof.
  eexists _, _, _, _, _.
  split; [reflexivity |]. split; [reflexivity |]. split; [reflexivity |].
  split; [reflexivity |]. split; [reflexivity |].
  assert (Hrun : forall query,
    query = buildQueryString host
              [ ("name", lookup_field "name" filters);
                ("email", lookup_field "email" filters);
                ("country", lookup_field "country" filters);
                ("fromDate", lookup_field "fromDate" filters);
                ("toDate", lookup_field "toDate" filters);
                ("search", lookup_field "search" filters);
                ("page", or_else (lookup_field "page" pagination) (VNum 1));
                ("limit", or_else (lookup_field "limit" pagination) (VNum 10));
                ("sortBy", or_else (lookup_field "sortBy" pagination)
                             (VStr "createdAt"));
                ("sortOrder", or_else (lookup_field "sortOrder" pagination)
                                (VStr "DESC")) ] ->
    getUsers host network filters pagination w =
    (let req := mkRequest "GET" (API_BASE_URL host +:+ "/api/users" +:+ query)
                  jsonHeaders None in
     let r := obind (network w req) (handleResponse host) in
     (r, w ++ Fetch req :: logged "Error fetching users:" r))).
  { intros query ->.
    unfold getUsers, logging, try_catch, bind, fetch, lift, throw, emit.
    cbv zeta.
    destruct (network w _) as [resp | e]; cbn [obind logged].
    - destruct (handleResponse host resp); cbn [logged];
        [| rewrite <- app_assoc]; reflexivity.
    - rewrite <- app_assoc. reflexivity. }
  split; [| split].
  - rewrite decodeQuery_buildQueryString.
    transitivity
      (map (fun kv => (fst kv, ToString host (snd kv)))
         (List.filter (fun kv => kept (snd kv))
            ([ ("name", lookup_field "name" filters);
               ("email", lookup_field "email" filters);
               ("country", lookup_field "country" filters);
               ("fromDate", lookup_field "fromDate" filters);
               ("toDate", lookup_field "toDate" filters);
               ("search", lookup_field "search" filters) ]
             ++ [ ("page", or_else (lookup_field "page" pagination) (VNum 1));
                  ("limit", or_else (lookup_field "limit" pagination) (VNum 10));
                  ("sortBy", or_else (lookup_field "sortBy" pagination)
                               (VStr "createdAt"));
                  ("sortOrder", or_else (lookup_field "sortOrder" pagination)
                                  (VStr "DESC")) ])));
      [reflexivity |].
    rewrite List.filter_app, List.map_app. f_equal.
    cbn [List.filter snd].
    rewrite !truthy_kept by (now apply or_else_truthy). reflexivity.
  - now apply Hrun.
  - intros st payload Hst Hnet. rewrite (Hrun _ eq_refl). cbv zeta.
    fold (or_else (lookup_field "page" pagination) (VNum 1)) in Hnet.
    fold (or_else (lookup_field "limit" pagination) (VNum 10)) in Hnet.
    fold (or_else (lookup_field "sortBy" pagination) (VStr "createdAt")) in Hnet.
    fold (or_else (lookup_field "sortOrder" pagination) (VStr "DESC")) in Hnet.
    rewrite Hnet. cbn [fst obind]. unfold envelope.
    rewrite (handleResponse_unwraps host st
               [("error", VBool false); ("payload", payload)] false payload
               eq_refl eq_refl).
    replace ((200 <=? st) && (st <=? 299)) with true; [reflexivity |].
    symmetry. apply andb_true_iff. split; apply Z.leb_le; lia.
Qed.

Lemma getUsers_builds_query_witness :
  fst (getUsers utcHost
         (net_reply (mkResponse 200 (Return (envelope false (VArr [])))))
         [("name", VStr "Ann")] [("page", VNum 2)] [])
  = Return (VArr []).
Proof.
  destruct (getUsers_builds_query utcHost
              (net_reply (mkResponse 200 (Return (envelope false (VArr [])))))
              [("name", VStr "Ann")] [("page", VNum 2)] [])
    as (query & page & limit & sortBy & sortOrder & _ & _ & _ & _ & _ & _ & _
        & Hpayload).
  apply (Hpayload 200 (VArr [])); [lia | reflexivity].
Defined.

(** ** Date formatter: where it does what is asked *)

Lemma is_digit_digit (n : Z) : is_digit (digit (n mod 10)) = true.
Proof.
  pose proof (Z.mod_pos_bound n 10 ltac:(lia)) as Hrange.
  assert (Hcases : n mod 10 = 0 \/ n mod 10 = 1 \/ n mod 10 = 2 \/ n mod 10 = 3
                   \/ n mod 10 = 4 \/ n mod 10 = 5 \/ n mod 10 = 6
                   \/ n mod 10 = 7 \/ n mod 10 = 8 \/ n mod 10 = 9) by lia.
  repeat (destruct Hcases as [-> | Hcases]; [reflexivity |]).
  now rewrite Hcases.
Qed.

Lemma digit_is_not_T (c : ascii) : is_digit c = true -> Ascii.eqb c "T" = false.
Proof. each_ascii c; vm_compute; intros H; congruence. Qed.

Lemma digits_2 (n : Z) :
  digits 2 n = String (digit (n / 10 mod 10)) (String (digit (n mod 10)) "").
Proof. reflexivity. Qed.

Lemma digits_4 (n : Z) :
  digits 4 n =
  String (digit (n / 10 / 10 / 10 mod 10))
    (String (digit (n / 10 / 10 mod 10))
       (String (digit (n / 10 mod 10)) (String (digit (n mod 10)) ""))).
Proof. reflexivity. Qed.

(** A date of four, two and two digits matches the pattern. *)
Lemma isoDateRegex_digits (y m d : Z) :
  test isoDateRegex (digits 4 y +:+ "-" +:+ digits 2 m +:+ "-" +:+ digits 2 d)
  = true.
Proof.
  rewrite digits_4, !digits_2. cbn [String.append].
  unfold isoDateRegex.
  repeat (cbn -[is_digit digit Z.div Z.modulo]; rewrite ?is_digit_digit).
  reflexivity.
Qed.

(** A [Date] whose UTC year has four digits is formatted YYYY-MM-DD. *)
Lemma formatDateForAPI_date (t : Z) :
  0 <= YearFromTime t <= 9999 ->
  formatDateForAPI (VDate (DateAt t)) =
  Return (VStr (digits 4 (YearFromTime t) +:+ "-"
                +:+ digits 2 (MonthFromTime t) +:+ "-"
                +:+ digits 2 (DateFromTime t))).
Proof.
  intros [Hlo Hhi]. unfold formatDateForAPI, toISOString, isoYear.
  cbn [ToBoolean negb obind].
  replace ((0 <=? YearFromTime t) && (YearFromTime t <=? 9999)) with true
    by (symmetry; apply andb_true_iff; split; apply Z.leb_le; assumption).
  do 2 f_equal.
  generalize (YearFromTime t) (MonthFromTime t) (DateFromTime t)
    (t mod msPerDay).
  intros y m d ms.
  rewrite digits_4, !digits_2.
  repeat (cbn -[digit Z.div Z.modulo];
          rewrite ?(digit_is_not_T _ (is_digit_digit _))).
  reflexivity.
Qed.

Lemma formatDateForAPI_falsy (v : value) :
  ToBoolean v = false -> formatDateForAPI v = Return VNull.
Proof. intros Hv. unfold formatDateForAPI. now rewrite Hv. Qed.

Lemma formatDateForAPI_string (s : string) :
  formatDateForAPI (VStr s) =
  Return (if test isoDateRegex s then VStr s else VNull).
Proof.
  unfold formatDateForAPI. destruct s as [| c s]; [reflexivity |].
  cbn [ToBoolean String.eqb negb]. now destruct (test isoDateRegex _).
Qed.

Lemma formatDateForAPI_other_shape (v : value) :
  is_string v = false -> (forall d, v <> VDate d) ->
  formatDateForAPI v = Return VNull.
Proof.
  intros Hstr Hdate. unfold formatDateForAPI.
  destruct v as [| | b | n | | s | d | items | fields];
    try discriminate; try reflexivity.
  - now destruct (negb (ToBoolean _)).
  - now destruct (negb (ToBoolean _)).
  - now destruct (Hdate d).
Qed.

(** X9: on every input other than an invalid [Date] and a [Date] whose
    UTC year lies outside 0..9999, the formatter returns without
    throwing and formatting its result again changes nothing. *)
Lemma formatDateForAPI_idempotent_elsewhere (v : value) :
  v <> VDate InvalidDate ->
  (forall t, v = VDate (DateAt t) -> 0 <= YearFromTime t <= 9999) ->
  (exists r, formatDateForAPI v = Return r)
  /\ obind (formatDateForAPI v) formatDateForAPI = formatDateForAPI v.
Proof.
  intros Hvalid Hyear.
  destruct v as [| | b | n | | s | d | items | fields];
    try (split; [eexists |]; reflexivity).
  - destruct b; split; try eexists; reflexivity.
  - unfold formatDateForAPI. cbn [ToBoolean].
    destruct (negb (negb (n =? 0))); split; try eexists; reflexivity.
  - rewrite formatDateForAPI_string.
    destruct (test isoDateRegex s) eqn:Hs; cbn [obind];
      [rewrite formatDateForAPI_string, Hs |]; split; try eexists; reflexivity.
  - destruct d as [| t]; [contradiction |].
    rewrite (formatDateForAPI_date t) by now apply Hyear.
    cbn [obind]. rewrite formatDateForAPI_string, isoDateRegex_digits.
    split; [eexists |]; reflexivity.
Qed.

(** ** The matcher decides the language of a pattern *)

Lemma append_empty (s1 s2 : string) : s1 +:+ s2 = "" -> s1 = "" /\ s2 = "".
Proof. destruct s1; cbn; [now intros -> | discriminate]. Qed.

Lemma nullable_Matches (r : regex) : nullable r = true <-> Matches r "".
Proof.
  induction r as [| | p | r1 IH1 r2 IH2 | r1 IH1 r2 IH2 | r IH]; cbn.
  - split; [discriminate | inversion 1].
  - split; [constructor | reflexivity].
  - split; [discriminate | inversion 1].
  - rewrite andb_true_iff, IH1, IH2. split.
    + intros [H1 H2]. exact (MCat r1 r2 "" "" H1 H2).
    + inversion 1 as [| | ? ? s1 s2 H1 H2 Heq | | | |]; subst.
      match goal with
      | Hs : _ +:+ _ = "" |- _ => apply append_empty in Hs as [-> ->]
      end.
      now split.
  - rewrite orb_true_iff, IH1, IH2. split.
    + intros [H | H]; [now apply MAltL | now apply MAltR].
    + inversion 1; subst; [now left | now right].
  - split; [constructor | reflexivity].
Qed.

Lemma Matches_derive (r : regex) (str : string) :
  Matches r str ->
  forall c s, str = String c s -> Matches (derive c r) s.
Proof.
  induction 1 as [| p a Hp | r1 r2 s1 s2 H1 IH1 H2 IH2 | r1 r2 s0 H IH
                  | r1 r2 s0 H IH | r | r s1 s2 H1 IH1 H2 IH2];
    intros c s Heq; cbn [derive].
  - discriminate.
  - injection Heq as -> <-. rewrite Hp. constructor.
  - destruct s1 as [| a s1].
    + cbn in Heq. apply nullable_Matches in H1. rewrite H1.
      apply MAltR. now apply IH2.
    + cbn in Heq. injection Heq as -> <-.
      assert (Hcat : Matches (Cat (derive c r1) r2) (s1 +:+ s2))
        by (constructor; [now apply IH1 | assumption]).
      destruct (nullable r1); [now apply MAltL | assumption].
  - apply MAltL. now apply IH.
  - apply MAltR. now apply IH.
  - discriminate.
  - destruct s1 as [| a s1].
    + cbn in Heq. now apply IH2.
    + cbn in Heq. injection Heq as -> <-.
      constructor; [now apply IH1 | assumption].
Qed.

Lemma derive_Matches (c : ascii) (r : regex) :
  forall s, Matches (derive c r) s -> Matches r (String c s).
Proof.
  induction r as [| | p | r1 IH1 r2 IH2 | r1 IH1 r2 IH2 | r IH];
    intros s; cbn [derive].
  - inversion 1.
  - inversion 1.
  - destruct (p c) eqn:Hp; inversion 1; subst. now constructor.
  - assert (Hleft : Matches (Cat (derive c r1) r2) s ->
                    Matches (Cat r1 r2) (String c s)).
    { inversion 1 as [| | ? ? s1 s2 H1 H2 | | | |]; subst.
      exact (MCat r1 r2 (String c s1) s2 (IH1 _ H1) H2). }
    destruct (nullable r1) eqn:Hnull; [| exact Hleft].
    inversion 1 as [| | | ? ? ? Hl | ? ? ? Hr | |]; subst; [now apply Hleft |].
    apply nullable_Matches in Hnull.
    exact (MCat r1 r2 "" (String c s) Hnull (IH2 _ Hr)).
  - inversion 1; subst; [apply MAltL | apply MAltR]; auto.
  - inversion 1 as [| | ? ? s1 s2 H1 H2 | | | |]; subst.
    exact (MStarCons r (String c s1) s2 (IH _ H1) H2).
Qed.

(** [test] accepts exactly the strings of the pattern. *)
Lemma test_Matches (s : string) : forall r, test r s = true <-> Matches r s.
Proof.
  induction s as [| c s IH]; intros r; cbn [test].
  - apply nullable_Matches.
  - rewrite IH. split.
    + apply derive_Matches.
    + intros H. now apply (Matches_derive r (String c s)).
Qed.

Lemma length_app_string (s1 s2 : string) :
  String.length (s1 +:+ s2) = (String.length s1 + String.length s2)%nat.
Proof. induction s1 as [| c s1 IH]; cbn; [reflexivity | now rewrite IH]. Qed.

Lemma Matches_Times_Class (n : nat) (p : ascii -> bool) (s : string) :
  Matches (Times n (Class p)) s -> String.length s = n.
Proof.
  revert s. induction n as [| n IH]; intros s; cbn [Times].
  - now inversion 1.
  - inversion 1 as [| | ? ? s1 s2 H1 H2 | | | |]; subst.
    inversion H1; subst. cbn. f_equal. now apply IH.
Qed.

(** What the date pattern accepts has ten characters. *)
Lemma isoDateRegex_length (s : string) :
  test isoDateRegex s = true -> String.length s = 10%nat.
Proof.
  intros Hs. apply test_Matches in Hs. unfold isoDateRegex, Lit in Hs.
  inversion Hs as [| | ? ? y s1 Hy H1 | | | |]; subst.
  inversion H1 as [| | ? ? a s2 Ha H2 | | | |]; subst.
  inversion H2 as [| | ? ? m s3 Hm H3 | | | |]; subst.
  inversion H3 as [| | ? ? b d Hb Hd | | | |]; subst.
  apply (Matches_Times_Class 4 is_digit) in Hy.
  apply (Matches_Times_Class 2 is_digit) in Hm.
  apply (Matches_Times_Class 2 is_digit) in Hd.
  inversion Ha; inversion Hb; subst.
  rewrite !length_app_string, Hy, Hm, Hd. reflexivity.
Qed.

(** * Further properties of the API layer *)

Lemma requests_app (w1 w2 : list event) :
  requests (w1 ++ w2) = requests w1 ++ requests w2.
Proof. apply flat_map_app. Qed.

Lemma console_errors_app (w1 w2 : list event) :
  console_errors (w1 ++ w2) = console_errors w1 ++ console_errors w2.
Proof. apply flat_map_app. Qed.

(** The shape shared by the five operations once the arguments are
    accepted: one request, unwrapped, logged when it fails. *)
Lemma logging_fetch host network (label : string) (req : Request)
    (w : list event) :
  logging label (bind (fetch network req)
                   (fun response => lift (handleResponse host response))) w
  = (obind (network w req) (handleResponse host),
     w ++ Fetch req
       :: logged label (obind (network w req) (handleResponse host))).
Proof.
  unfold logging, try_catch, bind, fetch, lift, throw, emit.
  destruct (network w req) as [resp | e]; cbn [obind logged].
  - destruct (handleResponse host resp); cbn [logged];
      [| rewrite <- app_assoc]; reflexivity.
  - rewrite <- app_assoc. reflexivity.
Qed.

Lemma logging_throw {A} (label : string) (e : JsError) (w : list event) :
  logging label (@throw (list event) A e) w
  = (Throw e, w ++ [ConsoleError label e]).
Proof. reflexivity. Qed.

(** X1: the unwrapper returns [v] exactly when the status is in
    200..299, the body parsed to a value that is neither [null] nor
    [undefined], its [error] is falsy and its [payload] is [v]. In
    particular it never returns on any other status. *)
Theorem handleResponse_returns_iff host (r : Response) (v : value) :
  handleResponse host r = Return v <->
  ok r = true
  /\ exists data error,
       json r = Return data
       /\ get data "error" = Return error
       /\ ToBoolean error = false
       /\ get data "payload" = Return v.
Proof.
  unfold handleResponse. split.
  - destruct (json r) as [data | e]; cbn [obind]; [| discriminate].
    destruct (ok r); cbn [negb].
    + destruct (get data "error") as [error | e] eqn:Herr; cbn [obind];
        [| discriminate].
      destruct (ToBoolean error) eqn:Hfalsy.
      * destruct (get data "payload"); discriminate.
      * intros Hpayload. split; [reflexivity |]. now exists data, error.
    + destruct (get data "payload"); discriminate.
  - intros (Hok & data & error & Hjson & Herr & Hfalsy & Hpayload).
    rewrite Hjson, Hok. cbn [obind negb]. rewrite Herr. cbn [obind].
    now rewrite Hfalsy.
Qed.

(** X2: on a response whose payload [String] can print (any payload but
    an object with an own [toString] property, on which [new Error]
    itself throws), every error the unwrapper throws is of one of three
    kinds: the error [response.json()] rejected with; a [TypeError],
    when the body is [null]; or an [Error] whose message is the payload
    as a string or one of the two default texts. *)
Theorem handleResponse_error_kinds host (r : Response) (e : JsError) :
  printablePayload r = true ->
  handleResponse host r = Throw e ->
  json r = Throw e
  \/ (json r = Return VNull /\ error_name e = "TypeError")
  \/ (json r = Return VUndefined /\ error_name e = "TypeError")
  \/ (exists data payload,
        json r = Return data
        /\ get data "payload" = Return payload
        /\ printable payload = true
        /\ error_name e = "Error"
        /\ message e =
           if ToBoolean payload then ToString host payload
           else if ok r then "An error occurred"
           else "HTTP error! status: " +:+ pretty (status r)).
Proof.
  unfold handleResponse, printablePayload.
  destruct (json r) as [data | e0]; cbn [obind];
    [| intros _ [= <-]; now left].
  intros Hprintable Hthrow. right.
  destruct data as [| | b | n | | s | d | items | fields].
  1: { right. left. split; [reflexivity |].
       destruct (ok r); cbn in Hthrow; injection Hthrow as <-; reflexivity. }
  1: { left. split; [reflexivity |].
       destruct (ok r); cbn in Hthrow; injection Hthrow as <-; reflexivity. }
  all: right; right; eexists _, _;
    (split; [reflexivity |]); (split; [reflexivity |]);
    (split; [exact Hprintable |]);
    destruct (ok r); cbn [negb get obind] in Hthrow;
    [ try discriminate | ];
    try (destruct (ToBoolean (lookup_field "error" fields)); [| discriminate]);
    injection Hthrow as <-; now rewrite Error_truthy.
Qed.

Lemma handleResponse_error_kinds_witness :
  exists data payload,
    json (mkResponse 404 (Return (envelope true (VStr "User not found"))))
    = Return data
    /\ get data "payload" = Return payload
    /\ message (mkError "Error" "User not found") = ToString utcHost payload.
Proof.
  destruct (handleResponse_error_kinds utcHost
              (mkResponse 404 (Return (envelope true (VStr "User not found"))))
              (mkError "Error" "User not found") eq_refl eq_refl)
    as [Hjson | [[Hjson _] | [[Hjson _] | (data & payload & Hjson & Hget & _ & _ & Hmsg)]]];
    try discriminate Hjson.
  exists data, payload. split; [exact Hjson |]. split; [exact Hget |].
  injection Hjson as <-. injection Hget as <-. exact Hmsg.
Defined.

Lemma request_run_observed {A} (label : string) (req : Request)
    (r : outcome A) (w : list event) :
  requests (w ++ Fetch req :: logged label r) = requests w ++ [req]
  /\ console_errors (w ++ Fetch req :: logged label r)
     = console_errors w ++ match r with
                           | Throw e => [(label, e)]
                           | Return _ => []
                           end.
Proof. rewrite requests_app, console_errors_app. now destruct r. Qed.

Lemma rejected_run_observed (label : string) (e : JsError) (w : list event) :
  requests (w ++ [ConsoleError label e]) = requests w
  /\ console_errors (w ++ [ConsoleError label e])
     = console_errors w ++ [(label, e)].
Proof.
  rewrite requests_app, console_errors_app. cbn. now rewrite app_nil_r.
Qed.

(** X3: [createUser] rejects falsy user data with "User data is
    required" and sends nothing; otherwise it sends exactly one request,
    a POST to [/api/users] under the base URL carrying the data as
    given, and settles as the unwrapper does on the response. Either
    way the error thrown, if any, is the one console line added. *)
Theorem createUser_observed host network (userData : value) (w : list event) :
  fst (createUser host network userData w) =
    (if ToBoolean userData
     then obind (network w (mkRequest "POST" (API_BASE_URL host +:+ "/api/users")
                              jsonHeaders (Some userData)))
            (handleResponse host)
     else Throw (mkError "Error" "User data is required"))
  /\ requests (snd (createUser host network userData w)) =
       requests w ++
       (if ToBoolean userData
        then [mkRequest "POST" (API_BASE_URL host +:+ "/api/users")
                jsonHeaders (Some userData)]
        else [])
  /\ console_errors (snd (createUser host network userData w)) =
       console_errors w ++
       match fst (createUser host network userData w) with
       | Throw e => [("Error creating user:", e)]
       | Return _ => []
       end.
Proof.
  unfold createUser. destruct (ToBoolean userData); cbn [negb].
  - rewrite logging_fetch. cbn [fst snd].
    split; [reflexivity |]. apply request_run_observed.
  - rewrite logging_throw. cbn [fst snd]. split; [reflexivity |].
    rewrite app_nil_r. apply rejected_run_observed.
Qed.

(** X4: [updateUser] checks the id first and the data second: a falsy
    id gives "User ID is required" whatever the data, a falsy data with
    a truthy id gives "User data is required", and in both cases nothing
    is sent. Otherwise exactly one request is sent, a PUT to
    [/api/users/{id}] carrying the data as given. *)
Theorem updateUser_observed host network (id userData : value)
    (w : list event) :
  fst (updateUser host network id userData w) =
    (if negb (ToBoolean id) then Throw (mkError "Error" "User ID is required")
     else if negb (ToBoolean userData)
     then Throw (mkError "Error" "User data is required")
     else obind (network w (mkRequest "PUT"
                              (API_BASE_URL host +:+ "/api/users/"
                               +:+ ToString host id)
                              jsonHeaders (Some userData)))
            (handleResponse host))
  /\ requests (snd (updateUser host network id userData w)) =
       requests w ++
       (if ToBoolean id && ToBoolean userData
        then [mkRequest "PUT"
                (API_BASE_URL host +:+ "/api/users/" +:+ ToString host id)
                jsonHeaders (Some userData)]
        else [])
  /\ console_errors (snd (updateUser host network id userData w)) =
       console_errors w ++
       match fst (updateUser host network id userData w) with
       | Throw e => [("Error updating user " +:+ ToString host id +:+ ":", e)]
       | Return _ => []
       end.
Proof.
  unfold updateUser.
  destruct (ToBoolean id); cbn [negb andb];
    [destruct (ToBoolean userData); cbn [negb] |].
  - rewrite logging_fetch. cbn [fst snd].
    split; [reflexivity |]. apply request_run_observed.
  - rewrite logging_throw. cbn [fst snd]. split; [reflexivity |].
    rewrite app_nil_r. apply rejected_run_observed.
  - rewrite logging_throw. cbn [fst snd]. split; [reflexivity |].
    rewrite app_nil_r. apply rejected_run_observed.
Qed.

(** X5: [deleteUser] rejects a falsy id with "User ID is required" and
    sends nothing; otherwise it sends exactly one request, a DELETE to
    [/api/users/{id}] without a body, and settles as the unwrapper does
    on the response. *)
Theorem deleteUser_observed host network (id : value) (w : list event) :
  fst (deleteUser host network id w) =
    (if ToBoolean id
     then obind (network w (mkRequest "DELETE"
                              (API_BASE_URL host +:+ "/api/users/"
                               +:+ ToString host id)
                              jsonHeaders None))
            (handleResponse host)
     else Throw (mkError "Error" "User ID is required"))
  /\ requests (snd (deleteUser host network id w)) =
       requests w ++
       (if ToBoolean id
        then [mkRequest "DELETE"
                (API_BASE_URL host +:+ "/api/users/" +:+ ToString host id)
                jsonHeaders None]
        else [])
  /\ console_errors (snd (deleteUser host network id w)) =
       console_errors w ++
       match fst (deleteUser host network id w) with
       | Throw e => [("Error deleting user " +:+ ToString host id +:+ ":", e)]
       | Return _ => []
       end.
Proof.
  unfold deleteUser. destruct (ToBoolean id); cbn [negb].
  - rewrite logging_fetch. cbn [fst snd].
    split; [reflexivity |]. apply request_run_observed.
  - rewrite logging_throw. cbn [fst snd]. split; [reflexivity |].
    rewrite app_nil_r. apply rejected_run_observed.
Qed.

Lemma single_attempt_request {A} (label : string) (req : Request)
    (r : outcome A) :
  single_attempt label r (Fetch req :: logged label r).
Proof. destruct r; split; cbn; (lia || reflexivity). Qed.

Lemma single_attempt_rejected {A} (label : string) (e : JsError) :
  single_attempt label (@Throw A e) [ConsoleError label e].
Proof. split; cbn; (lia || reflexivity). Qed.

(** X6: each of the five operations is a single attempt: whatever the
    arguments and the server, a call only appends to the trace, adds at
    most one request to it (no retry), and adds a console line exactly
    when it throws, with the error it throws (no error is swallowed or
    replaced). *)
Theorem operations_are_single_attempts host network
    (filters pagination : list (string * value)) (id userData : value)
    (w : list event) :
  (exists added,
     snd (getUsers host network filters pagination w) = w ++ added
     /\ single_attempt "Error fetching users:"
          (fst (getUsers host network filters pagination w)) added)
  /\ (exists added,
        snd (getUserById host network id w) = w ++ added
        /\ single_attempt ("Error fetching user " +:+ ToString host id +:+ ":")
             (fst (getUserById host network id w)) added)
  /\ (exists added,
        snd (createUser host network userData w) = w ++ added
        /\ single_attempt "Error creating user:"
             (fst (createUser host network userData w)) added)
  /\ (exists added,
        snd (updateUser host network id userData w) = w ++ added
        /\ single_attempt ("Error updating user " +:+ ToString host id +:+ ":")
             (fst (updateUser host network id userData w)) added)
  /\ (exists added,
        snd (deleteUser host network id w) = w ++ added
        /\ single_attempt ("Error deleting user " +:+ ToString host id +:+ ":")
             (fst (deleteUser host network id w)) added).
Proof.
  repeat split.
  - unfold getUsers. cbv zeta. rewrite logging_fetch.
    eexists. split; [reflexivity | apply single_attempt_request].
  - unfold getUserById. destruct (ToBoolean id); cbn [negb].
    + rewrite logging_fetch.
      eexists. split; [reflexivity | apply single_attempt_request].
    + rewrite logging_throw.
      eexists. split; [reflexivity | apply single_attempt_rejected].
  - unfold createUser. destruct (ToBoolean userData); cbn [negb].
    + rewrite logging_fetch.
      eexists. split; [reflexivity | apply single_attempt_request].
    + rewrite logging_throw.
      eexists. split; [reflexivity | apply single_attempt_rejected].
  - unfold updateUser.
    destruct (ToBoolean id); cbn [negb];
      [destruct (ToBoolean userData); cbn [negb] |].
    + rewrite logging_fetch.
      eexists. split; [reflexivity | apply single_attempt_request].
    + rewrite logging_throw.
      eexists. split; [reflexivity | apply single_attempt_rejected].
    + rewrite logging_throw.
      eexists. split; [reflexivity | apply single_attempt_rejected].
  - unfold deleteUser. destruct (ToBoolean id); cbn [negb].
    + rewrite logging_fetch.
      eexists. split; [reflexivity | apply single_attempt_request].
    + rewrite logging_throw.
      eexists. split; [reflexivity | apply single_attempt_rejected].
Qed.

(** * Further properties of the query builder *)

Lemma join_app (sep : string) (a b : list string) :
  a <> [] -> b <> [] ->
  join sep (a ++ b) = join sep a +:+ sep +:+ join sep b.
Proof.
  intros Ha Hb. induction a as [| p ps IH]; [contradiction |].
  destruct ps as [| q qs].
  - destruct b; [contradiction | reflexivity].
  - change (join sep ((p :: q :: qs) ++ b))
      with (p +:+ sep +:+ join sep ((q :: qs) ++ b)).
    rewrite IH by discriminate.
    change (join sep (p :: q :: qs)) with (p +:+ sep +:+ join sep (q :: qs)).
    now rewrite !append_assoc.
Qed.

(** X7: two parameter mappings give the same query string exactly when
    they keep the same keys, in the same order, with values that print
    the same: no choice of characters in a key or value (an ampersand,
    an equals sign, a percent sign) makes two different lists of pairs
    collide. *)
Theorem buildQueryString_determines_parameters host
    (p1 p2 : list (string * value)) :
  buildQueryString host p1 = buildQueryString host p2 <->
  map (fun kv => (fst kv, ToString host (snd kv)))
    (List.filter (fun kv => kept (snd kv)) p1)
  = map (fun kv => (fst kv, ToString host (snd kv)))
      (List.filter (fun kv => kept (snd kv)) p2).
Proof.
  split.
  - intros Hsame. apply (f_equal decodeQuery) in Hsame.
    now rewrite !decodeQuery_buildQueryString in Hsame.
  - intros Hsame. rewrite !buildQueryString_unfold.
    assert (Htext : forall p : list (string * value),
              map (fun kv => encodeURIComponent host (VStr (fst kv)) +:+ "="
                             +:+ encodeURIComponent host (snd kv)) p
              = map (fun ks : string * string =>
                       encodeString (fst ks) +:+ "=" +:+ encodeString (snd ks))
                  (map (fun kv => (fst kv, ToString host (snd kv))) p)).
    { intros p. rewrite map_map. apply map_ext. now intros [k v]. }
    destruct (List.filter (fun kv => kept (snd kv)) p1) as [| kv1 rest1];
      destruct (List.filter (fun kv => kept (snd kv)) p2) as [| kv2 rest2];
      try discriminate; [reflexivity |].
    now rewrite (Htext (kv1 :: rest1)), (Htext (kv2 :: rest2)), Hsame.
Qed.

(** X8: the query string of two mappings put one after the other is the
    two query strings joined by an ampersand (or the one that is not
    empty), and an entry whose value is [undefined], [null] or the empty
    string can be added or removed anywhere without changing the
    result. *)
Theorem buildQueryString_app host (p1 p2 : list (string * value)) :
  buildQueryString host (p1 ++ p2)
  = joinQueries (buildQueryString host p1) (buildQueryString host p2)
  /\ (forall k v,
        kept v = false ->
        buildQueryString host (p1 ++ (k, v) :: p2)
        = buildQueryString host (p1 ++ p2)).
Proof.
  split.
  - rewrite !buildQueryString_unfold, List.filter_app.
    destruct (List.filter (fun kv => kept (snd kv)) p1) as [| kv1 rest1].
    + cbn [app joinQueries].
      now destruct (List.filter (fun kv => kept (snd kv)) p2).
    + destruct (List.filter (fun kv => kept (snd kv)) p2) as [| kv2 rest2].
      * now rewrite app_nil_r.
      * change ((kv1 :: rest1) ++ kv2 :: rest2)
          with (kv1 :: (rest1 ++ kv2 :: rest2)).
        cbn [joinQueries String.append]. f_equal.
        change (kv1 :: (rest1 ++ kv2 :: rest2))
          with ((kv1 :: rest1) ++ kv2 :: rest2).
        now rewrite List.map_app, join_app by discriminate.
  - intros k v Hdropped. rewrite !buildQueryString_unfold, !List.filter_app.
    cbn [List.filter snd]. now rewrite Hdropped.
Qed.

(** * Further properties of the date formatter *)

Lemma has_T_digits (k : nat) (n : Z) : has "T" (digits k n) = false.
Proof.
  revert n. induction k as [| k IH]; intros n; cbn [digits]; [reflexivity |].
  rewrite has_app, IH. cbn [has orb].
  now rewrite (digit_is_not_T _ (is_digit_digit n)).
Qed.

Lemma has_T_isoYear (y : Z) : has "T" (isoYear y) = false.
Proof.
  unfold isoYear. destruct ((0 <=? y) && (y <=? 9999)).
  - apply has_T_digits.
  - rewrite has_app, has_T_digits. now destruct (y <? 0).
Qed.

Lemma formatDateForAPI_valid_date (t : Z) :
  formatDateForAPI (VDate (DateAt t)) = Return (VStr (isoDate (t / msPerDay))).
Proof.
  unfold formatDateForAPI, toISOString, isoDate, YearFromTime, MonthFromTime,
    DateFromTime.
  cbn [ToBoolean negb obind].
  destruct (civil_from_days (t / msPerDay)) as [[y m] d]. cbn [fst snd].
  do 2 f_equal.
  match goal with
  | |- split_first _ (_ +:+ _ +:+ _ +:+ _ +:+ _ +:+ "T" +:+ ?rest) = _ =>
      replace (isoYear y +:+ "-" +:+ digits 2 m +:+ "-" +:+ digits 2 d
               +:+ "T" +:+ rest)
        with ((isoYear y +:+ "-" +:+ digits 2 m +:+ "-" +:+ digits 2 d)
              +:+ String "T" rest)
        by (now rewrite !append_assoc)
  end.
  apply split_first_app.
  now rewrite !has_app, has_T_isoYear, !has_T_digits.
Qed.

Lemma day_before_local_midnight (t off : Z) :
  0 < off <= msPerDay -> (t + off) mod msPerDay = 0 ->
  t / msPerDay = (t + off) / msPerDay - 1.
Proof.
  unfold msPerDay. intros Hoff Hmid.
  apply Z.mod_divide in Hmid; [| lia]. destruct Hmid as [q Hq].
  rewrite Hq, Z.div_mul by lia.
  symmetry. apply (Z.div_unique t 86400000 (q - 1) (86400000 - off)); lia.
Qed.

(** X10: a valid [Date] is formatted as the calendar date of its UTC
    day: the time of day plays no part, and for a [Date] that is local
    midnight in a zone ahead of UTC the result is the day before the
    local calendar day. *)
Theorem formatDateForAPI_formats_utc_day host (t : Z) :
  formatDateForAPI (VDate (DateAt t)) = Return (VStr (isoDate (t / msPerDay)))
  /\ (forall t', t' / msPerDay = t / msPerDay ->
        formatDateForAPI (VDate (DateAt t')) = formatDateForAPI (VDate (DateAt t)))
  /\ (0 < localTZA host t <= msPerDay ->
      (t + localTZA host t) mod msPerDay = 0 ->
      formatDateForAPI (VDate (DateAt t))
      = Return (VStr (isoDate ((t + localTZA host t) / msPerDay - 1)))).
Proof.
  split; [apply formatDateForAPI_valid_date | split].
  - intros t' Hday. rewrite !formatDateForAPI_valid_date. now rewrite Hday.
  - intros Hoff Hmid. rewrite formatDateForAPI_valid_date.
    now rewrite (day_before_local_midnight t (localTZA host t)).
Qed.

Lemma formatDateForAPI_formats_utc_day_witness :
  formatDateForAPI (VDate (DateAt (sampleNow - 19800000)))
  = Return (VStr "2024-03-04")
  /\ toISOString (DateAt (sampleNow - 19800000 + localTZA eastHost sampleNow))
     = Return "2024-03-05T00:00:00.000Z".
Proof.
  split; [| reflexivity].
  refine (proj2 (proj2 (formatDateForAPI_formats_utc_day eastHost
                          (sampleNow - 19800000))) _ _).
  - cbn. unfold msPerDay. lia.
  - reflexivity.
Defined.

(** X11: what the formatter returns is [null] or a string; and unless
    the input is a [Date] whose UTC year lies outside 0..9999, a string
    it returns matches the date pattern and has ten characters. *)
Theorem formatDateForAPI_result_shape (v r : value) :
  formatDateForAPI v = Return r ->
  r = VNull
  \/ exists s,
       r = VStr s
       /\ ((forall t, v = VDate (DateAt t) -> 0 <= YearFromTime t <= 9999) ->
           test isoDateRegex s = true /\ String.length s = 10%nat).
Proof.
  intros Hr.
  destruct v as [| | b | n | | s | d | items | fields];
    try (left; cbn in Hr; congruence).
  - left. unfold formatDateForAPI in Hr. cbn [ToBoolean] in Hr.
    destruct (negb b); congruence.
  - left. unfold formatDateForAPI in Hr. cbn [ToBoolean] in Hr.
    destruct (negb (negb (n =? 0))); congruence.
  - rewrite formatDateForAPI_string in Hr.
    destruct (test isoDateRegex s) eqn:Hs; injection Hr as <-; [| now left].
    right. exists s. split; [reflexivity |]. intros _.
    split; [assumption | now apply isoDateRegex_length].
  - destruct d as [| t]; [discriminate |].
    right. rewrite formatDateForAPI_valid_date in Hr. injection Hr as <-.
    eexists. split; [reflexivity |]. intros Hyear.
    specialize (Hyear t eq_refl).
    pose proof (formatDateForAPI_date t Hyear) as Hdigits.
    rewrite formatDateForAPI_valid_date in Hdigits. injection Hdigits as ->.
    split; [apply isoDateRegex_digits |].
    apply isoDateRegex_length, isoDateRegex_digits.
Qed.

Lemma formatDateForAPI_result_shape_witness :
  VStr "2024-03-05" = VNull
  \/ exists s,
       VStr "2024-03-05" = VStr s
       /\ ((forall t, VDate (DateAt sampleNow) = VDate (DateAt t) ->
                      0 <= YearFromTime t <= 9999) ->
           test isoDateRegex s = true /\ String.length s = 10%nat).
Proof.
  exact (formatDateForAPI_result_shape (VDate (DateAt sampleNow))
           (VStr "2024-03-05") eq_refl).
Defined.

Lemma formatDateForAPI_idempotent_elsewhere_witness :
  (exists r, formatDateForAPI (VStr "2024-03-05") = Return r)
  /\ obind (formatDateForAPI (VStr "2024-03-05")) formatDateForAPI
     = formatDateForAPI (VStr "2024-03-05").
Proof.
  apply (formatDateForAPI_idempotent_elsewhere (VStr "2024-03-05")).
  - discriminate.
  - intros t Hdate. discriminate Hdate.
Defined.

(** * Further properties of the record validator *)

Lemma validateUserData_blocks host (userData : list (string * value))
    (isUpdate : bool) :
  validateUserData host userData isUpdate =
  let? e1 := trimBlock "userData.name" (lookup_field "name" userData) 2
               "Name is required and must be at least 2 characters"
               isUpdate [] in
  let e2 := e1 ++ (if checked isUpdate (lookup_field "email" userData)
                      && (negb (ToBoolean (lookup_field "email" userData))
                          || negb (test emailRegex
                                     (ToString host (lookup_field "email" userData))))
                   then ["Valid email is required"] else []) in
  let? e3 := trimBlock "userData.aboutYou" (lookup_field "aboutYou" userData) 10
               "About You is required and must be at least 10 characters"
               isUpdate e2 in
  let e4 := e3 ++ (if checked isUpdate (lookup_field "birthday" userData)
                      && negb (ToBoolean (lookup_field "birthday" userData))
                   then ["Birthday is required"] else []) in
  let? e5 := trimBlock "userData.mobileNumber"
               (lookup_field "mobileNumber" userData) 10
               "Mobile number is required" isUpdate e4 in
  trimBlock "userData.country" (lookup_field "country" userData) 2
    "Country is required" isUpdate e5.
Proof.
  unfold validateUserData. fold (trimBlock "userData.name"
    (lookup_field "name" userData) 2
    "Name is required and must be at least 2 characters" isUpdate []).
  destruct (trimBlock "userData.name" _ _ _ _ _) as [e1 | err];
    cbn [obind]; [| reflexivity].
  cbv zeta.
  assert (Hemail :
    (if checked isUpdate (lookup_field "email" userData)
     then if negb (ToBoolean (lookup_field "email" userData))
             || negb (test emailRegex
                        (ToString host (lookup_field "email" userData)))
          then e1 ++ ["Valid email is required"] else e1
     else e1)
    = e1 ++ (if checked isUpdate (lookup_field "email" userData)
                && (negb (ToBoolean (lookup_field "email" userData))
                    || negb (test emailRegex
                               (ToString host (lookup_field "email" userData))))
             then ["Valid email is required"] else [])).
  { destruct (checked isUpdate (lookup_field "email" userData));
      cbn [andb]; [destruct (_ || _) |].
    all: rewrite ?app_nil_r. all: reflexivity. }
  rewrite Hemail. clear Hemail.
  set (e2 := e1 ++ _).
  fold (trimBlock "userData.aboutYou" (lookup_field "aboutYou" userData) 10
          "About You is required and must be at least 10 characters"
          isUpdate e2).
  destruct (trimBlock "userData.aboutYou" _ _ _ _ _) as [e3 | err];
    cbn [obind]; [| reflexivity].
  assert (Hbirthday :
    (if checked isUpdate (lookup_field "birthday" userData)
     then if negb (ToBoolean (lookup_field "birthday" userData))
          then e3 ++ ["Birthday is required"] else e3
     else e3)
    = e3 ++ (if checked isUpdate (lookup_field "birthday" userData)
                && negb (ToBoolean (lookup_field "birthday" userData))
             then ["Birthday is required"] else [])).
  { destruct (checked isUpdate (lookup_field "birthday" userData));
      cbn [andb];
      [destruct (negb (ToBoolean (lookup_field "birthday" userData))) |].
    all: rewrite ?app_nil_r. all: reflexivity. }
  rewrite Hbirthday. clear Hbirthday.
  set (e4 := e3 ++ _).
  fold (trimBlock "userData.mobileNumber" (lookup_field "mobileNumber" userData)
          10 "Mobile number is required" isUpdate e4).
  destruct (trimBlock "userData.mobileNumber" _ _ _ _ _) as [e5 | err];
    cbn [obind]; [| reflexivity].
  unfold trimBlock.
  destruct (checked isUpdate (lookup_field "country" userData));
    [| reflexivity].
  now destruct (missing_or_short _ _ _).
Qed.

Lemma trimBlock_trimmable (what : string) (v : value) (n : nat) (msg : string)
    (isUpdate : bool) (errors : list string) :
  trimmable v = true ->
  trimBlock what v n msg isUpdate errors
  = Return (errors ++ (if checked isUpdate v
                          && (negb (ToBoolean v) || shorter_than n v)
                       then [msg] else [])).
Proof.
  intros Hv. unfold trimBlock. rewrite missing_or_short_trimmable by assumption.
  destruct (checked isUpdate v); cbn [andb obind];
    [destruct (_ || _) |].
  all: rewrite ?app_nil_r. all: reflexivity.
Qed.

Lemma trimBlock_untrimmable (what : string) (v : value) (n : nat)
    (msg : string) (isUpdate : bool) (errors : list string) :
  trimmable v = false ->
  trimBlock what v n msg isUpdate errors
  = Throw (mkError "TypeError" (what +:+ ".trim is not a function")).
Proof.
  intros Hv. unfold trimBlock, checked, missing_or_short, call_trim.
  destruct v as [| | b | k | | s | d | items | fields];
    try discriminate; cbn in Hv |- *.
  - destruct b; [| discriminate]. now rewrite orb_true_r.
  - destruct (k =? 0); [discriminate |]. now rewrite orb_true_r.
  - now rewrite orb_true_r.
  - now rewrite orb_true_r.
  - now rewrite orb_true_r.
Qed.

(** On a record whose text fields can be trimmed, the validator returns
    what the table of rules gives. *)
Lemma validateUserData_table host (userData : list (string * value))
    (isUpdate : bool) :
  Forall (fun key => trimmable (lookup_field key userData) = true)
    ["name"; "aboutYou"; "mobileNumber"; "country"] ->
  validateUserData host userData isUpdate
  = Return (validateRecord host userData isUpdate).
Proof.
  intros Htyped.
  inversion_clear Htyped as [| ? ? Hname Htyped1].
  inversion_clear Htyped1 as [| ? ? Habout Htyped2].
  inversion_clear Htyped2 as [| ? ? Hmobile Htyped3].
  inversion_clear Htyped3 as [| ? ? Hcountry _].
  rewrite validateUserData_blocks.
  rewrite (trimBlock_trimmable _ _ _ _ _ _ Hname). cbn [obind]. cbv zeta.
  rewrite (trimBlock_trimmable _ _ _ _ _ _ Habout). cbn [obind].
  rewrite (trimBlock_trimmable _ _ _ _ _ _ Hmobile). cbn [obind].
  rewrite (trimBlock_trimmable _ _ _ _ _ _ Hcountry).
  unfold validateRecord, recordRules. cbn [flat_map].
  now rewrite app_nil_r, <- !app_assoc.
Qed.

(** The validator on any record: a [TypeError] at the first text field
    that cannot be trimmed, the messages of the table otherwise. *)
Lemma validateUserData_described host (userData : list (string * value))
    (isUpdate : bool) :
  validateUserData host userData isUpdate =
  match firstUntrimmable userData with
  | Some key =>
      Throw (mkError "TypeError" ("userData." +:+ key +:+ ".trim is not a function"))
  | None => Return (validateRecord host userData isUpdate)
  end.
Proof.
  unfold firstUntrimmable. cbn [List.find].
  destruct (trimmable (lookup_field "name" userData)) eqn:Hname; cbn [negb].
  2: { rewrite validateUserData_blocks.
       now rewrite (trimBlock_untrimmable _ _ _ _ _ _ Hname). }
  destruct (trimmable (lookup_field "aboutYou" userData)) eqn:Habout; cbn [negb].
  2: { rewrite validateUserData_blocks.
       rewrite (trimBlock_trimmable _ _ _ _ _ _ Hname). cbn [obind]. cbv zeta.
       now rewrite (trimBlock_untrimmable _ _ _ _ _ _ Habout). }
  destruct (trimmable (lookup_field "mobileNumber" userData)) eqn:Hmobile;
    cbn [negb].
  2: { rewrite validateUserData_blocks.
       rewrite (trimBlock_trimmable _ _ _ _ _ _ Hname). cbn [obind]. cbv zeta.
       rewrite (trimBlock_trimmable _ _ _ _ _ _ Habout). cbn [obind].
       now rewrite (trimBlock_untrimmable _ _ _ _ _ _ Hmobile). }
  destruct (trimmable (lookup_field "country" userData)) eqn:Hcountry;
    cbn [negb].
  2: { rewrite validateUserData_blocks.
       rewrite (trimBlock_trimmable _ _ _ _ _ _ Hname). cbn [obind]. cbv zeta.
       rewrite (trimBlock_trimmable _ _ _ _ _ _ Habout). cbn [obind].
       rewrite (trimBlock_trimmable _ _ _ _ _ _ Hmobile). cbn [obind].
       now rewrite (trimBlock_untrimmable _ _ _ _ _ _ Hcountry). }
  apply validateUserData_table. repeat constructor; assumption.
Qed.

(** X12: on a record whose email [String] can print (any email but an
    object with an own [toString] property, on which the pattern test
    itself throws), a truthy text field that is not a string (a number,
    an array, an object) makes the record validator throw instead of
    reporting: the error is a [TypeError] naming the first such field in
    the order name, aboutYou, mobileNumber, country, in create and
    update mode alike; on every other such record the validator returns
    a list. *)
Theorem validateUserData_throws_on_untrimmable host
    (userData : list (string * value)) (isUpdate : bool) :
  printable (lookup_field "email" userData) = true ->
  match firstUntrimmable userData with
  | Some key =>
      validateUserData host userData isUpdate
      = Throw (mkError "TypeError"
                 ("userData." +:+ key +:+ ".trim is not a function"))
      /\ ToBoolean (lookup_field key userData) = true
      /\ is_string (lookup_field key userData) = false
  | None => exists errors, validateUserData host userData isUpdate = Return errors
  end.
Proof.
  intros _. rewrite validateUserData_described.
  destruct (firstUntrimmable userData) as [key |] eqn:Hfirst;
    [| eexists; reflexivity].
  split; [reflexivity |].
  apply find_some in Hfirst as [_ Hkey].
  unfold trimmable in Hkey. apply negb_true_iff, orb_false_iff in Hkey.
  destruct Hkey as [Hstr Hfalsy]. apply negb_false_iff in Hfalsy. now split.
Qed.

Lemma validateUserData_throws_on_untrimmable_witness :
  validateUserData utcHost (sampleRecord "aboutYou" (VNum 5)) true
  = Throw (mkError "TypeError" "userData.aboutYou.trim is not a function").
Proof.
  exact (proj1 (validateUserData_throws_on_untrimmable utcHost
                  (sampleRecord "aboutYou" (VNum 5)) true eq_refl)).
Defined.

Lemma sublist_checked (isUpdate : bool) (v : value) (bad : bool) (msg : string) :
  (if checked true v && bad then [msg] else [])
    `sublist_of` (if checked false v && bad then [msg] else []).
Proof.
  unfold checked. cbn [negb orb andb].
  destruct (is_defined v), bad; cbn [andb]; try reflexivity.
  all: apply sublist_nil_l.
Qed.

(** X13: on a record whose text fields are strings or falsy, the
    messages of update mode are a sublist of the messages of create
    mode, which are at most six; the two lists are the same when none of
    the six fields is [undefined]. *)
Theorem validateUserData_update_within_create host
    (userData : list (string * value)) :
  Forall (fun key => trimmable (lookup_field key userData) = true)
    ["name"; "aboutYou"; "mobileNumber"; "country"] ->
  exists updateErrors createErrors,
    validateUserData host userData true = Return updateErrors
    /\ validateUserData host userData false = Return createErrors
    /\ updateErrors `sublist_of` createErrors
    /\ (length createErrors <= 6)%nat
    /\ (Forall (fun key => is_defined (lookup_field key userData) = true)
          ["name"; "email"; "aboutYou"; "birthday"; "mobileNumber"; "country"] ->
        updateErrors = createErrors).
Proof.
  intros Htyped. rewrite !validateUserData_table by assumption.
  eexists _, _. split; [reflexivity |]. split; [reflexivity |].
  unfold validateRecord, recordRules. cbn [flat_map].
  split; [| split].
  - repeat (apply sublist_app; [apply (sublist_checked true) |]).
    reflexivity.
  - rewrite !length_app.
    repeat match goal with
           | |- context [if ?b then _ else _] => destruct b
           end; cbn; lia.
  - intros Hdefined.
    repeat match goal with
           | H : Forall _ (_ :: _) |- _ =>
               apply Forall_cons_1 in H as [? H]
           end.
    unfold checked. cbn [negb orb].
    repeat match goal with
           | H : is_defined _ = true |- _ => rewrite H; clear H
           end.
    reflexivity.
Qed.

Lemma validateUserData_update_within_create_witness :
  exists updateErrors createErrors,
    validateUserData utcHost [("name", VStr "T")] true = Return updateErrors
    /\ validateUserData utcHost [("name", VStr "T")] false = Return createErrors
    /\ updateErrors `sublist_of` createErrors
    /\ (length createErrors <= 6)%nat
    /\ (Forall (fun key =>
                  is_defined (lookup_field key [("name", VStr "T")]) = true)
          ["name"; "email"; "aboutYou"; "birthday"; "mobileNumber"; "country"] ->
        updateErrors = createErrors).
Proof.
  apply (validateUserData_update_within_create utcHost [("name", VStr "T")]).
  repeat constructor.
Defined.

Lemma isoDate_truthy (day : Z) : ToBoolean (VStr (isoDate day)) = true.
Proof.
  unfold isoDate. destruct (civil_from_days day) as [[y m] d].
  cbn [ToBoolean]. destruct (isoYear y) as [| c s] eqn:Hy; reflexivity.
Qed.

(** X14: what [handleSubmit] sends passes the record validator: when
    every field of the form is valid and the birthday is formatted, the
    record [{ ...formData, birthday }] gets no message from
    [validateUserData], in create and in update mode. *)
Theorem valid_form_is_valid_record host now (fd : FormData) (b : value)
    (isUpdate : bool) :
  validateForm host now fd = ∅ ->
  formatDateForAPI (dateValue (birthday fd)) = Return b ->
  apiDataOf fd b = VObj (apiRecord fd b)
  /\ validateUserData host (apiRecord fd b) isUpdate = Return [].
Proof.
  intros Hvalid Hdate. split; [reflexivity |].
  assert (Hb : ToBoolean b = true).
  { pose proof (proj1 (validateForm_empty host now fd) Hvalid Birthday) as Hday.
    cbn [getField validateField] in Hday.
    destruct (birthday fd) as [[| t] |]; cbn [dateValue] in Hdate;
      [discriminate | | discriminate].
    rewrite formatDateForAPI_valid_date in Hdate. injection Hdate as <-.
    apply isoDate_truthy. }
  rewrite validateUserData_table by (repeat constructor).
  unfold validateRecord, recordRules, apiRecord, checked, shorter_than.
  cbn [flat_map lookup_field String.eqb Ascii.eqb Bool.eqb is_defined orb
         ToBoolean ToString].
  rewrite Hb, !orb_true_r. cbn [negb andb app].
  pose proof (proj1 (validateForm_empty host now fd) Hvalid) as Hfields.
  pose proof (Hfields Name) as Hname. pose proof (Hfields Email) as Hemail.
  pose proof (Hfields AboutYou) as Habout.
  pose proof (Hfields MobileNumber) as Hmobile.
  pose proof (Hfields Country) as Hcountry.
  cbn [getField validateField] in Hname, Hemail, Habout, Hmobile, Hcountry.
  unfold blank_or_short in *.
  rewrite !negb_involutive.
  destruct (String.eqb (name fd) "" || _) eqn:H1 in Hname; [discriminate |].
  destruct (String.eqb (aboutYou fd) "" || _) eqn:H2 in Habout;
    [discriminate |].
  destruct (String.eqb (mobileNumber fd) "" || _) eqn:H3 in Hmobile;
    [discriminate |].
  destruct (String.eqb (country fd) "" || _) eqn:H4 in Hcountry;
    [discriminate |].
  destruct (String.eqb (email fd) "" || _) eqn:H5 in Hemail; [discriminate |].
  destruct (test emailRegex (email fd)) eqn:H6; [| discriminate].
  apply orb_false_iff in H5 as [H5 _].
  rewrite H1, H2, H3, H4, H5, !andb_false_r. reflexivity.
Qed.

Lemma valid_form_is_valid_record_witness :
  apiDataOf sampleForm (VStr "1990-01-01")
  = VObj (apiRecord sampleForm (VStr "1990-01-01"))
  /\ validateUserData utcHost (apiRecord sampleForm (VStr "1990-01-01")) false
     = Return [].
Proof.
  apply (valid_form_is_valid_record utcHost sampleNow sampleForm
           (VStr "1990-01-01") false); reflexivity.
Defined.

(** * Further properties of the field validator *)

Lemma Matches_Star_Class (p : ascii -> bool) (s : string) :
  Matches (Star (Class p)) s <-> all_chars p s = true.
Proof.
  split.
  - intros Hm. remember (Star (Class p)) as r eqn:Hr.
    induction Hm as [| | | | | r0 | r0 s1 s2 H1 _ H2 IH2]; try discriminate.
    + reflexivity.
    + injection Hr as ->. inversion H1; subst. cbn.
      rewrite IH2 by reflexivity. now rewrite andb_true_r.
  - induction s as [| c s IH]; cbn; [constructor |].
    intros Hall. apply andb_true_iff in Hall as [Hc Hs].
    exact (MStarCons (Class p) (String c "") s (MClass p c Hc) (IH Hs)).
Qed.

Lemma test_Plus_Class (p : ascii -> bool) (s : string) :
  test (Plus (Class p)) s = true <-> s <> "" /\ all_chars p s = true.
Proof.
  rewrite test_Matches. unfold Plus. split.
  - inversion 1 as [| | ? ? s1 s2 H1 H2 | | | |]; subst.
    inversion H1; subst. apply Matches_Star_Class in H2.
    split; [discriminate |]. cbn. now rewrite H2, andb_true_r.
  - intros [Hne Hall]. destruct s as [| c s]; [contradiction |].
    cbn in Hall. apply andb_true_iff in Hall as [Hc Hs].
    exact (MCat (Class p) (Star (Class p)) (String c "") s
             (MClass p c Hc) (proj2 (Matches_Star_Class p s) Hs)).
Qed.

Lemma trim_empty : trim "" = "".
Proof. reflexivity. Qed.

Lemma blank_or_short_false (s : string) (n : nat) :
  (0 < n)%nat ->
  blank_or_short s n = false <-> (n <= String.length (trim s))%nat.
Proof.
  intros Hn. unfold blank_or_short. rewrite orb_false_iff, Nat.ltb_ge. split.
  - now intros [_ Hlen].
  - intros Hlen. split; [| assumption].
    destruct s; [cbn in Hlen; lia | reflexivity].
Qed.

(** X15: a name is accepted exactly when its trimmed length is at least
    2, its full length (untrimmed) at most 50, and every character is a
    letter a-z or A-Z or white space; a country likewise with 20 in
    place of 50; an about-you text exactly when its trimmed length is at
    least 10 and its full length at most 250. *)
Theorem validateField_text_accepts host now (s : string) :
  (validateField host now Name s = "" <->
   (2 <= String.length (trim s))%nat /\ (String.length s <= 50)%nat
   /\ all_chars (fun c => is_letter c || is_space c) s = true)
  /\ (validateField host now Country s = "" <->
      (2 <= String.length (trim s))%nat /\ (String.length s <= 20)%nat
      /\ all_chars (fun c => is_letter c || is_space c) s = true)
  /\ (validateField host now AboutYou s = "" <->
      (10 <= String.length (trim s))%nat /\ (String.length s <= 250)%nat).
Proof.
  cbn [validateField].
  assert (Hregex : test lettersSpacesRegex s = true ->
                   all_chars (fun c => is_letter c || is_space c) s = true)
    by (intros H; now apply test_Plus_Class in H).
  assert (Hback : (2 <= String.length (trim s))%nat ->
                  all_chars (fun c => is_letter c || is_space c) s = true ->
                  test lettersSpacesRegex s = true).
  { intros Hlen Hall. apply test_Plus_Class. split; [| assumption].
    intros ->. cbn in Hlen. lia. }
  repeat split.
  all: try match goal with
           | |- _ -> _ => intros Hok
           end.
  all: repeat match goal with
         | H : (if ?b then _ else _) = "" |- _ =>
             destruct b eqn:?; [discriminate |]
         | H : _ /\ _ |- _ => destruct H
         end.
  all: repeat match goal with
         | H : blank_or_short _ _ = false |- _ =>
             apply blank_or_short_false in H; [| lia]
         | H : (_ <? _)%nat = false |- _ => apply Nat.ltb_ge in H
         | H : negb _ = false |- _ => apply negb_false_iff in H
         end.
  all: auto.
  all: repeat match goal with
         | |- (if ?b then _ else _) = "" => destruct b eqn:?
         end; try reflexivity.
  all: exfalso.
  all: repeat match goal with
         | H : blank_or_short _ _ = true |- _ =>
             apply not_false_iff_true in H; apply H;
             apply blank_or_short_false; [lia | assumption]
         | H : (_ <? _)%nat = true |- _ => apply Nat.ltb_lt in H; lia
         | H : negb _ = true |- _ =>
             apply negb_true_iff in H; rewrite Hback in H by assumption;
             discriminate
         end.
Qed.

Lemma Matches_Class_inv (p : ascii -> bool) (s : string) :
  Matches (Class p) s <-> exists c, s = String c "" /\ p c = true.
Proof.
  split.
  - inversion 1; subst. eauto.
  - intros (c & -> & Hc). now constructor.
Qed.

Lemma Matches_Times_Class_iff (n : nat) (p : ascii -> bool) (s : string) :
  Matches (Times n (Class p)) s <->
  String.length s = n /\ all_chars p s = true.
Proof.
  revert s. induction n as [| n IH]; intros s; cbn [Times].
  - split.
    + inversion 1. now split.
    + intros [Hlen _]. destruct s; [constructor | discriminate].
  - split.
    + inversion 1 as [| | ? ? s1 s2 H1 H2 | | | |]; subst.
      inversion H1; subst. apply IH in H2 as [Hlen Hall]. cbn.
      rewrite Hlen, Hall. split; [reflexivity | now rewrite andb_true_r].
    + intros [Hlen Hall]. destruct s as [| c s]; [discriminate |].
      cbn in Hlen, Hall. apply andb_true_iff in Hall as [Hc Hs].
      injection Hlen as Hlen.
      exact (MCat (Class p) (Times n (Class p)) (String c "") s
               (MClass p c Hc) (proj2 (IH s) (conj Hlen Hs))).
Qed.

Lemma Matches_UpTo_Class_iff (n : nat) (p : ascii -> bool) (s : string) :
  Matches (UpTo n (Class p)) s <->
  (String.length s <= n)%nat /\ all_chars p s = true.
Proof.
  revert s. induction n as [| n IH]; intros s; cbn [UpTo]; unfold Opt.
  - split.
    + inversion 1. split; [cbn; lia | reflexivity].
    + intros [Hlen _]. destruct s; [constructor | cbn in Hlen; lia].
  - split.
    + inversion 1 as [| | | ? ? ? Hl | ? ? ? Hr | |]; subst.
      * inversion Hl. split; [cbn; lia | reflexivity].
      * inversion Hr as [| | ? ? s1 s2 H1 H2 | | | |]; subst.
        inversion H1; subst. apply IH in H2 as [Hlen Hall]. cbn.
        rewrite Hall. split; [lia | now rewrite andb_true_r].
    + intros [Hlen Hall]. destruct s as [| c s].
      * apply MAltL. constructor.
      * cbn in Hlen, Hall. apply andb_true_iff in Hall as [Hc Hs].
        apply MAltR.
        assert (Hlen' : (String.length s <= n)%nat) by lia.
        exact (MCat (Class p) (UpTo n (Class p)) (String c "") s
                 (MClass p c Hc) (proj2 (IH s) (conj Hlen' Hs))).
Qed.

Lemma Matches_Between_Class (lo hi : nat) (p : ascii -> bool) (s : string) :
  (lo <= hi)%nat ->
  Matches (Between lo hi (Class p)) s <->
  (lo <= String.length s <= hi)%nat /\ all_chars p s = true.
Proof.
  intros Hle. unfold Between. split.
  - inversion 1 as [| | ? ? s1 s2 H1 H2 | | | |]; subst.
    apply Matches_Times_Class_iff in H1 as [Hlen1 Hall1].
    apply Matches_UpTo_Class_iff in H2 as [Hlen2 Hall2].
    rewrite length_app_string, all_chars_app, Hall1, Hall2.
    split; [lia | reflexivity].
  - generalize (hi - lo)%nat (Nat.sub_add lo hi Hle). intros m Hm.
    intros [[Hlo Hhi] Hall]. rewrite <- Hm in Hhi. clear Hm Hle hi.
    revert s Hlo Hhi Hall. induction lo as [| lo IH]; intros s Hlo Hhi Hall.
    + assert (Hlen : (String.length s <= m)%nat) by lia.
      exact (MCat Eps (UpTo m (Class p)) "" s MEps
               (proj2 (Matches_UpTo_Class_iff m p s) (conj Hlen Hall))).
    + destruct s as [| c s]; [cbn in Hlo; lia |].
      cbn in Hlo, Hhi, Hall. apply andb_true_iff in Hall as [Hc Hs].
      assert (Hlo' : (lo <= String.length s)%nat) by lia.
      assert (Hhi' : (String.length s <= m + lo)%nat) by lia.
      specialize (IH s Hlo' Hhi' Hs).
      inversion IH as [| | ? ? a b Ha Hb | | | |]; subst.
      exact (MCat (Times (S lo) (Class p)) (UpTo m (Class p)) (String c a) b
               (MCat (Class p) (Times lo (Class p)) (String c "") a
                  (MClass p c Hc) Ha) Hb).
Qed.

Lemma is_char_true (x : string) (c : ascii) :
  is_char x c = true <-> exists rest, x = String c rest.
Proof.
  destruct x as [| a rest]; cbn.
  - split; [discriminate | intros [? ?]; discriminate].
  - rewrite Ascii.eqb_eq. split.
    + intros ->. eauto.
    + intros [rest' [= -> _]]. reflexivity.
Qed.

Lemma test_phoneRegex (s : string) :
  test phoneRegex s = true <->
  exists body,
    (s = body \/ s = String "+" body)
    /\ (10 <= String.length body <= 15)%nat
    /\ all_chars (fun c => is_digit c || is_space c || is_char "-" c
                           || is_char "(" c || is_char ")" c) body = true.
Proof.
  rewrite test_Matches. unfold phoneRegex, Opt, Lit. split.
  - inversion 1 as [| | ? ? s1 s2 H1 H2 | | | |]; subst.
    apply Matches_Between_Class in H2; [| lia]. exists s2.
    split; [| assumption].
    inversion H1 as [| | | ? ? ? Hl | ? ? ? Hr | |]; subst.
    + inversion Hl. now left.
    + inversion Hr as [| ? c Hc | | | | |]; subst.
      apply is_char_true in Hc as [rest [= <- _]]. now right.
  - intros (body & Hshape & Hbody).
    apply (Matches_Between_Class 10 15) in Hbody; [| lia].
    destruct Hshape as [-> | ->].
    + exact (MCat _ _ "" body (MAltL _ _ _ MEps) Hbody).
    + exact (MCat _ _ (String "+" "") body
               (MAltR _ _ _ (MClass _ "+"%char eq_refl)) Hbody).
Qed.

(** X16: a mobile number is accepted exactly when its trimmed length is
    at least 10 and it is an optional plus sign followed by 10 to 15
    characters, each a digit, white space, a hyphen or a parenthesis. *)
Theorem validateField_mobileNumber_accepts host now (s : string) :
  validateField host now MobileNumber s = "" <->
  (10 <= String.length (trim s))%nat
  /\ exists body,
       (s = body \/ s = String "+" body)
       /\ (10 <= String.length body <= 15)%nat
       /\ all_chars (fun c => is_digit c || is_space c || is_char "-" c
                              || is_char "(" c || is_char ")" c) body = true.
Proof.
  cbn [validateField]. rewrite <- test_phoneRegex.
  rewrite <- (blank_or_short_false s 10) by lia.
  destruct (blank_or_short s 10); [split; [discriminate | now intros [? _]] |].
  destruct (test phoneRegex s); cbn [negb].
  - split; [now split | reflexivity].
  - split; [discriminate | now intros [_ ?]].
Qed.

Lemma Matches_Plus_Class (p : ascii -> bool) (s : string) :
  Matches (Plus (Class p)) s <-> s <> "" /\ all_chars p s = true.
Proof. rewrite <- test_Matches. apply test_Plus_Class. Qed.

Lemma Matches_Lit (x : ascii) (s : string) :
  Matches (Lit (String x "")) s <-> s = String x "".
Proof.
  unfold Lit. rewrite Matches_Class_inv. split.
  - intros (c & -> & Hc). apply is_char_true in Hc as [rest [= -> _]].
    reflexivity.
  - intros ->. exists x. split; [reflexivity |]. cbn. apply Ascii.eqb_refl.
Qed.

Lemma test_emailRegex (s : string) :
  test emailRegex s = true <->
  exists a b c,
    s = a +:+ "@" +:+ b +:+ "." +:+ c
    /\ (a <> "" /\ all_chars (fun x => negb (is_space x || is_char "@" x)) a = true)
    /\ (b <> "" /\ all_chars (fun x => negb (is_space x || is_char "@" x)) b = true)
    /\ (c <> "" /\ all_chars (fun x => negb (is_space x || is_char "@" x)) c = true).
Proof.
  rewrite test_Matches. unfold emailRegex. cbv zeta. split.
  - inversion 1 as [| | ? ? a s1 Ha H1 | | | |]; subst.
    inversion H1 as [| | ? ? at_ s2 Hat H2 | | | |]; subst.
    inversion H2 as [| | ? ? b s3 Hb H3 | | | |]; subst.
    inversion H3 as [| | ? ? dot c Hdot Hc | | | |]; subst.
    apply Matches_Lit in Hat, Hdot. subst.
    apply Matches_Plus_Class in Ha, Hb, Hc.
    now exists a, b, c.
  - intros (a & b & c & -> & Ha & Hb & Hc).
    apply Matches_Plus_Class in Ha, Hb, Hc.
    apply MCat; [assumption |].
    apply (MCat _ _ "@" (b +:+ "." +:+ c)); [now apply Matches_Lit |].
    apply MCat; [assumption |].
    apply (MCat _ _ "." c); [now apply Matches_Lit | assumption].
Qed.

Lemma trimEnd_keeps_head (c : ascii) (t : string) :
  is_space c = false -> trimEnd (String c t) <> "".
Proof.
  intros Hc. cbn [trimEnd]. destruct (trimEnd t); [rewrite Hc |]; discriminate.
Qed.

(** X17: an e-mail address is accepted exactly when it is three
    non-empty parts separated by an at sign and a full stop,
    local@domain.tld, none of the parts holding white space or an at
    sign (the domain and the last part may hold further full stops). *)
Theorem validateField_email_accepts host now (s : string) :
  validateField host now Email s = "" <->
  exists a b c,
    s = a +:+ "@" +:+ b +:+ "." +:+ c
    /\ (a <> "" /\ all_chars (fun x => negb (is_space x || is_char "@" x)) a = true)
    /\ (b <> "" /\ all_chars (fun x => negb (is_space x || is_char "@" x)) b = true)
    /\ (c <> "" /\ all_chars (fun x => negb (is_space x || is_char "@" x)) c = true).
Proof.
  rewrite <- test_emailRegex. cbn [validateField].
  destruct (test emailRegex s) eqn:Hre; cbn [negb].
  - split; [reflexivity | intros _].
    apply test_emailRegex in Hre as (a & b & c & -> & [Ha Hall] & _).
    destruct a as [| x a]; [contradiction |].
    cbn in Hall. apply andb_true_iff in Hall as [Hx _].
    apply negb_true_iff, orb_false_iff in Hx as [Hx _].
    cbn [String.append String.eqb orb]. unfold trim. cbn [trimStart].
    rewrite Hx.
    match goal with
    | |- context [String.eqb ?t ""] =>
        destruct (String.eqb_spec t "") as [Hempty |]; [| reflexivity]
    end.
    now apply trimEnd_keeps_head in Hempty.
  - split; [| discriminate].
    destruct (_ || _); discriminate.
Qed.

(** X18: a birthday is accepted exactly when it is a [Date] that is not
    after the current instant and whose local year is at most 120 below
    the current local year (months and days play no part in the age),
    or when it is an invalid [Date], which passes both comparisons. *)
Theorem validateField_birthday_accepts host now (v : option date) :
  validateField host now Birthday v = "" <->
  v = Some InvalidDate
  \/ exists t,
       v = Some (DateAt t) /\ t <= now
       /\ YearFromTime (now + localTZA host now)
          - YearFromTime (t + localTZA host t) <= 120.
Proof.
  cbn [validateField getFullYear]. destruct v as [[| t] |].
  - split; [now left | reflexivity].
  - destruct (now <? t) eqn:Hfuture.
    + split; [discriminate |].
      intros [Hbad | (t' & [= <-] & Hle & _)]; [discriminate |].
      apply Z.ltb_lt in Hfuture. lia.
    + apply Z.ltb_ge in Hfuture. cbn [getFullYear].
      destruct (120 <? YearFromTime (now + localTZA host now)
                       - YearFromTime (t + localTZA host t)) eqn:Hage.
      * split; [discriminate |].
        intros [Hbad | (t' & [= <-] & _ & Hyears)]; [discriminate |].
        apply Z.ltb_lt in Hage. lia.
      * apply Z.ltb_ge in Hage. split; [| reflexivity].
        intros _. right. now exists t.
  - split; [discriminate |].
    intros [Hbad | (t & Hbad & _)]; discriminate.
Qed.

(** * Further properties of the form controller *)

Lemma handleInputChange_in host now (f : field) (value : fieldType f) :
  handleInputChange host now f value
  = bind read (fun st => handleInputChangeIn host st now f value).
Proof. reflexivity. Qed.

Lemma handleBlur_in host now (f : field) :
  handleBlur host now f = bind read (fun st => handleBlurIn host st now f).
Proof. reflexivity. Qed.

Lemma fieldKey_inj (f g : field) : fieldKey f = fieldKey g -> f = g.
Proof. destruct f, g; (reflexivity || discriminate). Qed.

Lemma fieldKey_not_general (g : field) : fieldKey g <> "general".
Proof. destruct g; discriminate. Qed.

Lemma validateForm_fold_sound host now (fd : FormData) (keys : list field)
    (acc : gmap string string) (k msg : string) :
  fold_left
    (fun newErrors key =>
       let error := validateField host now key (getField fd key) in
       if String.eqb error "" then newErrors
       else <[fieldKey key := error]> newErrors) keys acc !! k = Some msg ->
  acc !! k = Some msg
  \/ (msg <> ""
      /\ exists g, k = fieldKey g
                   /\ msg = validateField host now g (getField fd g)).
Proof.
  revert acc. induction keys as [| key keys IH]; intros acc; cbn [fold_left].
  - now left.
  - intros Hlook. apply IH in Hlook as [Hacc | Hnew]; [| now right].
    cbv zeta in Hacc.
    destruct (String.eqb_spec (validateField host now key (getField fd key)) "")
      as [Hempty | Hfull]; [now left |].
    rewrite lookup_insert in Hacc. case_decide; [| now left].
    injection Hacc as <-. right. split; [assumption |]. now exists key.
Qed.

Lemma validateForm_fold_size host now (fd : FormData) (keys : list field)
    (acc : gmap string string) :
  (size (fold_left
           (fun newErrors key =>
              let error := validateField host now key (getField fd key) in
              if String.eqb error "" then newErrors
              else <[fieldKey key := error]> newErrors) keys acc)
   <= size acc + length keys)%nat.
Proof.
  revert acc. induction keys as [| key keys IH]; intros acc; cbn [fold_left].
  - cbn. lia.
  - etransitivity; [apply IH |]. cbv zeta.
    destruct (String.eqb _ ""); [cbn; lia |].
    destruct (acc !! fieldKey key) eqn:Hold.
    + rewrite map_size_insert_Some by eauto. cbn. lia.
    + rewrite map_size_insert_None by assumption. cbn. lia.
Qed.

(** X19: the error map [validateForm] builds holds nothing but the
    non-empty messages of [validateField], each under the key of its
    field: never an empty message, never the key [general], at most six
    entries; so it is empty exactly when every field is valid. *)
Theorem validateForm_error_map host now (fd : FormData) :
  (forall k msg,
     validateForm host now fd !! k = Some msg ->
     msg <> ""
     /\ exists g, k = fieldKey g
                  /\ msg = validateField host now g (getField fd g))
  /\ validateForm host now fd !! "general" = None
  /\ (size (validateForm host now fd) <= 6)%nat
  /\ (validateForm host now fd = ∅ <->
      forall g, validateField host now g (getField fd g) = "").
Proof.
  assert (Hsound : forall k msg,
            validateForm host now fd !! k = Some msg ->
            msg <> ""
            /\ exists g, k = fieldKey g
                         /\ msg = validateField host now g (getField fd g)).
  { intros k msg Hlook. unfold validateForm in Hlook.
    apply validateForm_fold_sound in Hlook as [Hempty | Hnew];
      [| assumption].
    now rewrite lookup_empty in Hempty. }
  split; [exact Hsound |]. split; [| split].
  - destruct (validateForm host now fd !! "general") as [msg |] eqn:Hlook;
      [| reflexivity].
    apply Hsound in Hlook as (_ & g & Hkey & _).
    symmetry in Hkey. now apply fieldKey_not_general in Hkey.
  - unfold validateForm.
    etransitivity; [apply validateForm_fold_size |].
    rewrite map_size_empty. cbn. lia.
  - apply validateForm_empty.
Qed.

Lemma getField_setField_ne (f g : field) (v : fieldType f) (d : FormData) :
  f <> g -> getField (setField f v d) g = getField d g.
Proof. destruct f, g; intros Hne; (reflexivity || contradiction). Qed.

Lemma liveValidated_change host now (f : field) (v : fieldType f)
    (st : FormState) (w : list event) :
  liveValidated host now st ->
  exists st',
    handleInputChange host now f v (st, w) = (Return tt, (st', w))
    /\ liveValidated host now st'
    /\ getField (formData st') f = v.
Proof.
  intros Hlive.
  assert (Hrun : exists st',
            handleInputChange host now f v (st, w) = (Return tt, (st', w))
            /\ formData st' = setField f v (formData st)
            /\ touched st' = touched st
            /\ errors st' =
               match touched st !! fieldKey f with
               | Some true => <[fieldKey f := validateField host now f v]> (errors st)
               | _ => errors st
               end).
  { unfold handleInputChange, bind, read, update, ret.
    destruct (touched st !! fieldKey f) as [[|] |]; destruct (success st);
      eexists; repeat split. }
  destruct Hrun as (st' & Hrun & Hdata & Htouched & Herrors).
  exists st'. split; [exact Hrun |]. split.
  - intros g. rewrite Htouched, Herrors, Hdata.
    specialize (Hlive g).
    destruct (decide (f = g)) as [<- | Hne].
    + rewrite getField_setField.
      destruct (touched st !! fieldKey f) as [[|] |]; try assumption.
      now rewrite lookup_insert_eq.
    + rewrite getField_setField_ne by assumption.
      assert (Hkey : fieldKey f <> fieldKey g)
        by (intros Hkey; now apply fieldKey_inj in Hkey).
      destruct (touched st !! fieldKey f) as [[|] |];
        rewrite ?lookup_insert_ne by assumption; assumption.
  - rewrite Hdata. apply getField_setField.
Qed.

Lemma liveValidated_blur host now (f : field) (st : FormState)
    (w : list event) :
  liveValidated host now st ->
  exists st',
    handleBlur host now f (st, w) = (Return tt, (st', w))
    /\ liveValidated host now st'
    /\ touched st' !! fieldKey f = Some true
    /\ formData st' = formData st.
Proof.
  intros Hlive. eexists. split; [reflexivity |].
  split; [| split].
  - intros g. specialize (Hlive g).
    cbn [touched errors formData setErrors setTouched].
    destruct (decide (f = g)) as [<- | Hne].
    + now rewrite !lookup_insert_eq.
    + assert (Hkey : fieldKey f <> fieldKey g)
        by (intros Hkey; now apply fieldKey_inj in Hkey).
      now rewrite !lookup_insert_ne by assumption.
  - apply lookup_insert_eq.
  - reflexivity.
Qed.

(** X20: live validation holds through typing and leaving fields. From a
    form in which every touched field shows the error of its value and
    no untouched field shows one (the form as mounted is such a form),
    any sequence of change and blur events, each in its own render,
    leads to a form of the same kind; the handlers return and touch
    nothing outside the component. *)
Theorem live_validation_is_kept host now (evs : list formEvent)
    (st : FormState) (w : list event) :
  forallb isInputEvent evs = true ->
  liveValidated host now st ->
  exists st',
    handleEvents host now evs (st, w) = (Return tt, (st', w))
    /\ liveValidated host now st'.
Proof.
  revert st. induction evs as [| ev evs IH]; intros st Hinput Hlive.
  - exists st. now split.
  - cbn [forallb] in Hinput. apply andb_true_iff in Hinput as [Hev Hevs].
    cbn [handleEvents]. unfold bind at 1.
    destruct ev as [f v | f | date]; [| | discriminate]; cbn [handleEvent].
    + destruct (liveValidated_change host now f v st w Hlive)
        as (st1 & -> & Hlive1 & _).
      now apply IH.
    + destruct (liveValidated_blur host now f st w Hlive)
        as (st1 & -> & Hlive1 & _).
      now apply IH.
Qed.

Lemma initialState_liveValidated host now : liveValidated host now initialState.
Proof. intros f. now destruct f. Qed.

Lemma live_validation_is_kept_witness :
  exists st',
    handleEvents utcHost sampleNow
      [Blur Name; Change Name "Al"; Change Email "a@b"; Blur Email]
      (initialState, [])
    = (Return tt, (st', []))
    /\ liveValidated utcHost sampleNow st'.
Proof.
  apply (live_validation_is_kept utcHost sampleNow
           [Blur Name; Change Name "Al"; Change Email "a@b"; Blur Email]
           initialState []).
  - reflexivity.
  - apply initialState_liveValidated.
Defined.

Lemma submitDisabled_true (st : FormState) :
  submitDisabled st = true <->
  loading st = true
  \/ exists key msg,
       errors st !! key = Some msg /\ key <> "general" /\ msg <> "".
Proof.
  unfold submitDisabled. rewrite orb_true_iff, existsb_exists. split.
  - intros [Hloading | ([key msg] & Hin & Htest)]; [now left | right].
    apply andb_true_iff in Htest as [Hkey Hmsg].
    apply negb_true_iff in Hkey, Hmsg.
    apply String.eqb_neq in Hkey, Hmsg.
    exists key, msg. split; [| now split].
    apply elem_of_map_to_list. now apply list_elem_of_In.
  - intros [Hloading | (key & msg & Hlook & Hkey & Hmsg)]; [now left | right].
    exists (key, msg). split.
    + apply list_elem_of_In. now apply elem_of_map_to_list.
    + apply String.eqb_neq in Hkey, Hmsg. now rewrite Hkey, Hmsg.
Qed.

(** X21: a pick in the calendar stores the picked date but validates the
    date the form held before: the two handlers called by [onSelect]
    belong to one render, and [handleBlur] reads the birthday of that
    render. So the first pick on a form without a birthday, however
    valid the date, leaves "Birthday is required" under the field and
    the submit button disabled. *)
Theorem onSelectBirthday_validates_previous host now (date : option date)
    (st : FormState) (w : list event) :
  exists st',
    onSelectBirthday host now date (st, w) = (Return tt, (st', w))
    /\ birthday (formData st') = date
    /\ touched st' !! "birthday" = Some true
    /\ errors st' !! "birthday"
       = Some (validateField host now Birthday (birthday (formData st)))
    /\ (birthday (formData st) = None ->
        errors st' !! "birthday" = Some "Birthday is required"
        /\ submitDisabled st' = true).
Proof.
  assert (Hrun : exists st',
            onSelectBirthday host now date (st, w) = (Return tt, (st', w))
            /\ birthday (formData st') = date
            /\ touched st' !! "birthday" = Some true
            /\ errors st' !! "birthday"
               = Some (validateField host now Birthday (birthday (formData st)))).
  { unfold onSelectBirthday, handleInputChangeIn, handleBlurIn, bind, read,
      update, ret.
    destruct (touched st !! fieldKey Birthday) as [[|] |];
      destruct (success st); eexists; (split; [reflexivity |]);
      cbn [touched errors formData birthday setErrors setTouched setSuccess
             setFormData setField fieldKey getField];
      now rewrite !lookup_insert_eq. }
  destruct Hrun as (st' & Hrun & Hdate & Htouched & Herror).
  exists st'. repeat (split; [assumption |]).
  intros Hnone. rewrite Hnone in Herror. cbn [validateField] in Herror.
  split; [assumption |].
  apply submitDisabled_true. right.
  exists "birthday", "Birthday is required". now repeat split.
Qed.

Lemma onSelectBirthday_validates_previous_witness :
  exists st',
    onSelectBirthday utcHost sampleNow (Some (DateAt 631152000000))
      (initialState, [])
    = (Return tt, (st', []))
    /\ birthday (formData st') = Some (DateAt 631152000000)
    /\ validateField utcHost sampleNow Birthday (birthday (formData st')) = ""
    /\ errors st' !! "birthday" = Some "Birthday is required"
    /\ submitDisabled st' = true.
Proof.
  destruct (onSelectBirthday_validates_previous utcHost sampleNow
              (Some (DateAt 631152000000)) initialState [])
    as (st' & Hrun & Hdate & _ & _ & Hstale).
  destruct (Hstale eq_refl) as [Herror Hdisabled].
  exists st'. rewrite Hdate. repeat split; assumption.
Defined.


(** How a submission of a valid form ends, step by step. *)
Lemma handleSubmit_valid host network props now (st : FormState)
    (w : list event) :
  validateForm host now (formData st) = ∅ ->
  handleSubmit host network props now (st, w) =
  let failed (succ : bool) (e : JsError) (w' : list event) :=
    (Return tt,
     (mkFormState (formData st) false
        (<[fst (serverError props e) := snd (serverError props e)]> ∅)
        succ allTouched,
      w' ++ [ConsoleError (submitLabel props) e])) in
  match formatDateForAPI (dateValue (birthday (formData st))) with
  | Throw e => failed (success st) e (w ++ [PreventDefault])
  | Return b =>
      match apiCall host network props (apiDataOf (formData st) b)
              (w ++ [PreventDefault]) with
      | (Throw e, w2) => failed (success st) e w2
      | (Return result, w2) =>
          let w3 := w2 ++ [ConsoleLog
                             ("User " +:+ (if ToBoolean (isEditMode props)
                                           then "updated" else "created")
                              +:+ " successfully:") result] in
          match onSuccess props with
          | None =>
              (Return tt,
               (mkFormState (formData st) false ∅ true allTouched,
                w3 ++ [SetTimeout 1500 "/users"]))
          | Some callback =>
              match callback result with
              | Return _ =>
                  (Return tt,
                   (mkFormState (formData st) false ∅ true allTouched,
                    w3 ++ [OnSuccess result]))
              | Throw e => failed true e (w3 ++ [OnSuccess result])
              end
          end
      end
  end.
Proof.
  intros Hvalid. cbv zeta.
  unfold handleSubmit, finally, try_catch, bind, run, emit, read, update, ret,
    lift, serverError, submitLabel.
  cbn [fst snd formData]. unfold setTouched, setErrors, setLoading, setSuccess.
  cbn [errors touched formData loading success].
  rewrite Hvalid, bool_decide_eq_true_2 by reflexivity. cbn [negb].
  destruct (formatDateForAPI _) as [b | e].
  - destruct (apiCall _ _ _ _ _) as [[result | e] w2].
    + destruct (onSuccess props) as [callback |]; [| reflexivity].
      cbn [errors touched formData loading success].
      destruct (callback result) as [[] | e]; [reflexivity |].
      destruct (includes (message e) "email already exists");
        [| destruct (includes (message e) "mobile number")]; reflexivity.
    + destruct (includes (message e) "email already exists");
        [| destruct (includes (message e) "mobile number")]; reflexivity.
  - destruct (includes (message e) "email already exists");
      [| destruct (includes (message e) "mobile number")]; reflexivity.
Qed.

Lemma requests_log (w : list event) (ev : event) :
  match ev with Fetch _ => False | _ => True end ->
  requests (w ++ [ev]) = requests w.
Proof.
  intros Hev. rewrite requests_app. destruct ev; try contradiction;
    cbn; now rewrite app_nil_r.
Qed.

(** The call [handleSubmit] makes: an update when the form is in edit
    mode with a user, a creation in every other case. *)
Lemma apiCall_routes host network props (apiData : value) (w : list event) :
  apiCall host network props apiData w =
  if String.eqb (mode props) "edit" && ToBoolean (user props)
  then updateUser host network (userId (user props)) apiData w
  else createUser host network apiData w.
Proof.
  unfold apiCall, isEditMode.
  destruct (String.eqb (mode props) "edit"); cbn [andb ToBoolean];
    [| reflexivity].
  destruct (ToBoolean (user props)) eqn:Huser; [| reflexivity].
  unfold bind, lift.
  destruct (user props); try discriminate; reflexivity.
Qed.



(** X23: when the form is valid and the API call returns [result], the
    form ends with [success] set and [loading] cleared, after logging
    the result; without a callback it schedules the move to [/users] in
    1500 ms and shows no error; with a callback it calls it with
    [result], and if the callback throws an [Error] object, that error
    is logged and shown (under the key its message selects) beside the
    success. *)
Theorem handleSubmit_success_path host network props now (st : FormState)
    (w w2 : list event) (b result : value) :
  validateForm host now (formData st) = ∅ ->
  formatDateForAPI (dateValue (birthday (formData st))) = Return b ->
  apiCall host network props (apiDataOf (formData st) b) (w ++ [PreventDefault])
  = (Return result, w2) ->
  exists st' tail,
    handleSubmit host network props now (st, w)
    = (Return tt,
       (st', w2 ++ ConsoleLog
                     ("User " +:+ (if ToBoolean (isEditMode props)
                                   then "updated" else "created")
                      +:+ " successfully:") result :: tail))
    /\ success st' = true
    /\ loading st' = false
    /\ match onSuccess props with
       | None => tail = [SetTimeout 1500 "/users"] /\ errors st' = ∅
       | Some callback =>
           match callback result with
           | Return _ => tail = [OnSuccess result] /\ errors st' = ∅
           | Throw e =>
               tail = [OnSuccess result; ConsoleError (submitLabel props) e]
               /\ errors st'
                  = {[ fst (serverError props e) := snd (serverError props e) ]}
           end
       end.
Proof.
  intros Hvalid Hdate Hcall.
  rewrite handleSubmit_valid by assumption. cbv zeta. rewrite Hdate, Hcall.
  destruct (onSuccess props) as [callback |];
    [destruct (callback result) as [[] | e] |];
    eexists _, _; (split; [now rewrite <- !app_assoc |]);
    cbn [success loading errors]; repeat split.
Qed.

Lemma handleSubmit_success_path_witness :
  exists st' tail,
    handleSubmit utcHost
      (net_reply (mkResponse 201 (Return (envelope false (VStr "User created")))))
      (mkProps VNull "create"
         (Some (fun _ => Throw (mkError "Error" "callback failed"))))
      sampleNow (stateOf sampleForm, [])
    = (Return tt,
       (st', snd (createUser utcHost
                    (net_reply (mkResponse 201
                                  (Return (envelope false (VStr "User created")))))
                    (apiDataOf sampleForm (VStr "1990-01-01")) [PreventDefault])
             ++ ConsoleLog "User created successfully:" (VStr "User created")
             :: tail))
    /\ success st' = true
    /\ errors st' = {[ "general" := "callback failed" ]}.
Proof.
  destruct (handleSubmit_success_path utcHost
              (net_reply (mkResponse 201
                            (Return (envelope false (VStr "User created")))))
              (mkProps VNull "create"
                 (Some (fun _ => Throw (mkError "Error" "callback failed"))))
              sampleNow (stateOf sampleForm) []
              (snd (createUser utcHost
                      (net_reply (mkResponse 201
                                    (Return (envelope false (VStr "User created")))))
                      (apiDataOf sampleForm (VStr "1990-01-01")) [PreventDefault]))
              (VStr "1990-01-01") (VStr "User created")
              eq_refl eq_refl eq_refl)
    as (st' & tail & Hrun & Hsuccess & _ & _ & Herrors).
  exists st', tail. repeat split; assumption.
Defined.

(** X24: which request a valid form sends. In edit mode with a user it
    is a PUT to [/api/users/{user.id}]; if that user has no truthy id,
    nothing is sent and "User ID is required" is shown under [general].
    In every other case, also in edit mode without a user, it is a POST
    to [/api/users]. The body is the form's fields with the formatted
    birthday. *)
Theorem handleSubmit_routes host network props now (st : FormState)
    (w : list event) (b : value) :
  validateForm host now (formData st) = ∅ ->
  formatDateForAPI (dateValue (birthday (formData st))) = Return b ->
  requests (snd (snd (handleSubmit host network props now (st, w))))
  = requests w ++
    (if String.eqb (mode props) "edit" && ToBoolean (user props) then
       if ToBoolean (userId (user props))
       then [mkRequest "PUT"
               (API_BASE_URL host +:+ "/api/users/"
                +:+ ToString host (userId (user props)))
               jsonHeaders (Some (apiDataOf (formData st) b))]
       else []
     else [mkRequest "POST" (API_BASE_URL host +:+ "/api/users") jsonHeaders
             (Some (apiDataOf (formData st) b))])
  /\ (String.eqb (mode props) "edit" && ToBoolean (user props) = true ->
      ToBoolean (userId (user props)) = false ->
      errors (fst (snd (handleSubmit host network props now (st, w))))
      = {[ "general" := "User ID is required" ]}).
Proof.
  intros Hvalid Hdate.
  rewrite handleSubmit_valid by assumption. cbv zeta. rewrite Hdate.
  rewrite apiCall_routes.
  destruct (String.eqb (mode props) "edit" && ToBoolean (user props)).
  - unfold updateUser.
    destruct (ToBoolean (userId (user props))); cbn [negb ToBoolean apiDataOf].
    + rewrite logging_fetch. split; [| discriminate].
      destruct (obind _ _) as [result | e]; cbn [logged snd].
      * destruct (onSuccess props) as [callback |];
          [destruct (callback result) as [[] | e] |]; cbn [snd];
          rewrite <- ?app_assoc, !requests_app; cbn;
          now rewrite ?app_nil_r.
      * cbn [snd]. rewrite <- ?app_assoc, !requests_app. cbn.
        now rewrite ?app_nil_r.
    + rewrite logging_throw. cbn [snd fst]. split.
      * rewrite !requests_app. cbn. now rewrite !app_nil_r.
      * intros _ _. cbn [errors]. now rewrite insert_empty.
  - unfold createUser. cbn [negb ToBoolean apiDataOf].
    rewrite logging_fetch. split; [| discriminate].
    destruct (obind _ _) as [result | e]; cbn [logged snd].
    + destruct (onSuccess props) as [callback |];
        [destruct (callback result) as [[] | e] |]; cbn [snd];
        rewrite <- ?app_assoc, !requests_app; cbn;
        now rewrite ?app_nil_r.
    + cbn [snd]. rewrite <- ?app_assoc, !requests_app. cbn.
      now rewrite ?app_nil_r.
Qed.

Lemma handleSubmit_routes_witness :
  requests (snd (snd (handleSubmit utcHost (net_fail "Failed to fetch")
                        (mkProps (VObj [("id", VNum 7)]) "edit" None) sampleNow
                        (stateOf sampleForm, []))))
  = [mkRequest "PUT" "http://localhost:3000/api/users/7" jsonHeaders
       (Some (apiDataOf sampleForm (VStr "1990-01-01")))].
Proof.
  exact (proj1 (handleSubmit_routes utcHost (net_fail "Failed to fetch")
                  (mkProps (VObj [("id", VNum 7)]) "edit" None) sampleNow
                  (stateOf sampleForm) [] (VStr "1990-01-01") eq_refl eq_refl)).
Defined.

(** X25: an invalid [Date] as birthday passes validation and then stops
    the submission: with the other five fields valid, nothing is sent,
    the [RangeError] of the formatter is logged, "Invalid time value"
    is shown under [general], and [loading] is cleared. *)
Theorem handleSubmit_invalid_birthday_stops host network props now
    (st : FormState) (w : list event) :
  birthday (formData st) = Some InvalidDate ->
  (forall g, g <> Birthday ->
             validateField host now g (getField (formData st) g) = "") ->
  handleSubmit host network props now (st, w)
  = (Return tt,
     (mkFormState (formData st) false {[ "general" := "Invalid time value" ]}
        (success st) allTouched,
      w ++ [PreventDefault;
            ConsoleError (submitLabel props)
              (mkError "RangeError" "Invalid time value")])).
Proof.
  intros Hday Hothers.
  assert (Hvalid : validateForm host now (formData st) = ∅).
  { apply validateForm_empty. intros g.
    destruct (decide (g = Birthday)) as [-> | Hne]; [| now apply Hothers].
    cbn [getField]. now rewrite Hday. }
  rewrite handleSubmit_valid by assumption. cbv zeta. rewrite Hday.
  cbn [dateValue formatDateForAPI ToBoolean negb toISOString obind].
  now rewrite <- app_assoc, insert_empty.
Qed.

Lemma handleSubmit_invalid_birthday_stops_witness :
  handleSubmit utcHost (net_fail "unreachable") createProps sampleNow
    (stateOf (mkFormData "Test User" "A sample description" (Some InvalidDate)
                "1234567890" "test@example.com" "USA"), [])
  = (Return tt,
     (mkFormState
        (mkFormData "Test User" "A sample description" (Some InvalidDate)
           "1234567890" "test@example.com" "USA")
        false {[ "general" := "Invalid time value" ]} false allTouched,
      [PreventDefault;
       ConsoleError "Error creating user:"
         (mkError "RangeError" "Invalid time value")])).
Proof.
  apply (handleSubmit_invalid_birthday_stops utcHost (net_fail "unreachable")
           createProps sampleNow
           (stateOf (mkFormData "Test User" "A sample description"
                       (Some InvalidDate) "1234567890" "test@example.com"
                       "USA")) []).
  - reflexivity.
  - intros g Hg. destruct g; reflexivity.
Defined.

Lemma handleInputChange_touched host now (f : field) (v : fieldType f)
    (st : FormState) (w : list event) :
  touched st !! fieldKey f = Some true ->
  errors (fst (snd (handleInputChange host now f v (st, w))))
  = <[fieldKey f := validateField host now f v]> (errors st)
  /\ loading (fst (snd (handleInputChange host now f v (st, w)))) = loading st.
Proof.
  intros Htouched. unfold handleInputChange, bind, read, update, ret.
  rewrite Htouched. now destruct (success st).
Qed.

(** X26: an error the server attaches to a field outlives every edit but
    the edit of that field. After a failed submission whose message
    selects the e-mail or the mobile number field, the submit button is
    disabled; changing any other field leaves it disabled; changing the
    field itself to a valid value enables it again. *)
Theorem server_field_error_blocks_until_edited host network props now
    (st : FormState) (w w2 : list event) (b : value) (e : JsError)
    (f0 : field) :
  validateForm host now (formData st) = ∅ ->
  formatDateForAPI (dateValue (birthday (formData st))) = Return b ->
  apiCall host network props (apiDataOf (formData st) b) (w ++ [PreventDefault])
  = (Throw e, w2) ->
  fst (serverError props e) = fieldKey f0 ->
  submitDisabled (fst (snd (handleSubmit host network props now (st, w)))) = true
  /\ (forall g v w',
        g <> f0 ->
        submitDisabled
          (fst (snd (handleInputChange host now g v
                       (fst (snd (handleSubmit host network props now (st, w))),
                        w')))) = true)
  /\ (forall v w',
        validateField host now f0 v = "" ->
        submitDisabled
          (fst (snd (handleInputChange host now f0 v
                       (fst (snd (handleSubmit host network props now (st, w))),
                        w')))) = false).
Proof.
  intros Hvalid Hdate Hcall Hkey.
  rewrite handleSubmit_valid by assumption. cbv zeta. rewrite Hdate, Hcall.
  cbn [fst snd]. rewrite Hkey.
  assert (Hmsg : snd (serverError props e) <> "").
  { unfold serverError in Hkey |- *.
    destruct (includes (message e) "email already exists"); [discriminate |].
    destruct (includes (message e) "mobile number"); [discriminate |].
    cbn [fst] in Hkey. symmetry in Hkey.
    now apply fieldKey_not_general in Hkey. }
  set (msg := snd (serverError props e)) in *.
  split; [| split].
  - apply submitDisabled_true. right. exists (fieldKey f0), msg.
    cbn [errors]. rewrite lookup_insert_eq.
    split; [reflexivity |]. split; [apply fieldKey_not_general | assumption].
  - intros g v w' Hne. apply submitDisabled_true. right.
    exists (fieldKey f0), msg.
    rewrite (proj1 (handleInputChange_touched host now g v
                      (mkFormState (formData st) false
                         (<[fieldKey f0 := msg]> ∅) (success st) allTouched)
                      w' (allTouched_lookup g))).
    cbn [errors].
    rewrite lookup_insert_ne
      by (intros Hsame; now apply fieldKey_inj in Hsame).
    rewrite lookup_insert_eq.
    split; [reflexivity |]. split; [apply fieldKey_not_general | assumption].
  - intros v w' Hok.
    apply not_true_iff_false. intros Hdisabled.
    apply submitDisabled_true in Hdisabled.
    destruct (handleInputChange_touched host now f0 v
                (mkFormState (formData st) false (<[fieldKey f0 := msg]> ∅)
                   (success st) allTouched) w' (allTouched_lookup f0))
      as [Herrors Hloading].
    rewrite Herrors, Hloading in Hdisabled. cbn [errors loading] in Hdisabled.
    destruct Hdisabled as [Hbad | (key & m & Hlook & _ & Hm)];
      [discriminate |].
    rewrite insert_insert_eq, Hok in Hlook.
    rewrite lookup_insert in Hlook. case_decide.
    + injection Hlook as <-. now apply Hm.
    + now rewrite lookup_empty in Hlook.
Qed.

Lemma server_field_error_blocks_until_edited_witness :
  submitDisabled
    (fst (snd (handleSubmit utcHost (net_fail "email already exists")
                 createProps sampleNow (stateOf sampleForm, [])))) = true
  /\ submitDisabled
       (fst (snd (handleInputChange utcHost sampleNow Email "new@example.com"
                    (fst (snd (handleSubmit utcHost
                                 (net_fail "email already exists")
                                 createProps sampleNow (stateOf sampleForm, []))),
                     [])))) = false.
Proof.
  destruct (server_field_error_blocks_until_edited utcHost
              (net_fail "email already exists") createProps sampleNow
              (stateOf sampleForm) []
              (snd (createUser utcHost (net_fail "email already exists")
                      (apiDataOf sampleForm (VStr "1990-01-01"))
                      [PreventDefault]))
              (VStr "1990-01-01") (mkError "TypeError" "email already exists")
              Email eq_refl eq_refl eq_refl eq_refl)
    as (Hdisabled & _ & Henabled).
  split; [exact Hdisabled |].
  apply Henabled. reflexivity.
Defined.

(* ================================================================= *)
(** ** Further properties of the unsaved-changes check *)

Lemma filled_text (s : string) :
  negb (String.eqb s "") && negb (String.eqb (trim s) "") = false
  <-> trim s = "".
Proof.
  rewrite andb_false_iff, !negb_false_iff, !String.eqb_eq. split.
  - intros [Hs | Ht]; [now rewrite Hs | assumption].
  - now right.
Qed.

Lemma strict_eq_string (s : string) (v : value) :
  strict_eq (VStr s) v = true <-> VStr s = v.
Proof.
  destruct v as [| | b | n | | s' | d | items | fields]; cbn;
    try (split; discriminate).
  rewrite String.eqb_eq. split; congruence.
Qed.

Lemma hasChanges_sameText (newDate : value -> date) (props : Props)
    (fd : FormData) :
  ToBoolean (isEditMode props) = true ->
  sameText (user props) fd ->
  hasChanges newDate props fd =
  let? shown := formatDateForAPI (dateValue (birthday fd)) in
  let? stored := formatDateForAPI (originalBirthday newDate (user props)) in
  Return (negb (strict_eq shown stored)).
Proof.
  intros Hedit (Hn & Ha & He & Hm & Hc). unfold hasChanges. rewrite Hedit.
  cbn [negb].
  apply strict_eq_string in Hn, Ha, He, Hm, Hc.
  now rewrite Hn, Ha, He, Hm, Hc.
Qed.

(** X27. Outside edit mode [hasChanges] never throws, and it answers no
    exactly when the form is blank: each text field is empty or white
    space only, and no birthday is picked. *)
Theorem hasChanges_create_mode (newDate : value -> date) (props : Props)
    (fd : FormData) :
  ToBoolean (isEditMode props) = false ->
  exists b,
    hasChanges newDate props fd = Return b
    /\ (b = false <->
        trim (name fd) = "" /\ trim (aboutYou fd) = "" /\ birthday fd = None
        /\ trim (mobileNumber fd) = "" /\ trim (email fd) = ""
        /\ trim (country fd) = "").
Proof.
  intros Hmode. unfold hasChanges. rewrite Hmode. cbn [negb].
  eexists. split; [reflexivity |].
  cbn [existsb formKeys filled getField].
  rewrite !orb_false_iff, !filled_text.
  destruct (birthday fd) as [d |]; intuition congruence.
Qed.

Lemma hasChanges_create_mode_witness :
  exists b,
    hasChanges sampleNewDate createProps sampleForm = Return b
    /\ (b = false <->
        trim (name sampleForm) = "" /\ trim (aboutYou sampleForm) = ""
        /\ birthday sampleForm = None
        /\ trim (mobileNumber sampleForm) = "" /\ trim (email sampleForm) = ""
        /\ trim (country sampleForm) = "").
Proof. apply (hasChanges_create_mode sampleNewDate createProps sampleForm). reflexivity. Defined.

(** X28. The form as the mount effect seeds it from [user] shows no
    unsaved changes, unless the seeded birthday is an Invalid Date (a
    truthy [user.birthday] that [new Date] cannot read): then the call
    of [hasChanges] throws the formatter's [RangeError]. *)
Theorem hasChanges_seeded_form (newDate : value -> date) (props : Props)
    (fd : FormData) :
  ToBoolean (isEditMode props) = true ->
  seeded newDate (user props) fd ->
  hasChanges newDate props fd =
  match birthday fd with
  | Some InvalidDate => Throw (mkError "RangeError" "Invalid time value")
  | _ => Return false
  end.
Proof.
  intros Hedit [Htext Hb].
  rewrite (hasChanges_sameText _ _ _ Hedit Htext), <- Hb.
  destruct (birthday fd) as [[| t] |]; cbn [dateValue].
  - reflexivity.
  - rewrite formatDateForAPI_valid_date. cbn [obind strict_eq].
    now rewrite String.eqb_refl.
  - reflexivity.
Qed.

Lemma hasChanges_seeded_form_witness :
  hasChanges sampleNewDate (editProps (sampleUser "birthday" (VStr "15/06/1995")))
    (mkFormData "Test User" "A sample description" (Some InvalidDate)
       "1234567890" "test@example.com" "USA")
  = Throw (mkError "RangeError" "Invalid time value").
Proof.
  apply (hasChanges_seeded_form sampleNewDate
           (editProps (sampleUser "birthday" (VStr "15/06/1995")))
           (mkFormData "Test User" "A sample description" (Some InvalidDate)
              "1234567890" "test@example.com" "USA")).
  - reflexivity.
  - repeat split.
Defined.

(** X29. In edit mode a text field that differs from the stored one
    answers yes before the birthdays are looked at: [hasChanges]
    returns [true] whatever the two birthdays are, also an Invalid
    Date. *)
Theorem hasChanges_text_differs (newDate : value -> date) (props : Props)
    (fd : FormData) :
  ToBoolean (isEditMode props) = true ->
  ~ sameText (user props) fd ->
  hasChanges newDate props fd = Return true.
Proof.
  intros Hedit Hdiff. unfold hasChanges. rewrite Hedit. cbn [negb].
  destruct (strict_eq (VStr (name fd)) _) eqn:Hn; [| reflexivity].
  destruct (strict_eq (VStr (aboutYou fd)) _) eqn:Ha; [| reflexivity].
  destruct (strict_eq (VStr (email fd)) _) eqn:He; [| reflexivity].
  destruct (strict_eq (VStr (mobileNumber fd)) _) eqn:Hm; [| reflexivity].
  destruct (strict_eq (VStr (country fd)) _) eqn:Hc; [| reflexivity].
  apply strict_eq_string in Hn, Ha, He, Hm, Hc.
  exfalso. apply Hdiff. repeat split; assumption.
Qed.

Lemma hasChanges_text_differs_witness :
  hasChanges sampleNewDate (editProps (sampleUser "birthday" (VStr "15/06/1995")))
    (mkFormData "Test User" "A sample description" (Some InvalidDate)
       "1234567890" "other@example.com" "USA")
  = Return true.
Proof.
  apply (hasChanges_text_differs sampleNewDate
           (editProps (sampleUser "birthday" (VStr "15/06/1995")))
           (mkFormData "Test User" "A sample description" (Some InvalidDate)
              "1234567890" "other@example.com" "USA")).
  - reflexivity.
  - intros (_ & _ & He & _). discriminate He.
Defined.

(** X30. With the text fields as stored, only the UTC calendar day of
    the birthday counts: a birthday at any instant of the stored
    birthday's UTC day is no change. *)
Theorem hasChanges_same_utc_day (newDate : value -> date) (props : Props)
    (fd : FormData) (t t0 : Z) :
  ToBoolean (isEditMode props) = true ->
  sameText (user props) fd ->
  birthday fd = Some (DateAt t) ->
  originalBirthday newDate (user props) = VDate (DateAt t0) ->
  t / msPerDay = t0 / msPerDay ->
  hasChanges newDate props fd = Return false.
Proof.
  intros Hedit Htext Hb Hb0 Hday.
  rewrite (hasChanges_sameText _ _ _ Hedit Htext), Hb, Hb0.
  cbn [dateValue]. rewrite !formatDateForAPI_valid_date, Hday.
  cbn [obind strict_eq]. now rewrite String.eqb_refl.
Qed.

Lemma hasChanges_same_utc_day_witness :
  hasChanges sampleNewDate (editProps (sampleUser "birthday" (VStr "1990-01-01")))
    (mkFormData "Test User" "A sample description" (Some (DateAt 631200000000))
       "1234567890" "test@example.com" "USA")
  = Return false.
Proof.
  apply (hasChanges_same_utc_day sampleNewDate
           (editProps (sampleUser "birthday" (VStr "1990-01-01")))
           (mkFormData "Test User" "A sample description"
              (Some (DateAt 631200000000))
              "1234567890" "test@example.com" "USA")
           631200000000 631152000000).
  - reflexivity.
  - repeat split.
  - reflexivity.
  - reflexivity.
  - reflexivity.
Defined.

(* ================================================================= *)
(** ** The record validator on missing and present fields *)

Lemma In_validateRecord host (userData : list (string * value))
    (isUpdate : bool) (msg : string) :
  In msg (validateRecord host userData isUpdate) <->
  exists key violates,
    In (key, violates, msg) (recordRules host)
    /\ checked isUpdate (lookup_field key userData) = true
    /\ violates (lookup_field key userData) = true.
Proof.
  unfold validateRecord. rewrite in_flat_map. split.
  - intros ([[key violates] msg'] & Hrule & Hmsg).
    destruct (checked isUpdate _) eqn:Hchecked; cbn [andb] in Hmsg;
      [| contradiction].
    destruct (violates _) eqn:Hviolates; [| contradiction].
    destruct Hmsg as [<- | []]. now exists key, violates.
  - intros (key & violates & Hrule & Hchecked & Hviolates).
    exists (key, violates, msg). split; [assumption |].
    rewrite Hchecked, Hviolates. now left.
Qed.

Lemma checked_spec (isUpdate : bool) (v : value) :
  checked isUpdate v = true <-> isUpdate = false \/ v <> VUndefined.
Proof.
  unfold checked.
  destruct isUpdate, v; cbn; split; intros H; try reflexivity;
    try discriminate; try (now left); try (now right);
    destruct H as [H | H]; congruence.
Qed.

Lemma falsy_trimmable (v : value) : ToBoolean v = false -> trimmable v = true.
Proof. intros Hv. unfold trimmable. rewrite Hv. apply orb_true_r. Qed.

Lemma piece_sublist (c : bool) (m : string) (l1 l2 : list string) :
  l1 `sublist_of` l2 -> (if c then [m] else []) ++ l1 `sublist_of` m :: l2.
Proof.
  intros Hsub.
  destruct c; cbn [app]; [now apply sublist_skip | now apply sublist_cons].
Qed.

Lemma validateRecord_sublist host (userData : list (string * value))
    (isUpdate : bool) :
  validateRecord host userData isUpdate `sublist_of` map snd requiredFields.
Proof.
  unfold validateRecord, recordRules, requiredFields. cbn [flat_map map snd].
  repeat apply piece_sublist. reflexivity.
Qed.

(** C4: the validator reports the required fields that are missing, one
    message each, in the order name, email, aboutYou, birthday,
    mobileNumber, country. On a record whose text fields are strings or
    falsy (and whose email [String] can print) it returns a sub-list of
    the six messages; a field that is
    missing (falsy) has its message in the list in create mode, and in
    update mode exactly when the record holds the field (a field that is
    [undefined] is not looked at); a name that is a string has its
    message in the list exactly when, trimmed, it is shorter than two
    characters. So a record in which all six fields are missing, such
    as [{}], gets the six messages in create mode, and a record that
    holds only a name gets at most the name's message in update mode:
    none for [{name: "Bob"}]. *)
Theorem validateUserData_reports_missing_fields host :
  (forall (userData : list (string * value)) (isUpdate : bool),
     Forall (fun key => trimmable (lookup_field key userData) = true)
       ["name"; "aboutYou"; "mobileNumber"; "country"] ->
     printable (lookup_field "email" userData) = true ->
     exists errors,
       validateUserData host userData isUpdate = Return errors
       /\ errors `sublist_of` map snd requiredFields
       /\ (forall key msg,
             In (key, msg) requiredFields ->
             ToBoolean (lookup_field key userData) = false ->
             (In msg errors <->
              isUpdate = false \/ lookup_field key userData <> VUndefined))
       /\ (forall s,
             lookup_field "name" userData = VStr s ->
             (In "Name is required and must be at least 2 characters" errors
              <-> (String.length (trim s) < 2)%nat)))
  /\ (forall userData : list (string * value),
        (forall key msg, In (key, msg) requiredFields ->
                         ToBoolean (lookup_field key userData) = false) ->
        validateUserData host userData false = Return (map snd requiredFields))
  /\ (forall (userData : list (string * value)) (s : string),
        lookup_field "name" userData = VStr s ->
        (forall key, In key ["email"; "aboutYou"; "birthday"; "mobileNumber";
                             "country"] ->
                     lookup_field key userData = VUndefined) ->
        validateUserData host userData true
        = Return (if (String.length (trim s) <? 2)%nat
                  then ["Name is required and must be at least 2 characters"]
                  else []))
  /\ validateUserData host [] false =
     Return [ "Name is required and must be at least 2 characters";
              "Valid email is required";
              "About You is required and must be at least 10 characters";
              "Birthday is required";
              "Mobile number is required";
              "Country is required" ]
  /\ (exists errors,
        validateUserData host [] false = Return errors /\ length errors = 6%nat)
  /\ validateUserData host [("name", VStr "Bob")] true = Return [].
Proof.
  split; [| split; [| split; [| split; [| split]]]].
  - intros userData isUpdate Htyped _.
    exists (validateRecord host userData isUpdate).
    split; [now apply validateUserData_table |].
    split; [apply validateRecord_sublist |]. split.
    + intros key msg Hin Hfalsy. rewrite In_validateRecord, <- checked_spec.
      split.
      * intros (key' & violates & Hrule & Hchecked & _).
        cbn in Hin, Hrule.
        repeat (destruct Hin as [Hin | Hin]; [injection Hin as <- <- |]);
          try contradiction;
          repeat (destruct Hrule as [Hrule | Hrule];
                  [try discriminate Hrule; inversion Hrule; subst key' |]);
          try contradiction; try assumption.
      * intros Hchecked. cbn in Hin.
        repeat (destruct Hin as [Hin | Hin]; [injection Hin as <- <- |]);
          try contradiction;
          eexists _, _; (split; [cbn; eauto 10 |]);
          (split; [assumption |]); now rewrite Hfalsy.
    + intros s Hname. rewrite In_validateRecord. split.
      * intros (key & violates & Hrule & _ & Hviolates). cbn in Hrule.
        repeat (destruct Hrule as [Hrule | Hrule];
                [try discriminate Hrule; inversion Hrule; subst key violates |]);
          try contradiction.
        rewrite Hname in Hviolates. cbn [ToBoolean shorter_than] in Hviolates.
        apply orb_true_iff in Hviolates as [Hempty | Hshort].
        -- apply negb_true_iff, negb_false_iff, String.eqb_eq in Hempty.
           subst s. cbn. lia.
        -- now apply Nat.ltb_lt in Hshort.
      * intros Hshort. eexists _, _. split; [cbn; left; reflexivity |].
        rewrite Hname. split; [apply checked_spec; now right |].
        cbn [ToBoolean shorter_than]. apply orb_true_iff. right.
        now apply Nat.ltb_lt.
  - intros userData Hmissing.
    rewrite validateUserData_table
      by (repeat constructor; apply falsy_trimmable;
          eapply Hmissing; cbn; eauto 10).
    unfold validateRecord, recordRules, requiredFields, checked.
    cbn [flat_map map snd negb orb andb].
    rewrite (Hmissing "name" _ ltac:(cbn; eauto 10)).
    rewrite (Hmissing "email" _ ltac:(cbn; eauto 10)).
    rewrite (Hmissing "aboutYou" _ ltac:(cbn; eauto 10)).
    rewrite (Hmissing "birthday" _ ltac:(cbn; eauto 10)).
    rewrite (Hmissing "mobileNumber" _ ltac:(cbn; eauto 10)).
    rewrite (Hmissing "country" _ ltac:(cbn; eauto 10)).
    reflexivity.
  - intros userData s Hname Habsent.
    rewrite validateUserData_table.
    2: { repeat constructor; cbv beta;
         rewrite ?Hname, ?Habsent by (cbn; tauto); reflexivity. }
    unfold validateRecord, recordRules.
    cbn [flat_map].
    rewrite Hname, !Habsent by (cbn; tauto).
    cbn [checked negb orb andb is_defined ToBoolean shorter_than app].
    destruct (String.eqb_spec s "") as [-> | Hs]; [reflexivity |].
    cbn [negb orb]. now destruct (_ <? _)%nat.
  - reflexivity.
  - eexists. split; reflexivity.
  - reflexivity.
Qed.

Lemma validateUserData_reports_missing_fields_witness :
  exists errors,
    validateUserData utcHost invalidData false = Return errors
    /\ In "Country is required" errors
    /\ In "Name is required and must be at least 2 characters" errors.
Proof.
  destruct (proj1 (validateUserData_reports_missing_fields utcHost)
              invalidData false)
    as (errors & Hrun & _ & Hmissing & Hname).
  - repeat constructor.
  - reflexivity.
  - exists errors. split; [exact Hrun |]. split.
    + apply (Hmissing "country" "Country is required").
      * cbn. tauto.
      * reflexivity.
      * now left.
    + apply (Hname "T"); [reflexivity | vm_compute; lia].
Defined.
